(** * Temporal.PlainYearMonth: a shallow embedding of
      js/src/builtin/temporal/PlainYearMonth.cpp

    The embedding follows the C++ file function by function.  Every
    function of the file that can fail runs in a small monad that
    carries the outcome (a value or a reported error) together with the
    ordered list of calls made to functions that live in other files of
    the engine (the calendar, the duration algebra, the parser, option
    readers).  Those functions are an interface here, [Collaborators];
    the theorems hold for every implementation of the interface, and an
    executable ISO 8601 implementation is supplied to run the embedding
    on concrete year-months.

    Numbers: int32_t slots and integral doubles are integers of [Z];
    the only narrowing cast of the file, [int32_t(x)], is written out.
    Negative zero, allocation failure and cross-compartment wrappers are
    outside the model. *)

From Stdlib Require Import ZArith List String Ascii Bool Lia.
Import ListNotations.
Local Open Scope Z_scope.

(** ** Outcomes *)

Inductive Result (E A : Type) : Type :=
| Ok (a : A)
| Err (e : E).
Arguments Ok {E A} a.
Arguments Err {E A} e.

(** The two native error classes the file can surface. *)
Inductive ErrorType := TypeError | RangeError.

(** ** Enumerations of Temporal.h, TemporalUnit.h, TemporalRoundingMode.h *)

Inductive CalendarId :=
| ISO8601 | Buddhist | Gregorian | Hebrew | Japanese | ROC.

Definition CalendarValue := CalendarId.

Inductive TemporalOverflow := Constrain | Reject.

Inductive TemporalDifference := Until | Since.

Inductive PlainYearMonthDuration := Add | Subtract.

Inductive TemporalUnit :=
| Auto | Year | Month | Week | Day | Hour | Minute | Second
| Millisecond | Microsecond | Nanosecond.

Inductive TemporalUnitGroup := DateGroup | TimeGroup | DateTimeGroup.

Inductive TemporalRoundingMode :=
| Ceil | Floor | Expand | Trunc
| HalfCeil | HalfFloor | HalfExpand | HalfTrunc | HalfEven.

Inductive CalendarField := CF_Year | CF_Month | CF_MonthCode | CF_Day.

Inductive TemporalField :=
| TF_Year | TF_Month | TF_MonthCode | TF_Day | TF_Era | TF_EraYear.

(** ** Records of TemporalTypes.h *)

Record PlainDate := mkPlainDate { year : Z; month : Z; day : Z }.

Record PlainYearMonthWithCalendar :=
  mkYearMonth { ym_date : PlainDate; ym_calendar : CalendarValue }.

Record PlainDateWithCalendar :=
  mkDate { pd_date : PlainDate; pd_calendar : CalendarValue }.

(** The four fixed slots of a PlainYearMonthObject. *)
Record PlainYearMonthObject := mkPlainYearMonthObject {
  ISO_YEAR_SLOT : Z;
  ISO_MONTH_SLOT : Z;
  CALENDAR_SLOT : CalendarValue;
  ISO_DAY_SLOT : Z }.

Record PlainDateObject := mkPlainDateObject {
  DATE_SLOT : PlainDate;
  DATE_CALENDAR_SLOT : CalendarValue }.

Module Duration.
Record t := mk {
  years : Z; months : Z; weeks : Z; days : Z;
  hours : Z; minutes : Z; seconds : Z;
  milliseconds : Z; microseconds : Z; nanoseconds : Z }.

(** [Duration{}]: every component zero. *)
Definition zero : t := mk 0 0 0 0 0 0 0 0 0 0.

(** [Duration{years, months}]: aggregate initialisation, the rest zero. *)
Definition ofYearsMonths (y m : Z) : t := mk y m 0 0 0 0 0 0 0 0.

Definition negate (d : t) : t :=
  mk (- years d) (- months d) (- weeks d) (- days d)
     (- hours d) (- minutes d) (- seconds d)
     (- milliseconds d) (- microseconds d) (- nanoseconds d).
End Duration.

Module DateDuration.
Record t := mk { years : Z; months : Z; weeks : Z; days : Z }.

(** [DateDuration{years, months}]: aggregate initialisation. *)
Definition ofYearsMonths (y m : Z) : t := mk y m 0 0.
End DateDuration.

Record DifferenceSettings := mkSettings {
  smallestUnit : TemporalUnit;
  largestUnit : TemporalUnit;
  roundingMode : TemporalRoundingMode;
  roundingIncrement : Z }.

(** TemporalFields: each field is present or absent. *)
Record TemporalFields := mkFields {
  f_year : option Z;
  f_month : option Z;
  f_monthCode : option string;
  f_day : option Z }.

Definition emptyFields : TemporalFields := mkFields None None None None.

Definition isSome {A} (o : option A) : bool :=
  match o with Some _ => true | None => false end.

Definition has (f : TemporalFields) (k : TemporalField) : bool :=
  match k with
  | TF_Year => isSome (f_year f)
  | TF_Month => isSome (f_month f)
  | TF_MonthCode => isSome (f_monthCode f)
  | TF_Day => isSome (f_day f)
  | TF_Era | TF_EraYear => false
  end.

Definition keys (f : TemporalFields) : list TemporalField :=
  filter (has f) [TF_Year; TF_Month; TF_MonthCode; TF_Day].

Definition setDay (f : TemporalFields) (d : Z) : TemporalFields :=
  mkFields (f_year f) (f_month f) (f_monthCode f) (Some d).

(** ** JavaScript values, as far as the file looks at them *)

Inductive JSNumber := NumInt (n : Z) | NumNaN | NumInfinity (negative : bool).

Inductive Value :=
| UndefinedValue
| NullValue
| BooleanValue (b : bool)
| NumberValue (n : JSNumber)
| StringValue (s : string)
| ObjectValue (o : JSObject)
with JSObject :=
| PlainYearMonthObj (ym : PlainYearMonthObject)
| PlainDateObj (d : PlainDateObject)
| OrdinaryObj (props : list (string * Value)).

Definition isObject (v : Value) : bool :=
  match v with ObjectValue _ => true | _ => false end.

Definition isString (v : Value) : bool :=
  match v with StringValue _ => true | _ => false end.

Definition isUndefined (v : Value) : bool :=
  match v with UndefinedValue => true | _ => false end.

(** CallArgs: [get i] is undefined past the end, [hasDefined i] is
    "present and not undefined". *)
Record CallArgs := mkArgs { isConstructing : bool; argv : list Value }.

Definition get (args : CallArgs) (i : nat) : Value :=
  nth i (argv args) UndefinedValue.

Definition hasDefined (args : CallArgs) (i : nat) : bool :=
  negb (isUndefined (get args i)).

(** [ToPlainDate(PlainYearMonthObject* )]: reads the three ISO slots. *)
Definition ToPlainDate (o : PlainYearMonthObject) : PlainDate :=
  mkPlainDate (ISO_YEAR_SLOT o) (ISO_MONTH_SLOT o) (ISO_DAY_SLOT o).

(** [PlainDate::operator==]. *)
Definition PlainDate_eqb (a b : PlainDate) : bool :=
  (year a =? year b) && (month a =? month b) && (day a =? day b).

(** [int32_t(x)] on an integral double: the value when it fits, and the
    two's-complement wrap otherwise. *)
Definition int32_t (x : Z) : Z := (x + 2 ^ 31) mod 2 ^ 32 - 2 ^ 31.

(** ** Helpers of other files that cannot fail

    These live in Calendar.cpp, PlainDate.cpp and Duration.cpp. *)

(** Modelled from the spec: ToTemporalCalendarIdentifier, the canonical
    identifier string of a built-in calendar. *)
Definition ToTemporalCalendarIdentifier (c : CalendarValue) : string :=
  match c with
  | ISO8601 => "iso8601"
  | Buddhist => "buddhist"
  | Gregorian => "gregory"
  | Hebrew => "hebrew"
  | Japanese => "japanese"
  | ROC => "roc"
  end%string.

(** Modelled from the spec: CalendarEquals, "two CalendarRefs are equal
    iff their canonical identifier strings are equal". *)
Definition CalendarEquals (a b : CalendarValue) : bool :=
  String.eqb (ToTemporalCalendarIdentifier a) (ToTemporalCalendarIdentifier b).

(** Modelled from the spec: the proleptic Gregorian leap-year rule behind
    ThrowIfInvalidISODate. *)
Definition IsISOLeapYear (y : Z) : bool :=
  (y mod 4 =? 0) && (negb (y mod 100 =? 0) || (y mod 400 =? 0)).

(** Modelled from the spec: days of an ISO month, for a month in 1..12. *)
Definition ISODaysInMonth (y m : Z) : Z :=
  if m =? 2 then (if IsISOLeapYear y then 29 else 28)
  else if (m =? 4) || (m =? 6) || (m =? 9) || (m =? 11) then 30
  else 31.

(** Modelled from the spec: IsValidISODate, "a valid proleptic Gregorian
    date": the month is in 1..12 and the day exists in that month. *)
Definition IsValidISODate (y m d : Z) : bool :=
  (1 <=? m) && (m <=? 12) && (1 <=? d) && (d <=? ISODaysInMonth y m).

(** Modelled from the spec: CompareISODate, the "ternary -1 | 0 | +1 over
    ISO (year, month, day) lexicographically". *)
Definition CompareISODate (one two : PlainDate) : Z :=
  if negb (year one =? year two) then
    (if year one <? year two then -1 else 1)
  else if negb (month one =? month two) then
    (if month one <? month two then -1 else 1)
  else if negb (day one =? day two) then
    (if day one <? day two then -1 else 1)
  else 0.

(** Modelled from the spec: day number of an ISO date counted from
    1970-01-01; linear in the day, so a day outside its month is carried. *)
Definition daysFromCivil (y m d : Z) : Z :=
  let y' := if m <=? 2 then y - 1 else y in
  let era := y' / 400 in
  let yoe := y' - era * 400 in
  let mp := (m + 9) mod 12 in
  let doy := (153 * mp + 2) / 5 + d - 1 in
  let doe := yoe * 365 + yoe / 4 - yoe / 100 + doy in
  era * 146097 + doe - 719468.

Definition civilFromDays (z : Z) : PlainDate :=
  let z' := z + 719468 in
  let era := z' / 146097 in
  let doe := z' - era * 146097 in
  let yoe := (doe - doe / 1460 + doe / 36524 - doe / 146096) / 365 in
  let doy := doe - (365 * yoe + yoe / 4 - yoe / 100) in
  let mp := (5 * doy + 2) / 153 in
  let d := doy - (153 * mp + 2) / 5 + 1 in
  let m := if mp <? 10 then mp + 3 else mp - 9 in
  mkPlainDate (yoe + era * 400 + (if m <=? 2 then 1 else 0)) m d.

(** Modelled from the spec: BalanceISOYearMonth, a month outside 1..12 is
    carried into the year. *)
Definition BalanceISOYearMonth (y m : Z) : Z * Z :=
  (y + (m - 1) / 12, (m - 1) mod 12 + 1).

(** Modelled from the spec: BalanceISODate, the ISO date that the triple
    denotes once an out-of-range day (here: day - 1, possibly 0) is
    carried into month and year. *)
Definition BalanceISODate (y m d : Z) : PlainDate :=
  let '(y', m') := BalanceISOYearMonth y m in
  civilFromDays (daysFromCivil y' m' d).

(** Modelled from the spec: DurationSign on a DateDuration, the sign of the
    first non-zero component (negative, zero, positive). *)
Definition DurationSign (d : DateDuration.t) : Z :=
  let fix go (vs : list Z) : Z :=
    match vs with
    | [] => 0
    | v :: rest => if v <? 0 then -1 else if 0 <? v then 1 else go rest
    end in
  go [DateDuration.years d; DateDuration.months d;
      DateDuration.weeks d; DateDuration.days d].

(** Modelled from the spec: NormalizeTimeDuration, the time components of a
    duration as one count of nanoseconds. *)
Definition NormalizeTimeDuration (d : Duration.t) : Z :=
  ((((Duration.hours d * 60 + Duration.minutes d) * 60
     + Duration.seconds d) * 1000
    + Duration.milliseconds d) * 1000
   + Duration.microseconds d) * 1000
  + Duration.nanoseconds d.

Module TimeDuration.
Record t := mk {
  days : Z; hours : Z; minutes : Z; seconds : Z;
  milliseconds : Z; microseconds : Z; nanoseconds : Z }.
End TimeDuration.

Definition unitRank (u : TemporalUnit) : Z :=
  match u with
  | Auto => 0 | Year => 1 | Month => 2 | Week => 3 | Day => 4
  | Hour => 5 | Minute => 6 | Second => 7
  | Millisecond => 8 | Microsecond => 9 | Nanosecond => 10
  end.

(** Modelled from the spec: BalanceTimeDuration, "balance any time fields
    into days" when the largest unit is a day or coarser; each coarser
    component takes the quotient and leaves the remainder, with the sign
    of the whole. *)
Definition BalanceTimeDuration (ns : Z) (largest : TemporalUnit)
  : TimeDuration.t :=
  let upto u := unitRank largest <=? unitRank u in
  let carry (u : TemporalUnit) (per v : Z) : Z * Z :=
    if upto u then (Z.quot v per, Z.rem v per) else (0, v) in
  let '(us, ns0) := carry Microsecond 1000 ns in
  let '(ms, us0) := carry Millisecond 1000 us in
  let '(s, ms0) := carry Second 1000 ms in
  let '(mi, s0) := carry Minute 60 s in
  let '(h, mi0) := carry Hour 60 mi in
  let '(dd, h0) := carry Day 24 h in
  TimeDuration.mk dd h0 mi0 s0 ms0 us0 ns0.

(** ISOYearMonthWithinLimits ( year, month ); lines 66-91. *)
Definition ISOYearMonthWithinLimits (year : Z) (month : Z) : bool :=
  if (year <? -271821) || (year >? 275760) then false
  else if (year =? -271821) && (month <? 4) then false
  else if (year =? 275760) && (month >? 9) then false
  else true.

(** ** Further records used by the difference operation *)

Record PlainTime := mkPlainTime {
  hour : Z; minute : Z; second : Z;
  millisecond : Z; microsecond : Z; nanosecond : Z }.

(** [PlainTime{}]: midnight. *)
Definition midnight : PlainTime := mkPlainTime 0 0 0 0 0 0.

Record PlainDateTime := mkPlainDateTime { dt_date : PlainDate; dt_time : PlainTime }.

(** [TimeZoneValue{}] is the empty time zone. *)
Inductive TimeZoneValue := EmptyTimeZone | NamedTimeZone (id : string).

Record NormalizedDuration :=
  mkNormalizedDuration { nd_date : DateDuration.t; nd_time : Z }.

Record RoundedRelativeDuration :=
  mkRounded { rr_duration : Duration.t }.

(** [Duration::toDateDuration]: the four date components. *)
Definition toDateDuration (d : Duration.t) : DateDuration.t :=
  DateDuration.mk (Duration.years d) (Duration.months d)
                  (Duration.weeks d) (Duration.days d).

(** Modelled from the spec: GetUTCEpochNanoseconds, the nanoseconds from
    the epoch to a date-time read as UTC. *)
Definition GetUTCEpochNanoseconds (dt : PlainDateTime) : Z :=
  let d := dt_date dt in
  let t := dt_time dt in
  daysFromCivil (year d) (month d) (day d) * 86400000000000
  + ((((hour t * 60 + minute t) * 60 + second t) * 1000
      + millisecond t) * 1000 + microsecond t) * 1000
  + nanosecond t.

Definition TemporalUnit_eqb (a b : TemporalUnit) : bool :=
  unitRank a =? unitRank b.

Definition ToName (operation : TemporalDifference) : string :=
  match operation with Until => "until" | Since => "since" end%string.

(** ** Calls that leave the file, and the errors that come back *)

Inductive Call :=
| call_ThrowIfNotConstructing
| call_ToIntegerWithTruncation (v : Value) (name : string)
| call_ToBuiltinCalendar (id : string)
| call_ThrowIfInvalidISODate (y m d : Z)
| call_GetPrototypeFromBuiltinConstructor
| call_GetTemporalCalendarWithISODefault (item : JSObject)
| call_PrepareCalendarFields
    (c : CalendarValue) (item : JSObject) (names : list CalendarField)
| call_PrepareCalendarFieldsAndFieldNames
    (c : CalendarValue) (ym : PlainYearMonthObject) (names : list CalendarField)
| call_PrepareTemporalFields (o : JSObject) (names : list TemporalField)
| call_CalendarYearMonthFromFields
    (c : CalendarValue) (f : TemporalFields) (overflow : TemporalOverflow)
| call_CalendarYearMonthFromFields_object
    (c : CalendarValue) (ym : PlainYearMonthObject) (overflow : TemporalOverflow)
| call_CalendarDateFromFields
    (c : CalendarValue) (f : TemporalFields) (overflow : TemporalOverflow)
| call_ParseTemporalYearMonthString (s : string)
| call_RequireObjectArg (v : Value)
| call_GetDifferenceSettings
    (operation : TemporalDifference) (options : JSObject)
    (group : TemporalUnitGroup)
    (smallestAllowed fallbackSmallest smallestLargestDefault : TemporalUnit)
| call_GetTemporalOverflowOption (options : JSObject)
| call_ToTemporalDurationRecord (v : Value)
| call_CalendarDateUntil
    (c : CalendarValue) (one two : PlainDateWithCalendar) (largest : TemporalUnit)
| call_RoundRelativeDuration
    (d : NormalizedDuration) (destEpochNs : Z) (dt : PlainDateTime)
    (c : CalendarValue) (tz : TimeZoneValue) (s : DifferenceSettings)
| call_CalendarDateAdd
    (c : CalendarValue) (d : PlainDateWithCalendar) (dur : DateDuration.t)
    (overflow : TemporalOverflow)
| call_CreateTemporalDate (iso : PlainDate) (c : CalendarValue)
| call_CalendarDay (c : CalendarValue) (d : PlainDate)
| call_AddDate
    (c : CalendarValue) (d : PlainDateWithCalendar) (dur : DateDuration.t)
    (overflow : TemporalOverflow).

(** The three messages this file reports itself (JS_ReportErrorNumberASCII,
    ReportValueError). *)
Inductive JSErrNum :=
| JSMSG_TEMPORAL_PLAIN_YEAR_MONTH_INVALID
| JSMSG_TEMPORAL_CALENDAR_INCOMPATIBLE (one two : string)
| JSMSG_UNEXPECTED_TYPE (v : Value) (what : string).

(** An error is either reported here, or it was raised inside a call that
    left the file and is passed on unchanged. *)
Inductive Error :=
| Reported (n : JSErrNum)
| Raised (origin : Call) (t : ErrorType).

(** Modelled from the spec: the error class of each message (js.msg): the
    year-month limits and incompatible calendars are range errors, a value
    of the wrong shape is a type error. *)
Definition JSExnType (n : JSErrNum) : ErrorType :=
  match n with
  | JSMSG_TEMPORAL_PLAIN_YEAR_MONTH_INVALID => RangeError
  | JSMSG_TEMPORAL_CALENDAR_INCOMPATIBLE _ _ => RangeError
  | JSMSG_UNEXPECTED_TYPE _ _ => TypeError
  end.

Definition errorType (e : Error) : ErrorType :=
  match e with
  | Reported n => JSExnType n
  | Raised _ t => t
  end.

(** ** The monad: an outcome and the calls made on the way to it *)

Definition M (A : Type) : Type := list Call * Result Error A.

Definition ret {A} (a : A) : M A := ([], Ok a).

Definition throw {A} (e : Error) : M A := ([], Err e).

Definition bind {A B} (m : M A) (k : A -> M B) : M B :=
  match m with
  | (t, Err e) => (t, Err e)
  | (t, Ok a) => let '(t', r) := k a in (t ++ t', r)
  end.

(** One call to a collaborator: logged, and its failure passed on. *)
Definition call {A} (c : Call) (r : Result ErrorType A) : M A :=
  ([c], match r with Ok a => Ok a | Err t => Err (Raised c t) end).

Definition trace {A} (m : M A) : list Call := fst m.

Definition outcome {A} (m : M A) : Result Error A := snd m.

Declare Scope m_scope.
Delimit Scope m_scope with M.
Notation "x <- c1 ;; c2" := (bind c1 (fun x => c2))
  (at level 61, c1 at next level, right associativity) : m_scope.
Notation "' pat <- c1 ;; c2" := (bind c1 (fun x => match x with pat => c2 end))
  (at level 61, pat pattern, c1 at next level, right associativity) : m_scope.
Local Open Scope m_scope.

(** ** The interface to the rest of the engine

    One field per fallible function of another file that this file calls;
    each returns its value or the class of the error it raised. *)
Class Collaborators := {
  ToIntegerWithTruncation_impl : Value -> string -> Result ErrorType Z;
  ToBuiltinCalendar_impl : string -> Result ErrorType CalendarValue;
  GetPrototypeFromBuiltinConstructor_impl : CallArgs -> Result ErrorType unit;
  GetTemporalCalendarWithISODefault_impl :
    JSObject -> Result ErrorType CalendarValue;
  PrepareCalendarFields_impl :
    CalendarValue -> JSObject -> list CalendarField ->
    Result ErrorType TemporalFields;
  PrepareCalendarFieldsAndFieldNames_impl :
    CalendarValue -> PlainYearMonthObject -> list CalendarField ->
    Result ErrorType TemporalFields;
  PrepareTemporalFields_impl :
    JSObject -> list TemporalField -> Result ErrorType TemporalFields;
  CalendarYearMonthFromFields_impl :
    CalendarValue -> TemporalFields -> TemporalOverflow ->
    Result ErrorType PlainYearMonthWithCalendar;
  CalendarYearMonthFromFields_object_impl :
    CalendarValue -> PlainYearMonthObject -> TemporalOverflow ->
    Result ErrorType PlainYearMonthWithCalendar;
  CalendarDateFromFields_impl :
    CalendarValue -> TemporalFields -> TemporalOverflow ->
    Result ErrorType PlainDateWithCalendar;
  ParseTemporalYearMonthString_impl :
    string -> Result ErrorType (PlainDate * option string);
  GetDifferenceSettings_impl :
    TemporalDifference -> JSObject -> TemporalUnitGroup ->
    TemporalUnit -> TemporalUnit -> TemporalUnit ->
    Result ErrorType DifferenceSettings;
  GetTemporalOverflowOption_impl :
    JSObject -> TemporalOverflow -> Result ErrorType TemporalOverflow;
  ToTemporalDurationRecord_impl : Value -> Result ErrorType Duration.t;
  CalendarDateUntil_impl :
    CalendarValue -> PlainDateWithCalendar -> PlainDateWithCalendar ->
    TemporalUnit -> Result ErrorType DateDuration.t;
  RoundRelativeDuration_impl :
    NormalizedDuration -> Z -> PlainDateTime -> CalendarValue ->
    TimeZoneValue -> DifferenceSettings ->
    Result ErrorType RoundedRelativeDuration;
  CalendarDateAdd_impl :
    CalendarValue -> PlainDateWithCalendar -> DateDuration.t ->
    TemporalOverflow -> Result ErrorType PlainDate;
  CreateTemporalDate_impl :
    PlainDate -> CalendarValue -> Result ErrorType PlainDateWithCalendar;
  CalendarDay_impl : CalendarValue -> PlainDate -> Result ErrorType Z;
  AddDate_impl :
    CalendarValue -> PlainDateWithCalendar -> DateDuration.t ->
    TemporalOverflow -> Result ErrorType PlainDate }.

(** ** PlainYearMonth.cpp *)

Section PlainYearMonth.

Context {collaborators : Collaborators}.

(** *** The calls, logged *)

Definition ToIntegerWithTruncation (v : Value) (name : string) : M Z :=
  call (call_ToIntegerWithTruncation v name) (ToIntegerWithTruncation_impl v name).

Definition ToBuiltinCalendar (id : string) : M CalendarValue :=
  call (call_ToBuiltinCalendar id) (ToBuiltinCalendar_impl id).

Definition GetPrototypeFromBuiltinConstructor (args : CallArgs) : M unit :=
  call call_GetPrototypeFromBuiltinConstructor
       (GetPrototypeFromBuiltinConstructor_impl args).

Definition GetTemporalCalendarWithISODefault (item : JSObject) : M CalendarValue :=
  call (call_GetTemporalCalendarWithISODefault item)
       (GetTemporalCalendarWithISODefault_impl item).

Definition PrepareCalendarFields
  (c : CalendarValue) (item : JSObject) (names : list CalendarField)
  : M TemporalFields :=
  call (call_PrepareCalendarFields c item names)
       (PrepareCalendarFields_impl c item names).

Definition PrepareCalendarFieldsAndFieldNames
  (c : CalendarValue) (ym : PlainYearMonthObject) (names : list CalendarField)
  : M TemporalFields :=
  call (call_PrepareCalendarFieldsAndFieldNames c ym names)
       (PrepareCalendarFieldsAndFieldNames_impl c ym names).

Definition PrepareTemporalFields (o : JSObject) (names : list TemporalField)
  : M TemporalFields :=
  call (call_PrepareTemporalFields o names) (PrepareTemporalFields_impl o names).

Definition CalendarYearMonthFromFields
  (c : CalendarValue) (f : TemporalFields) (overflow : TemporalOverflow)
  : M PlainYearMonthWithCalendar :=
  call (call_CalendarYearMonthFromFields c f overflow)
       (CalendarYearMonthFromFields_impl c f overflow).

(** The overload that takes the year-month object itself. *)
Definition CalendarYearMonthFromFields_object
  (c : CalendarValue) (ym : PlainYearMonthObject) (overflow : TemporalOverflow)
  : M PlainYearMonthWithCalendar :=
  call (call_CalendarYearMonthFromFields_object c ym overflow)
       (CalendarYearMonthFromFields_object_impl c ym overflow).

Definition CalendarDateFromFields
  (c : CalendarValue) (f : TemporalFields) (overflow : TemporalOverflow)
  : M PlainDateWithCalendar :=
  call (call_CalendarDateFromFields c f overflow)
       (CalendarDateFromFields_impl c f overflow).

Definition ParseTemporalYearMonthString (s : string)
  : M (PlainDate * option string) :=
  call (call_ParseTemporalYearMonthString s) (ParseTemporalYearMonthString_impl s).

Definition GetDifferenceSettings
  (operation : TemporalDifference) (options : JSObject)
  (group : TemporalUnitGroup)
  (smallestAllowed fallbackSmallest smallestLargestDefault : TemporalUnit)
  : M DifferenceSettings :=
  call (call_GetDifferenceSettings operation options group smallestAllowed
          fallbackSmallest smallestLargestDefault)
       (GetDifferenceSettings_impl operation options group smallestAllowed
          fallbackSmallest smallestLargestDefault).

Definition GetTemporalOverflowOption
  (options : JSObject) (overflow : TemporalOverflow) : M TemporalOverflow :=
  call (call_GetTemporalOverflowOption options)
       (GetTemporalOverflowOption_impl options overflow).

Definition ToTemporalDurationRecord (v : Value) : M Duration.t :=
  call (call_ToTemporalDurationRecord v) (ToTemporalDurationRecord_impl v).

Definition CalendarDateUntil
  (c : CalendarValue) (one two : PlainDateWithCalendar) (largest : TemporalUnit)
  : M DateDuration.t :=
  call (call_CalendarDateUntil c one two largest)
       (CalendarDateUntil_impl c one two largest).

Definition RoundRelativeDuration
  (d : NormalizedDuration) (destEpochNs : Z) (dt : PlainDateTime)
  (c : CalendarValue) (tz : TimeZoneValue)
  (largest : TemporalUnit) (increment : Z) (smallest : TemporalUnit)
  (mode : TemporalRoundingMode) : M RoundedRelativeDuration :=
  let s := mkSettings smallest largest mode increment in
  call (call_RoundRelativeDuration d destEpochNs dt c tz s)
       (RoundRelativeDuration_impl d destEpochNs dt c tz s).

Definition CalendarDateAdd
  (c : CalendarValue) (d : PlainDateWithCalendar) (dur : DateDuration.t)
  (overflow : TemporalOverflow) : M PlainDate :=
  call (call_CalendarDateAdd c d dur overflow) (CalendarDateAdd_impl c d dur overflow).

Definition CreateTemporalDate (iso : PlainDate) (c : CalendarValue)
  : M PlainDateWithCalendar :=
  call (call_CreateTemporalDate iso c) (CreateTemporalDate_impl iso c).

Definition CalendarDay (c : CalendarValue) (d : PlainDate) : M Z :=
  call (call_CalendarDay c d) (CalendarDay_impl c d).

Definition AddDate
  (c : CalendarValue) (d : PlainDateWithCalendar) (dur : DateDuration.t)
  (overflow : TemporalOverflow) : M PlainDate :=
  call (call_AddDate c d dur overflow) (AddDate_impl c d dur overflow).

(** Modelled from the spec: ThrowIfInvalidISODate, which raises a range
    error unless the triple is a valid proleptic Gregorian date. *)
Definition ThrowIfInvalidISODate (y m d : Z) : M unit :=
  call (call_ThrowIfInvalidISODate y m d)
       (if IsValidISODate y m d then Ok tt else Err RangeError).

(** Modelled from the spec: ThrowIfNotConstructing, a type error when the
    constructor is called as a function. *)
Definition ThrowIfNotConstructing (args : CallArgs) : M unit :=
  call call_ThrowIfNotConstructing
       (if isConstructing args then Ok tt else Err TypeError).

(** Modelled from the spec: RequireObjectArg, a type error for a
    "non-object where object required". *)
Definition RequireObjectArg (v : Value) : M JSObject :=
  call (call_RequireObjectArg v)
       (match v with ObjectValue o => Ok o | _ => Err TypeError end).

(** Modelled from the spec: CreateTemporalDuration, "construct and return
    the Duration"; the null result of the C++ is allocation failure. *)
Definition CreateTemporalDuration (d : Duration.t) : M Duration.t := ret d.

(** *** CreateTemporalYearMonth, four overloads *)

(** CreateTemporalYearMonth(cx, args, isoYear, isoMonth, isoDay, calendar);
    lines 104-153. *)
Definition CreateTemporalYearMonth_args
  (args : CallArgs) (isoYear isoMonth isoDay : Z) (calendar : CalendarValue)
  : M PlainYearMonthObject :=
  (* Step 1. *)
  _ <- ThrowIfInvalidISODate isoYear isoMonth isoDay ;;
  (* Step 2. *)
  if negb (ISOYearMonthWithinLimits isoYear (int32_t isoMonth)) then
    throw (Reported JSMSG_TEMPORAL_PLAIN_YEAR_MONTH_INVALID)
  else
  (* Steps 3-4. *)
  _ <- GetPrototypeFromBuiltinConstructor args ;;
  (* Steps 5-9. *)
  ret (mkPlainYearMonthObject (int32_t isoYear) (int32_t isoMonth)
         calendar (int32_t isoDay)).

(** CreateTemporalYearMonth(cx, date, calendar); lines 159-196. *)
Definition CreateTemporalYearMonth_date
  (date : PlainDate) (calendar : CalendarValue) : M PlainYearMonthObject :=
  let '(mkPlainDate isoYear isoMonth isoDay) := date in
  (* Step 1. *)
  _ <- ThrowIfInvalidISODate isoYear isoMonth isoDay ;;
  (* Step 2. *)
  if negb (ISOYearMonthWithinLimits isoYear isoMonth) then
    throw (Reported JSMSG_TEMPORAL_PLAIN_YEAR_MONTH_INVALID)
  else
  (* Steps 3-9. *)
  ret (mkPlainYearMonthObject isoYear isoMonth calendar isoDay).

(** CreateTemporalYearMonth(cx, yearMonth); lines 202-207. *)
Definition CreateTemporalYearMonth_handle
  (yearMonth : PlainYearMonthWithCalendar) : M PlainYearMonthObject :=
  CreateTemporalYearMonth_date (ym_date yearMonth) (ym_calendar yearMonth).

(** CreateTemporalYearMonth(cx, date, calendar, result); lines 213-233. *)
Definition CreateTemporalYearMonth_result
  (date : PlainDate) (calendar : CalendarValue) : M PlainYearMonthWithCalendar :=
  let '(mkPlainDate isoYear isoMonth isoDay) := date in
  (* Step 1. *)
  _ <- ThrowIfInvalidISODate isoYear isoMonth isoDay ;;
  (* Step 2. *)
  if negb (ISOYearMonthWithinLimits isoYear isoMonth) then
    throw (Reported JSMSG_TEMPORAL_PLAIN_YEAR_MONTH_INVALID)
  else
  (* Steps 3-9. *)
  ret (mkYearMonth date calendar).

(** *** ToTemporalYearMonth, three overloads *)

(** ToTemporalYearMonth(cx, Handle<JSObject*>, overflow, result);
    lines 238-274. *)
Definition ToTemporalYearMonth_object
  (item : JSObject) (overflow : TemporalOverflow)
  : M PlainYearMonthWithCalendar :=
  match item with
  | PlainYearMonthObj plainYearMonth =>
      (* Step 2.a. *)
      ret (mkYearMonth (ToPlainDate plainYearMonth) (CALENDAR_SLOT plainYearMonth))
  | _ =>
      (* Step 2.b. *)
      calendar <- GetTemporalCalendarWithISODefault item ;;
      (* Step 2.c. *)
      fields <- PrepareCalendarFields calendar item
                  [CF_Month; CF_MonthCode; CF_Year] ;;
      (* Step 2.d. *)
      CalendarYearMonthFromFields calendar fields overflow
  end.

(** ToTemporalYearMonth(cx, Handle<Value>, overflow, result);
    lines 279-325. *)
Definition ToTemporalYearMonth
  (item : Value) (overflow : TemporalOverflow) : M PlainYearMonthWithCalendar :=
  match item with
  | ObjectValue itemObj =>
      (* Step 2. *)
      ToTemporalYearMonth_object itemObj overflow
  | StringValue string =>
      (* Step 4. *)
      '(date, calendarString) <- ParseTemporalYearMonthString string ;;
      (* Steps 5-8. *)
      calendar <- match calendarString with
                  | Some id => ToBuiltinCalendar id
                  | None => ret ISO8601
                  end ;;
      (* Step 9. *)
      obj <- CreateTemporalYearMonth_date date calendar ;;
      (* Steps 10-11. *)
      CalendarYearMonthFromFields_object calendar obj Constrain
  | _ =>
      (* Step 3. *)
      throw (Reported (JSMSG_UNEXPECTED_TYPE item "not a string"))
  end.

(** ToTemporalYearMonth(cx, Handle<Value>, result); lines 330-334. *)
Definition ToTemporalYearMonth_default (item : Value)
  : M PlainYearMonthWithCalendar :=
  ToTemporalYearMonth item Constrain.

(** *** DifferenceTemporalPlainYearMonth; lines 339-511

    The function is embedded in four pieces, in the order of the C++
    text; [yearMonth] is the receiver, [args.thisv()], which the caller
    has already checked to be a PlainYearMonth. *)

(** Lines 353-364: the object handed to PrepareTemporalFields, the
    argument itself when it is a PlainYearMonth and a fresh object
    otherwise. *)
Definition otherYearMonthObject
  (arg : Value) (other : PlainYearMonthWithCalendar) : M JSObject :=
  match arg with
  | ObjectValue (PlainYearMonthObj o) =>
      ret (PlainYearMonthObj o)
  | _ =>
      obj <- CreateTemporalYearMonth_handle other ;;
      ret (PlainYearMonthObj obj)
  end.

(** Steps 5-6, lines 378-402: the settings, read from the options or
    defaulted. *)
Definition resolveDifferenceSettings
  (operation : TemporalDifference) (args : CallArgs) : M DifferenceSettings :=
  if hasDefined args 1 then
    options <- RequireObjectArg (get args 1) ;;
    (* Step 6. *)
    GetDifferenceSettings operation options DateGroup Month Month Year
  else
    (* Steps 5-6. *)
    ret (mkSettings Month Year Trunc 1).

(** Steps 15-16, lines 470-495: the rounding step, taken unless the
    smallest unit is a month and the increment is one. *)
Definition roundDateDuration
  (calendar : CalendarValue) (settings : DifferenceSettings)
  (thisDate otherDate : PlainDateWithCalendar) (dateDuration : DateDuration.t)
  : M DateDuration.t :=
  if negb (TemporalUnit_eqb (smallestUnit settings) Month)
     || negb (roundingIncrement settings =? 1) then
    (* Step 15. *)
    let duration := mkNormalizedDuration dateDuration 0 in
    (* Step 16.a. *)
    let otherDateTime := mkPlainDateTime (pd_date otherDate) midnight in
    let destEpochNs := GetUTCEpochNanoseconds otherDateTime in
    (* Step 16.b. *)
    let dateTime := mkPlainDateTime (pd_date thisDate) midnight in
    (* Step 16.c. *)
    let timeZone := EmptyTimeZone in
    relative <- RoundRelativeDuration duration destEpochNs dateTime calendar
                  timeZone (largestUnit settings) (roundingIncrement settings)
                  (smallestUnit settings) (roundingMode settings) ;;
    ret (toDateDuration (rr_duration relative))
  else ret dateDuration.

(** Steps 8-17, lines 415-510: the difference of two year-months whose
    ISO anchors differ. *)
Definition differenceOfAnchors
  (operation : TemporalDifference) (yearMonth : PlainYearMonthObject)
  (calendar : CalendarValue) (otherYearMonth : JSObject)
  (settings : DifferenceSettings) : M Duration.t :=
  (* Step 8. *)
  thisFields <- PrepareCalendarFieldsAndFieldNames calendar yearMonth
                  [CF_MonthCode; CF_Year] ;;
  let thisFieldNames := keys thisFields in
  (* Step 9. *)
  let thisFields := setDay thisFields 1 in
  (* Step 10. *)
  thisDate <- CalendarDateFromFields calendar thisFields Constrain ;;
  (* Step 11. *)
  otherFields <- PrepareTemporalFields otherYearMonth thisFieldNames ;;
  (* Step 12. *)
  let otherFields := setDay otherFields 1 in
  (* Step 13. *)
  otherDate <- CalendarDateFromFields calendar otherFields Constrain ;;
  (* Step 14. *)
  until <- CalendarDateUntil calendar thisDate otherDate (largestUnit settings) ;;
  let dateDuration :=
    DateDuration.ofYearsMonths (DateDuration.years until)
                               (DateDuration.months until) in
  (* Steps 15-16. *)
  dateDuration <- roundDateDuration calendar settings thisDate otherDate
                    dateDuration ;;
  (* Step 17. *)
  let duration :=
    Duration.ofYearsMonths (DateDuration.years dateDuration)
                           (DateDuration.months dateDuration) in
  let duration :=
    match operation with
    | Since => Duration.negate duration
    | Until => duration
    end in
  CreateTemporalDuration duration.

Definition DifferenceTemporalPlainYearMonth
  (operation : TemporalDifference) (yearMonth : PlainYearMonthObject)
  (args : CallArgs) : M Duration.t :=
  (* Step 2. *)
  other <- ToTemporalYearMonth_default (get args 0) ;;
  otherYearMonth <- otherYearMonthObject (get args 0) other ;;
  (* Step 3. *)
  let calendar := CALENDAR_SLOT yearMonth in
  (* Step 4. *)
  if negb (CalendarEquals calendar (ym_calendar other)) then
    throw (Reported (JSMSG_TEMPORAL_CALENDAR_INCOMPATIBLE
                       (ToTemporalCalendarIdentifier calendar)
                       (ToTemporalCalendarIdentifier (ym_calendar other))))
  else
  (* Steps 5-6. *)
  settings <- resolveDifferenceSettings operation args ;;
  (* Step 7. *)
  if PlainDate_eqb (ToPlainDate yearMonth) (ym_date other) then
    CreateTemporalDuration Duration.zero
  else
  (* Steps 8-17. *)
  differenceOfAnchors operation yearMonth calendar otherYearMonth settings.

(** Steps 14-15 of the next function (lines 601-657): the date that the
    duration is added to. *)
Definition anchorDate
  (sign : Z) (calendar : CalendarValue)
  (intermediateDate : PlainDateWithCalendar) (fieldsCopy : TemporalFields)
  : M PlainDateWithCalendar :=
  if sign <? 0 then
    (* Step 14.a. *)
    let oneMonthDuration := DateDuration.ofYearsMonths 0 1 in
    (* Step 14.b. *)
    nextMonth <- CalendarDateAdd calendar intermediateDate oneMonthDuration
                   Constrain ;;
    (* Step 14.c. *)
    let endOfMonthISO :=
      BalanceISODate (year nextMonth) (month nextMonth) (day nextMonth - 1) in
    (* Step 14.d. *)
    endOfMonth <- CreateTemporalDate endOfMonthISO calendar ;;
    (* Step 14.e. *)
    day <- CalendarDay calendar (pd_date endOfMonth) ;;
    (* Step 14.f. *)
    let fieldsCopy := setDay fieldsCopy day in
    (* Step 14.g. *)
    CalendarDateFromFields calendar fieldsCopy Constrain
  else
    (* Step 15.a. *)
    ret intermediateDate.

(** *** AddDurationToOrSubtractDurationFromPlainYearMonth; lines 519-695 *)

(** Steps 3-4, lines 535-551 (and the same text in from, lines 764-777):
    the overflow option, constrain unless the options say otherwise. *)
Definition overflowOption (args : CallArgs) : M TemporalOverflow :=
  if hasDefined args 1 then
    (* Step 3. *)
    options <- RequireObjectArg (get args 1) ;;
    (* Step 4. *)
    GetTemporalOverflowOption options Constrain
  else ret Constrain.

(** Steps 5-7 and 16, lines 553-565: the time components balanced into
    days and added to the date components. *)
Definition durationToAddOf (duration : Duration.t) : DateDuration.t :=
  (* Step 5. *)
  let timeDuration := NormalizeTimeDuration duration in
  (* Step 6. *)
  let balancedTime := BalanceTimeDuration timeDuration Day in
  (* Steps 7 and 16. *)
  DateDuration.mk (Duration.years duration) (Duration.months duration)
    (Duration.weeks duration)
    (Duration.days duration + TimeDuration.days balancedTime).

Definition AddDurationToOrSubtractDurationFromPlainYearMonth
  (operation : PlainYearMonthDuration) (yearMonth : PlainYearMonthObject)
  (args : CallArgs) : M PlainYearMonthObject :=
  (* Step 1. *)
  duration <- ToTemporalDurationRecord (get args 0) ;;
  (* Step 2. *)
  let duration :=
    match operation with
    | Subtract => Duration.negate duration
    | Add => duration
    end in
  (* Steps 3-4. *)
  overflow <- overflowOption args ;;
  (* Steps 5-7 and 16. *)
  let durationToAdd := durationToAddOf duration in
  (* Step 8. *)
  let sign := DurationSign durationToAdd in
  (* Step 9. *)
  let calendar := CALENDAR_SLOT yearMonth in
  (* Step 10. *)
  fields <- PrepareCalendarFieldsAndFieldNames calendar yearMonth
              [CF_MonthCode; CF_Year] ;;
  let fieldNames := keys fields in
  (* Step 11. *)
  let fieldsCopy := fields in
  (* Step 12. *)
  let fields := setDay fields 1 in
  (* Step 13. *)
  intermediateDate <- CalendarDateFromFields calendar fields Constrain ;;
  (* Steps 14-15. *)
  date <- anchorDate sign calendar intermediateDate fieldsCopy ;;
  (* Step 17. *)
  addedDate <- AddDate calendar date durationToAdd overflow ;;
  addedDateObj <- (d <- CreateTemporalDate addedDate calendar ;;
                   ret (mkPlainDateObject (pd_date d) (pd_calendar d))) ;;
  (* Step 18. *)
  addedDateFields <- PrepareTemporalFields (PlainDateObj addedDateObj) fieldNames ;;
  (* Step 19. *)
  result <- CalendarYearMonthFromFields calendar addedDateFields overflow ;;
  CreateTemporalYearMonth_handle result.

(** *** The natives *)

(** Temporal.PlainYearMonth ( isoYear, isoMonth [ , calendarLike [ ,
    referenceISODay ] ] ); lines 701-755. *)
Definition PlainYearMonthConstructor (args : CallArgs) : M PlainYearMonthObject :=
  (* Step 1. *)
  _ <- ThrowIfNotConstructing args ;;
  (* Step 3. *)
  isoYear <- ToIntegerWithTruncation (get args 0) "year" ;;
  (* Step 4. *)
  isoMonth <- ToIntegerWithTruncation (get args 1) "month" ;;
  (* Steps 5-8. *)
  calendar <-
    (if hasDefined args 2 then
       match get args 2 with
       | StringValue calendarString => ToBuiltinCalendar calendarString
       | v => throw (Reported (JSMSG_UNEXPECTED_TYPE v "not a string"))
       end
     else ret ISO8601) ;;
  (* Steps 2 and 9. *)
  isoDay <-
    (if hasDefined args 3 then ToIntegerWithTruncation (get args 3) "day"
     else ret 1) ;;
  (* Step 10. *)
  CreateTemporalYearMonth_args args isoYear isoMonth isoDay calendar.

(** Temporal.PlainYearMonth.from ( item [ , options ] ); lines 760-792. *)
Definition PlainYearMonth_from (args : CallArgs) : M PlainYearMonthObject :=
  (* Steps 1-2. *)
  overflow <- overflowOption args ;;
  (* Step 3. *)
  yearMonth <- ToTemporalYearMonth (get args 0) overflow ;;
  CreateTemporalYearMonth_handle yearMonth.

(** Temporal.PlainYearMonth.compare ( one, two ); lines 797-815. *)
Definition PlainYearMonth_compare (args : CallArgs) : M Z :=
  (* Step 1. *)
  one <- ToTemporalYearMonth_default (get args 0) ;;
  (* Step 2. *)
  two <- ToTemporalYearMonth_default (get args 1) ;;
  (* Step 3. *)
  ret (CompareISODate (ym_date one) (ym_date two)).

(** Temporal.PlainYearMonth.prototype.add; lines 1127-1131. *)
Definition PlainYearMonth_add (yearMonth : PlainYearMonthObject) (args : CallArgs)
  : M PlainYearMonthObject :=
  AddDurationToOrSubtractDurationFromPlainYearMonth Add yearMonth args.

(** Temporal.PlainYearMonth.prototype.subtract; lines 1146-1150. *)
Definition PlainYearMonth_subtract
  (yearMonth : PlainYearMonthObject) (args : CallArgs) : M PlainYearMonthObject :=
  AddDurationToOrSubtractDurationFromPlainYearMonth Subtract yearMonth args.

(** Temporal.PlainYearMonth.prototype.until; lines 1166-1169. *)
Definition PlainYearMonth_until (yearMonth : PlainYearMonthObject) (args : CallArgs)
  : M Duration.t :=
  DifferenceTemporalPlainYearMonth Until yearMonth args.

(** Temporal.PlainYearMonth.prototype.since; lines 1183-1186. *)
Definition PlainYearMonth_since (yearMonth : PlainYearMonthObject) (args : CallArgs)
  : M Duration.t :=
  DifferenceTemporalPlainYearMonth Since yearMonth args.

(** Temporal.PlainYearMonth.prototype.equals; lines 1200-1217. *)
Definition PlainYearMonth_equals (yearMonth : PlainYearMonthObject) (args : CallArgs)
  : M bool :=
  let date := ToPlainDate yearMonth in
  let calendar := CALENDAR_SLOT yearMonth in
  (* Step 3. *)
  other <- ToTemporalYearMonth_default (get args 0) ;;
  (* Steps 4-7. *)
  let equals :=
    PlainDate_eqb date (ym_date other)
    && CalendarEquals calendar (ym_calendar other) in
  ret equals.

End PlainYearMonth.

(** ** An executable implementation of the interface: ISO 8601

    Modelled from the spec: the collaborators of its section 6, for the
    calendars whose months and days are those of the ISO calendar
    (iso8601 and gregory); the other built-in calendars are recognised by
    name and their arithmetic is reported as a range error.  The general
    theorems below hold for every implementation of the interface; this
    one runs the embedding on concrete year-months. *)
Module ISO.

Local Open Scope string_scope.
Local Open Scope Z_scope.

Definition getProp (props : list (string * Value)) (name : string) : Value :=
  match find (fun kv => String.eqb (fst kv) name) props with
  | Some kv => snd kv
  | None => UndefinedValue
  end.

Definition propsOf (o : JSObject) : list (string * Value) :=
  match o with OrdinaryObj props => props | _ => [] end.

Definition digitOf (c : ascii) : option Z :=
  let n := Z.of_nat (nat_of_ascii c) in
  if (48 <=? n) && (n <=? 57) then Some (n - 48) else None.

(** Exactly [k] decimal digits at the head of [s]. *)
Fixpoint digits (k : nat) (acc : Z) (s : string) : option (Z * string) :=
  match k with
  | O => Some (acc, s)
  | S k' =>
      match s with
      | String c rest =>
          match digitOf c with
          | Some d => digits k' (acc * 10 + d) rest
          | None => None
          end
      | EmptyString => None
      end
  end.

Definition expect (c : ascii) (s : string) : option string :=
  match s with
  | String c' rest => if Ascii.eqb c c' then Some rest else None
  | EmptyString => None
  end.

Definition optional (c : ascii) (s : string) : string :=
  match expect c s with Some rest => rest | None => s end.

(** The text up to the closing bracket, and what follows it. *)
Fixpoint upToBracket (s : string) : option (string * string) :=
  match s with
  | EmptyString => None
  | String c rest =>
      if Ascii.eqb c "]" then Some (EmptyString, rest)
      else match upToBracket rest with
           | Some (body, tail) => Some (String c body, tail)
           | None => None
           end
  end.

Definition isPrefix (p s : string) : bool := String.prefix p s.

Definition dropPrefix (p s : string) : string :=
  String.substring (String.length p) (String.length s - String.length p)%nat s.

(** Annotations [[key=value]]; the first u-ca annotation names the calendar. *)
Fixpoint annotations (fuel : nat) (s : string) (found : option string)
  : option (option string) :=
  match fuel with
  | O => None
  | S fuel' =>
      match s with
      | EmptyString => Some found
      | String c rest =>
          if Ascii.eqb c "[" then
            match upToBracket (optional "!" rest) with
            | Some (body, tail) =>
                let found' :=
                  match found with
                  | Some _ => found
                  | None => if isPrefix "u-ca=" body
                            then Some (dropPrefix "u-ca=" body) else None
                  end in
                annotations fuel' tail found'
            | None => None
            end
          else None
      end
  end.

Definition yearOf (s : string) : option (Z * string) :=
  match s with
  | String c rest =>
      if Ascii.eqb c "+" then digits 6 0 rest
      else if Ascii.eqb c "-" then
        match digits 6 0 rest with
        | Some (y, rest') => if y =? 0 then None else Some (- y, rest')
        | None => None
        end
      else digits 4 0 s
  | EmptyString => None
  end.

(** YYYY-MM or +-YYYYYY-MM, an optional day, then annotations. *)
Definition parseYearMonth (s : string) : option (PlainDate * option string) :=
  match yearOf s with
  | None => None
  | Some (y, s1) =>
      match digits 2 0 (optional "-" s1) with
      | None => None
      | Some (m, s2) =>
          let '(d, s3) :=
            match digits 2 0 (optional "-" s2) with
            | Some (d, s3) => (d, s3)
            | None => (1, s2)
            end in
          match annotations (S (String.length s3)) s3 None with
          | Some cal =>
              if IsValidISODate y m d then Some (mkPlainDate y m d, cal) else None
          | None => None
          end
      end
  end.

(** Modelled from the spec: ParseTemporalYearMonthString, a string to a
    PlainDate and an optional calendar identifier, a range error on a
    parse failure. *)
Definition ParseTemporalYearMonthString (s : string)
  : Result ErrorType (PlainDate * option string) :=
  match parseYearMonth s with Some r => Ok r | None => Err RangeError end.

(** Modelled from the spec: ToBuiltinCalendar, which fails on an unknown
    identifier. *)
Definition ToBuiltinCalendar (id : string) : Result ErrorType CalendarValue :=
  if String.eqb id "iso8601" then Ok ISO8601
  else if String.eqb id "buddhist" then Ok Buddhist
  else if String.eqb id "gregory" then Ok Gregorian
  else if String.eqb id "hebrew" then Ok Hebrew
  else if String.eqb id "japanese" then Ok Japanese
  else if String.eqb id "roc" then Ok ROC
  else Err RangeError.

Definition supported (c : CalendarValue) : bool :=
  match c with ISO8601 | Gregorian => true | _ => false end.

(** The decimal digits at the head of [s], at least one. *)
Fixpoint number (fuel : nat) (acc : option Z) (s : string)
  : option (Z * string) :=
  match fuel, s with
  | S fuel', String c rest =>
      match digitOf c with
      | Some d =>
          number fuel'
            (Some (match acc with Some a => a * 10 + d | None => d end)) rest
      | None => match acc with Some a => Some (a, s) | None => None end
      end
  | _, _ => match acc with Some a => Some (a, s) | None => None end
  end.

(** A decimal integer with an optional sign, and nothing after it. *)
Definition integerOfString (s : string) : option Z :=
  let '(sign, body) :=
    match s with
    | String c rest =>
        if Ascii.eqb c "-" then (-1, rest)
        else if Ascii.eqb c "+" then (1, rest) else (1, s)
    | EmptyString => (1, s)
    end in
  match number (String.length body) None body with
  | Some (n, EmptyString) => Some (sign * n)
  | _ => None
  end.

(** Modelled from the spec: ToIntegerWithTruncation, "fail with RangeError
    if any input is non-finite or non-integer-coercible"; numbers are
    integral here, so nothing is left to truncate. *)
Definition ToIntegerWithTruncation (v : Value) (name : string) : Result ErrorType Z :=
  match v with
  | NumberValue (NumInt n) => Ok n
  | NullValue => Ok 0
  | BooleanValue b => Ok (if b then 1 else 0)
  | StringValue s =>
      match integerOfString s with Some n => Ok n | None => Err RangeError end
  | ObjectValue _ => Err TypeError
  | _ => Err RangeError
  end.

(** Modelled from the spec: GetPrototypeFromBuiltinConstructor, which
    succeeds for the built-in constructor. *)
Definition GetPrototypeFromBuiltinConstructor (args : CallArgs)
  : Result ErrorType unit := Ok tt.

(** Modelled from the spec: GetTemporalCalendarWithISODefault, the calendar
    of a field-bearing record, ISO when absent. *)
Definition GetTemporalCalendarWithISODefault (item : JSObject)
  : Result ErrorType CalendarValue :=
  match item with
  | PlainYearMonthObj ym => Ok (CALENDAR_SLOT ym)
  | PlainDateObj d => Ok (DATE_CALENDAR_SLOT d)
  | OrdinaryObj props =>
      match getProp props "calendar" with
      | UndefinedValue => Ok ISO8601
      | StringValue id => ToBuiltinCalendar id
      | _ => Err TypeError
      end
  end.

Definition monthCodes : list string :=
  ["M01"; "M02"; "M03"; "M04"; "M05"; "M06";
   "M07"; "M08"; "M09"; "M10"; "M11"; "M12"].

Definition monthCodeOf (m : Z) : string :=
  nth (Z.to_nat (m - 1)) monthCodes "M01".

Fixpoint indexOf (code : string) (l : list string) (i : Z) : option Z :=
  match l with
  | [] => None
  | c :: rest => if String.eqb c code then Some i else indexOf code rest (i + 1)
  end.

Definition monthOfCode (code : string) : option Z := indexOf code monthCodes 1.

Definition intProp (v : Value) : Result ErrorType (option Z) :=
  match v with
  | UndefinedValue => Ok None
  | NumberValue (NumInt n) => Ok (Some n)
  | ObjectValue _ => Err TypeError
  | _ => Err RangeError
  end.

Definition stringProp (v : Value) : Result ErrorType (option string) :=
  match v with
  | UndefinedValue => Ok None
  | StringValue s => Ok (Some s)
  | _ => Err TypeError
  end.

Definition andThen {A B} (r : Result ErrorType A) (k : A -> Result ErrorType B)
  : Result ErrorType B :=
  match r with Ok a => k a | Err e => Err e end.

(** The calendar fields an object offers when its properties are read. *)
Definition fieldsOfObject (o : JSObject) : Result ErrorType TemporalFields :=
  match o with
  | PlainYearMonthObj ym =>
      Ok (mkFields (Some (ISO_YEAR_SLOT ym)) (Some (ISO_MONTH_SLOT ym))
            (Some (monthCodeOf (ISO_MONTH_SLOT ym))) None)
  | PlainDateObj d =>
      let iso := DATE_SLOT d in
      Ok (mkFields (Some (year iso)) (Some (month iso))
            (Some (monthCodeOf (month iso))) (Some (day iso)))
  | OrdinaryObj props =>
      andThen (intProp (getProp props "year")) (fun y =>
      andThen (intProp (getProp props "month")) (fun m =>
      andThen (stringProp (getProp props "monthCode")) (fun mc =>
      andThen (intProp (getProp props "day")) (fun d =>
      match m, d with
      | Some m', _ => if m' <? 1 then Err RangeError else Ok (mkFields y m mc d)
      | _, _ => Ok (mkFields y m mc d)
      end))))
  end.

Definition memField (k : TemporalField) (names : list TemporalField) : bool :=
  existsb (fun k' =>
    match k, k' with
    | TF_Year, TF_Year | TF_Month, TF_Month | TF_MonthCode, TF_MonthCode
    | TF_Day, TF_Day | TF_Era, TF_Era | TF_EraYear, TF_EraYear => true
    | _, _ => false
    end) names.

Definition restrict (names : list TemporalField) (f : TemporalFields)
  : TemporalFields :=
  mkFields (if memField TF_Year names then f_year f else None)
           (if memField TF_Month names then f_month f else None)
           (if memField TF_MonthCode names then f_monthCode f else None)
           (if memField TF_Day names then f_day f else None).

Definition fieldOf (c : CalendarField) : TemporalField :=
  match c with
  | CF_Year => TF_Year | CF_Month => TF_Month
  | CF_MonthCode => TF_MonthCode | CF_Day => TF_Day
  end.

(** Modelled from the spec: PrepareTemporalFields, the named fields read
    from an object. *)
Definition PrepareTemporalFields (o : JSObject) (names : list TemporalField)
  : Result ErrorType TemporalFields :=
  andThen (fieldsOfObject o) (fun f => Ok (restrict names f)).

(** Modelled from the spec: PrepareCalendarFields, the named calendar
    fields read from an object. *)
Definition PrepareCalendarFields
  (c : CalendarValue) (item : JSObject) (names : list CalendarField)
  : Result ErrorType TemporalFields :=
  PrepareTemporalFields item (map fieldOf names).

(** Modelled from the spec: PrepareCalendarFieldsAndFieldNames, the named
    calendar fields of a year-month. *)
Definition PrepareCalendarFieldsAndFieldNames
  (c : CalendarValue) (ym : PlainYearMonthObject) (names : list CalendarField)
  : Result ErrorType TemporalFields :=
  PrepareTemporalFields (PlainYearMonthObj ym) (map fieldOf names).

(** Dates of a PlainDate lie between -271821-04-19 and +275760-09-13. *)
Definition ISODateWithinLimits (d : PlainDate) : bool :=
  let n := daysFromCivil (year d) (month d) (day d) in
  (-100000001 <=? n) && (n <=? 100000000).

Definition clamp (lo hi x : Z) : Z := Z.max lo (Z.min hi x).

Definition resolveMonth (f : TemporalFields) : Result ErrorType Z :=
  match f_month f, f_monthCode f with
  | Some m, None => Ok m
  | None, Some code =>
      match monthOfCode code with Some m => Ok m | None => Err RangeError end
  | Some m, Some code =>
      match monthOfCode code with
      | Some m' => if m =? m' then Ok m else Err RangeError
      | None => Err RangeError
      end
  | None, None => Err TypeError
  end.

Definition regulateMonth (m : Z) (overflow : TemporalOverflow)
  : Result ErrorType Z :=
  match overflow with
  | Constrain => Ok (clamp 1 12 m)
  | Reject => if (1 <=? m) && (m <=? 12) then Ok m else Err RangeError
  end.

Definition regulateDay (y m d : Z) (overflow : TemporalOverflow)
  : Result ErrorType Z :=
  match overflow with
  | Constrain => Ok (clamp 1 (ISODaysInMonth y m) d)
  | Reject =>
      if (1 <=? d) && (d <=? ISODaysInMonth y m) then Ok d else Err RangeError
  end.

Definition required {A} (o : option A) : Result ErrorType A :=
  match o with Some a => Ok a | None => Err TypeError end.

Definition whenSupported {A} (c : CalendarValue) (r : Result ErrorType A)
  : Result ErrorType A :=
  if supported c then r else Err RangeError.

(** Modelled from the spec: CalendarYearMonthFromFields, which normalizes
    the fields: constrain clamps, reject fails. *)
Definition CalendarYearMonthFromFields
  (c : CalendarValue) (f : TemporalFields) (overflow : TemporalOverflow)
  : Result ErrorType PlainYearMonthWithCalendar :=
  whenSupported c (
    andThen (required (f_year f)) (fun y =>
    andThen (resolveMonth f) (fun m =>
    andThen (regulateMonth m overflow) (fun m' =>
    if ISOYearMonthWithinLimits y m' then Ok (mkYearMonth (mkPlainDate y m' 1) c)
    else Err RangeError)))).

(** Modelled from the spec: CalendarYearMonthFromFields on the fields of a
    year-month object. *)
Definition CalendarYearMonthFromFields_object
  (c : CalendarValue) (ym : PlainYearMonthObject) (overflow : TemporalOverflow)
  : Result ErrorType PlainYearMonthWithCalendar :=
  andThen (PrepareTemporalFields (PlainYearMonthObj ym)
             [TF_Year; TF_Month; TF_MonthCode])
          (fun f => CalendarYearMonthFromFields c f overflow).

(** Modelled from the spec: CreateTemporalDate, a PlainDate within the
    limits of the type. *)
Definition CreateTemporalDate (iso : PlainDate) (c : CalendarValue)
  : Result ErrorType PlainDateWithCalendar :=
  if IsValidISODate (year iso) (month iso) (day iso) && ISODateWithinLimits iso
  then Ok (mkDate iso c) else Err RangeError.

(** Modelled from the spec: CalendarDateFromFields, as
    CalendarYearMonthFromFields with a day. *)
Definition CalendarDateFromFields
  (c : CalendarValue) (f : TemporalFields) (overflow : TemporalOverflow)
  : Result ErrorType PlainDateWithCalendar :=
  whenSupported c (
    andThen (required (f_year f)) (fun y =>
    andThen (resolveMonth f) (fun m =>
    andThen (required (f_day f)) (fun d =>
    andThen (regulateMonth m overflow) (fun m' =>
    andThen (regulateDay y m' d overflow) (fun d' =>
    CreateTemporalDate (mkPlainDate y m' d') c)))))).

(** Modelled from the spec: CalendarDay, the day of month. *)
Definition CalendarDay (c : CalendarValue) (d : PlainDate) : Result ErrorType Z :=
  whenSupported c (Ok (day d)).

(** Modelled from the spec: CalendarDateAdd; years and months first, the
    day regulated, then weeks and days. *)
Definition CalendarDateAdd
  (c : CalendarValue) (d : PlainDateWithCalendar) (dur : DateDuration.t)
  (overflow : TemporalOverflow) : Result ErrorType PlainDate :=
  whenSupported c (
    let iso := pd_date d in
    let '(y, m) := BalanceISOYearMonth (year iso + DateDuration.years dur)
                     (month iso + DateDuration.months dur) in
    andThen (regulateDay y m (day iso) overflow) (fun d' =>
    let r := BalanceISODate y m
               (d' + DateDuration.days dur + 7 * DateDuration.weeks dur) in
    if ISODateWithinLimits r then Ok r else Err RangeError)).

(** Modelled from the spec: AddDate, the date addition of step 8. *)
Definition AddDate := CalendarDateAdd.

(** Whole months from [one] to [two], never passing [two]. *)
Definition monthsBetween (one two : PlainDate) : Z :=
  let raw := (year two - year one) * 12 + (month two - month one) in
  let sign := CompareISODate two one in
  if (0 <? sign) && (day two <? day one) then raw - 1
  else if (sign <? 0) && (day one <? day two) then raw + 1
  else raw.

(** Modelled from the spec: CalendarDateUntil, a DateDuration in units up
    to the largest unit. *)
Definition CalendarDateUntil
  (c : CalendarValue) (one two : PlainDateWithCalendar) (largest : TemporalUnit)
  : Result ErrorType DateDuration.t :=
  whenSupported c (
    let a := pd_date one in
    let b := pd_date two in
    let total := daysFromCivil (year b) (month b) (day b)
                 - daysFromCivil (year a) (month a) (day a) in
    match largest with
    | Year | Month =>
        let mths := monthsBetween a b in
        let '(y, m) := BalanceISOYearMonth (year a) (month a + mths) in
        let d := clamp 1 (ISODaysInMonth y m) (day a) in
        let rest := daysFromCivil (year b) (month b) (day b)
                    - daysFromCivil y m d in
        match largest with
        | Year => Ok (DateDuration.mk (Z.quot mths 12) (Z.rem mths 12) 0 rest)
        | _ => Ok (DateDuration.mk 0 mths 0 rest)
        end
    | Week => Ok (DateDuration.mk 0 0 (Z.quot total 7) (Z.rem total 7))
    | _ => Ok (DateDuration.mk 0 0 0 total)
    end).

Definition unitOfName (s : string) : option TemporalUnit :=
  let named a b := String.eqb s a || String.eqb s b in
  if String.eqb s "auto" then Some Auto
  else if named "year" "years" then Some Year
  else if named "month" "months" then Some Month
  else if named "week" "weeks" then Some Week
  else if named "day" "days" then Some Day
  else if named "hour" "hours" then Some Hour
  else if named "minute" "minutes" then Some Minute
  else if named "second" "seconds" then Some Second
  else if named "millisecond" "milliseconds" then Some Millisecond
  else if named "microsecond" "microseconds" then Some Microsecond
  else if named "nanosecond" "nanoseconds" then Some Nanosecond
  else None.

Definition inGroup (g : TemporalUnitGroup) (u : TemporalUnit) : bool :=
  match g with
  | DateGroup => (unitRank u <=? unitRank Day)
  | TimeGroup => (unitRank u =? 0) || (unitRank Hour <=? unitRank u)
  | DateTimeGroup => true
  end.

(** A unit-valued option; [Auto] stands for an absent one. *)
Definition GetTemporalUnit
  (props : list (string * Value)) (key : string) (g : TemporalUnitGroup)
  (autoAllowed : bool) : Result ErrorType TemporalUnit :=
  match getProp props key with
  | UndefinedValue => Ok Auto
  | StringValue s =>
      match unitOfName s with
      | Some Auto => if autoAllowed then Ok Auto else Err RangeError
      | Some u => if inGroup g u then Ok u else Err RangeError
      | None => Err RangeError
      end
  | _ => Err RangeError
  end.

Definition modeOfName (s : string) : option TemporalRoundingMode :=
  if String.eqb s "ceil" then Some Ceil
  else if String.eqb s "floor" then Some Floor
  else if String.eqb s "expand" then Some Expand
  else if String.eqb s "trunc" then Some Trunc
  else if String.eqb s "halfCeil" then Some HalfCeil
  else if String.eqb s "halfFloor" then Some HalfFloor
  else if String.eqb s "halfExpand" then Some HalfExpand
  else if String.eqb s "halfTrunc" then Some HalfTrunc
  else if String.eqb s "halfEven" then Some HalfEven
  else None.

Definition GetRoundingModeOption (props : list (string * Value))
  : Result ErrorType TemporalRoundingMode :=
  match getProp props "roundingMode" with
  | UndefinedValue => Ok Trunc
  | StringValue s =>
      match modeOfName s with Some m => Ok m | None => Err RangeError end
  | _ => Err RangeError
  end.

Definition ToTemporalRoundingIncrement (props : list (string * Value))
  : Result ErrorType Z :=
  match getProp props "roundingIncrement" with
  | UndefinedValue => Ok 1
  | NumberValue (NumInt n) =>
      if (1 <=? n) && (n <=? 1000000000) then Ok n else Err RangeError
  | _ => Err RangeError
  end.

Definition NegateTemporalRoundingMode (m : TemporalRoundingMode)
  : TemporalRoundingMode :=
  match m with
  | Ceil => Floor | Floor => Ceil
  | HalfCeil => HalfFloor | HalfFloor => HalfCeil
  | other => other
  end.

Definition MaximumTemporalDurationRoundingIncrement (u : TemporalUnit) : Z :=
  match u with
  | Hour => 24 | Minute | Second => 60
  | _ => 1000
  end.

(** Modelled from the spec: GetDifferenceSettings (section 4.5, step 1);
    invalid combinations (a unit outside the group or finer than
    allowed, smallestUnit coarser than largestUnit, an unknown mode, an
    increment that is not a positive integer) are range errors. *)
Definition GetDifferenceSettings
  (operation : TemporalDifference) (options : JSObject)
  (g : TemporalUnitGroup)
  (smallestAllowed fallbackSmallest smallestLargestDefault : TemporalUnit)
  : Result ErrorType DifferenceSettings :=
  let props := propsOf options in
  andThen (GetTemporalUnit props "largestUnit" g true) (fun largest =>
  if unitRank smallestAllowed <? unitRank largest then Err RangeError else
  andThen (ToTemporalRoundingIncrement props) (fun increment =>
  andThen (GetRoundingModeOption props) (fun mode =>
  let mode := match operation with
              | Since => NegateTemporalRoundingMode mode
              | Until => mode
              end in
  andThen (GetTemporalUnit props "smallestUnit" g false) (fun smallest =>
  let smallest := match smallest with Auto => fallbackSmallest | u => u end in
  if unitRank smallestAllowed <? unitRank smallest then Err RangeError else
  let defaultLargest :=
    if unitRank smallestLargestDefault <=? unitRank smallest
    then smallestLargestDefault else smallest in
  let largest := match largest with Auto => defaultLargest | u => u end in
  if unitRank smallest <? unitRank largest then Err RangeError else
  if (unitRank Day <? unitRank smallest)
     && negb ((increment <? MaximumTemporalDurationRoundingIncrement smallest)
              && (MaximumTemporalDurationRoundingIncrement smallest
                    mod increment =? 0))
  then Err RangeError
  else Ok (mkSettings smallest largest mode increment))))).

(** Modelled from the spec: GetTemporalOverflowOption, constrain or reject,
    the given default when absent. *)
Definition GetTemporalOverflowOption
  (options : JSObject) (overflow : TemporalOverflow)
  : Result ErrorType TemporalOverflow :=
  match getProp (propsOf options) "overflow" with
  | UndefinedValue => Ok overflow
  | StringValue s =>
      if String.eqb s "constrain" then Ok Constrain
      else if String.eqb s "reject" then Ok Reject
      else Err RangeError
  | _ => Err RangeError
  end.

Definition durationKeys : list string :=
  ["years"; "months"; "weeks"; "days"; "hours"; "minutes"; "seconds";
   "milliseconds"; "microseconds"; "nanoseconds"].

Definition durationProp (props : list (string * Value)) (key : string)
  : Result ErrorType Z :=
  andThen (intProp (getProp props key)) (fun o =>
  Ok (match o with Some n => n | None => 0 end)).

(** One component of a duration string, a number followed by its
    designator; absent when the head of [s] is something else. *)
Definition component (designator : ascii) (s : string) : option Z * string :=
  match number (String.length s) None s with
  | Some (n, String c rest) =>
      if Ascii.eqb c designator then (Some n, rest) else (None, s)
  | _ => (None, s)
  end.

Definition orZero (o : option Z) : Z :=
  match o with Some n => n | None => 0 end.

(** A duration string with whole components: a sign, P, years, months,
    weeks and days, then T and hours, minutes and seconds. *)
Definition parseDuration (s : string) : option Duration.t :=
  let '(sign, s0) :=
    match s with
    | String c rest =>
        if Ascii.eqb c "-" then (-1, rest)
        else if Ascii.eqb c "+" then (1, rest) else (1, s)
    | EmptyString => (1, s)
    end in
  match expect "P" s0 with
  | None => None
  | Some s1 =>
      let '(y, s2) := component "Y" s1 in
      let '(mo, s3) := component "M" s2 in
      let '(w, s4) := component "W" s3 in
      let '(d, s5) := component "D" s4 in
      let '(h, mi, sec, timeGiven, s9) :=
        match expect "T" s5 with
        | Some s6 =>
            let '(h, s7) := component "H" s6 in
            let '(mi, s8) := component "M" s7 in
            let '(sec, s9) := component "S" s8 in
            (h, mi, sec, isSome h || isSome mi || isSome sec, s9)
        | None => (None, None, None, true, s5)
        end in
      let dateGiven := isSome y || isSome mo || isSome w || isSome d in
      let anyGiven := dateGiven || isSome h || isSome mi || isSome sec in
      match s9 with
      | EmptyString =>
          if timeGiven && anyGiven then
            Some (Duration.mk (sign * orZero y) (sign * orZero mo)
                    (sign * orZero w) (sign * orZero d)
                    (sign * orZero h) (sign * orZero mi) (sign * orZero sec)
                    0 0 0)
          else None
      | _ => None
      end
  end.

(** Modelled from the spec: ToTemporalDurationRecord; a duration-like
    object has at least one component present and all components of one
    sign, a string is a duration literal, anything else is a type
    error. *)
Definition ToTemporalDurationRecord (v : Value) : Result ErrorType Duration.t :=
  match v with
  | ObjectValue (OrdinaryObj props) =>
      if negb (existsb (fun k => negb (isUndefined (getProp props k)))
                 durationKeys)
      then Err TypeError else
      andThen (durationProp props "years") (fun y =>
      andThen (durationProp props "months") (fun mo =>
      andThen (durationProp props "weeks") (fun w =>
      andThen (durationProp props "days") (fun d =>
      andThen (durationProp props "hours") (fun h =>
      andThen (durationProp props "minutes") (fun mi =>
      andThen (durationProp props "seconds") (fun sec =>
      andThen (durationProp props "milliseconds") (fun ms =>
      andThen (durationProp props "microseconds") (fun us =>
      andThen (durationProp props "nanoseconds") (fun ns =>
      let all := [y; mo; w; d; h; mi; sec; ms; us; ns] in
      if existsb (fun x => x <? 0) all && existsb (fun x => 0 <? x) all
      then Err RangeError
      else Ok (Duration.mk y mo w d h mi sec ms us ns)))))))))))
  | StringValue s =>
      match parseDuration s with Some d => Ok d | None => Err RangeError end
  | _ => Err TypeError
  end.

(** Whether a fraction [num/den] of the way from [r1] to the next
    multiple rounds up to that multiple. *)
Definition roundsUp (mode : TemporalRoundingMode) (negative : bool)
  (num den : Z) (r1 increment : Z) : bool :=
  let away := true in
  let towards := false in
  let half (tie : bool) :=
    if 2 * num <? den then false
    else if den <? 2 * num then true
    else tie in
  if num =? 0 then false
  else match mode with
       | Ceil => negb negative
       | Floor => negative
       | Expand => away
       | Trunc => towards
       | HalfCeil => half (negb negative)
       | HalfFloor => half negative
       | HalfExpand => half away
       | HalfTrunc => half towards
       | HalfEven => half (negb (Z.abs r1 / increment mod 2 =? 0))
       end.

(** Modelled from the spec: RoundRelativeDuration, the external duration
    rounder; rounding of a years-and-months duration relative to a
    start date: the smallest unit is truncated to a multiple of the
    increment, the next multiple is taken when the destination lies far
    enough towards it, and twelve months are carried into a year. *)
Definition RoundRelativeDuration
  (d : NormalizedDuration) (destEpochNs : Z) (dt : PlainDateTime)
  (c : CalendarValue) (tz : TimeZoneValue) (s : DifferenceSettings)
  : Result ErrorType RoundedRelativeDuration :=
  whenSupported c (
    let dd := nd_date d in
    let sign := if DurationSign dd <? 0 then -1 else 1 in
    let increment := roundingIncrement s in
    let start := mkDate (dt_date dt) c in
    let trunc v := Z.quot v increment * increment in
    let '(startDuration, endDuration, r1) :=
      match smallestUnit s with
      | Year =>
          let r1 := trunc (DateDuration.years dd) in
          (DateDuration.mk r1 0 0 0,
           DateDuration.mk (r1 + increment * sign) 0 0 0, r1)
      | _ =>
          let r1 := trunc (DateDuration.months dd) in
          (DateDuration.mk (DateDuration.years dd) r1 0 0,
           DateDuration.mk (DateDuration.years dd) (r1 + increment * sign) 0 0,
           r1)
      end in
    andThen (CalendarDateAdd c start startDuration Constrain) (fun a =>
    andThen (CalendarDateAdd c start endDuration Constrain) (fun b =>
    let startNs := GetUTCEpochNanoseconds (mkPlainDateTime a midnight) in
    let endNs := GetUTCEpochNanoseconds (mkPlainDateTime b midnight) in
    let num := Z.abs (destEpochNs - startNs) in
    let den := Z.abs (endNs - startNs) in
    let chosen :=
      if roundsUp (roundingMode s) (sign <? 0) num den r1 increment
      then endDuration else startDuration in
    let y := DateDuration.years chosen in
    let m := DateDuration.months chosen in
    let '(y', m') :=
      match largestUnit s with
      | Year => (y + Z.quot m 12, Z.rem m 12)
      | _ => (y, m)
      end in
    Ok (mkRounded (Duration.ofYearsMonths y' m'))))).

End ISO.

#[export] Instance isoCollaborators : Collaborators := {
  ToIntegerWithTruncation_impl := ISO.ToIntegerWithTruncation;
  ToBuiltinCalendar_impl := ISO.ToBuiltinCalendar;
  GetPrototypeFromBuiltinConstructor_impl := ISO.GetPrototypeFromBuiltinConstructor;
  GetTemporalCalendarWithISODefault_impl := ISO.GetTemporalCalendarWithISODefault;
  PrepareCalendarFields_impl := ISO.PrepareCalendarFields;
  PrepareCalendarFieldsAndFieldNames_impl := ISO.PrepareCalendarFieldsAndFieldNames;
  PrepareTemporalFields_impl := ISO.PrepareTemporalFields;
  CalendarYearMonthFromFields_impl := ISO.CalendarYearMonthFromFields;
  CalendarYearMonthFromFields_object_impl := ISO.CalendarYearMonthFromFields_object;
  CalendarDateFromFields_impl := ISO.CalendarDateFromFields;
  ParseTemporalYearMonthString_impl := ISO.ParseTemporalYearMonthString;
  GetDifferenceSettings_impl := ISO.GetDifferenceSettings;
  GetTemporalOverflowOption_impl := ISO.GetTemporalOverflowOption;
  ToTemporalDurationRecord_impl := ISO.ToTemporalDurationRecord;
  CalendarDateUntil_impl := ISO.CalendarDateUntil;
  RoundRelativeDuration_impl := ISO.RoundRelativeDuration;
  CalendarDateAdd_impl := ISO.CalendarDateAdd;
  CreateTemporalDate_impl := ISO.CreateTemporalDate;
  CalendarDay_impl := ISO.CalendarDay;
  AddDate_impl := ISO.AddDate }.

(** Year-months and argument lists for the scenarios. *)
Definition ym (y m : Z) : PlainYearMonthObject :=
  mkPlainYearMonthObject y m ISO8601 1.

Definition ymIn (c : CalendarValue) (y m : Z) : PlainYearMonthObject :=
  mkPlainYearMonthObject y m c 1.

Definition arg1 (v : Value) : CallArgs := mkArgs false [v].

Definition arg2 (v w : Value) : CallArgs := mkArgs false [v; w].

Definition ofYM (o : PlainYearMonthObject) : Value := ObjectValue (PlainYearMonthObj o).

Definition obj (props : list (string * Value)) : Value :=
  ObjectValue (OrdinaryObj props).

Definition num (n : Z) : Value := NumberValue (NumInt n).

(** Options that ask for a smallest unit coarser than the largest. *)
Definition refusedOptions : JSObject :=
  OrdinaryObj [("smallestUnit"%string, StringValue "year"%string);
               ("largestUnit"%string, StringValue "month"%string)].

Definition largestYear : Value :=
  obj [("largestUnit"%string, StringValue "year"%string)].

(** ** The remaining natives: with, toPlainDate, toString, toLocaleString,
       toJSON and valueOf

    These call further functions of other files.  Their calls and errors
    extend those above, and the monad is the same one over the extended
    calls; a computation of the functions above is carried over by
    [lift]. *)

Module ShowCalendar.
Inductive t := Auto | Always | Never | Critical.
End ShowCalendar.

Inductive MoreCall :=
| core (c : Call)
| call_ThrowIfTemporalLikeObject (o : JSObject)
| call_PreparePartialTemporalFields (o : JSObject) (names : list TemporalField)
| call_PrepareTemporalFields_fields
    (f : TemporalFields) (names : list TemporalField)
| call_PrepareCalendarFieldsAndFieldNames_object
    (c : CalendarValue) (o : JSObject) (names : list CalendarField)
| call_CreateTemporalDate_handle (d : PlainDateWithCalendar)
| call_GetTemporalShowCalendarNameOption (options : JSObject)
| call_TemporalYearMonthToString
    (yearMonth : PlainYearMonthObject) (showCalendar : ShowCalendar.t).

(** The message valueOf reports. *)
Inductive MoreErrNum :=
| JSMSG_CANT_CONVERT_TO (what target : string).

Inductive MoreError :=
| coreError (e : Error)
| ReportedMore (n : MoreErrNum)
| RaisedMore (origin : MoreCall) (t : ErrorType).

Definition N (A : Type) : Type := list MoreCall * Result MoreError A.

Definition retN {A} (a : A) : N A := ([], Ok a).

Definition throwN {A} (e : MoreError) : N A := ([], Err e).

Definition bindN {A B} (m : N A) (k : A -> N B) : N B :=
  match m with
  | (t, Err e) => (t, Err e)
  | (t, Ok a) => let '(t', r) := k a in (t ++ t', r)
  end.

Definition callN {A} (c : MoreCall) (r : Result ErrorType A) : N A :=
  ([c], match r with Ok a => Ok a | Err t => Err (RaisedMore c t) end).

(** A computation of the functions above, with its calls and its error
    unchanged. *)
Definition lift {A} (m : M A) : N A :=
  (map core (fst m),
   match snd m with Ok a => Ok a | Err e => Err (coreError e) end).

Definition traceN {A} (m : N A) : list MoreCall := fst m.

Definition outcomeN {A} (m : N A) : Result MoreError A := snd m.

Declare Scope n_scope.
Delimit Scope n_scope with N_.
Notation "x <- c1 ;; c2" := (bindN c1 (fun x => c2))
  (at level 61, c1 at next level, right associativity) : n_scope.

Definition TemporalField_eqb (a b : TemporalField) : bool :=
  match a, b with
  | TF_Year, TF_Year | TF_Month, TF_Month | TF_MonthCode, TF_MonthCode
  | TF_Day, TF_Day | TF_Era, TF_Era | TF_EraYear, TF_EraYear => true
  | _, _ => false
  end.

(** [EnumSet::operator+]: the union of two sets of field names. *)
Definition unionKeys (a b : list TemporalField) : list TemporalField :=
  a ++ filter (fun k => negb (existsb (TemporalField_eqb k) a)) b.

Class MoreCollaborators := {
  ThrowIfTemporalLikeObject_impl : JSObject -> Result ErrorType unit;
  PreparePartialTemporalFields_impl :
    JSObject -> list TemporalField -> Result ErrorType TemporalFields;
  CalendarMergeFields :
    CalendarValue -> TemporalFields -> TemporalFields -> TemporalFields;
  PrepareTemporalFields_fields_impl :
    TemporalFields -> list TemporalField -> Result ErrorType TemporalFields;
  PrepareCalendarFieldsAndFieldNames_object_impl :
    CalendarValue -> JSObject -> list CalendarField ->
    Result ErrorType TemporalFields;
  CreateTemporalDate_handle_impl :
    PlainDateWithCalendar -> Result ErrorType PlainDateObject;
  GetTemporalShowCalendarNameOption_impl :
    JSObject -> ShowCalendar.t -> Result ErrorType ShowCalendar.t;
  TemporalYearMonthToString_impl :
    PlainYearMonthObject -> ShowCalendar.t -> Result ErrorType string }.

Section MoreNatives.

Context {collaborators : Collaborators} {more : MoreCollaborators}.

Local Open Scope n_scope.

Definition ThrowIfTemporalLikeObject (o : JSObject) : N unit :=
  callN (call_ThrowIfTemporalLikeObject o) (ThrowIfTemporalLikeObject_impl o).

Definition PreparePartialTemporalFields
  (o : JSObject) (names : list TemporalField) : N TemporalFields :=
  callN (call_PreparePartialTemporalFields o names)
        (PreparePartialTemporalFields_impl o names).

(** The overload of PrepareTemporalFields that takes fields. *)
Definition PrepareTemporalFields_fields
  (f : TemporalFields) (names : list TemporalField) : N TemporalFields :=
  callN (call_PrepareTemporalFields_fields f names)
        (PrepareTemporalFields_fields_impl f names).

(** The overload of PrepareCalendarFieldsAndFieldNames that takes any
    object. *)
Definition PrepareCalendarFieldsAndFieldNames_object
  (c : CalendarValue) (o : JSObject) (names : list CalendarField)
  : N TemporalFields :=
  callN (call_PrepareCalendarFieldsAndFieldNames_object c o names)
        (PrepareCalendarFieldsAndFieldNames_object_impl c o names).

(** CreateTemporalDate(cx, Handle<PlainDateWithCalendar>). *)
Definition CreateTemporalDate_handle (d : PlainDateWithCalendar)
  : N PlainDateObject :=
  callN (call_CreateTemporalDate_handle d) (CreateTemporalDate_handle_impl d).

Definition GetTemporalShowCalendarNameOption
  (options : JSObject) (showCalendar : ShowCalendar.t) : N ShowCalendar.t :=
  callN (call_GetTemporalShowCalendarNameOption options)
        (GetTemporalShowCalendarNameOption_impl options showCalendar).

Definition TemporalYearMonthToString
  (yearMonth : PlainYearMonthObject) (showCalendar : ShowCalendar.t) : N string :=
  callN (call_TemporalYearMonthToString yearMonth showCalendar)
        (TemporalYearMonthToString_impl yearMonth showCalendar).

(** Temporal.PlainYearMonth.prototype.with ( temporalYearMonthLike [ ,
    options ] ); lines 1037-1112. *)
Definition PlainYearMonth_with
  (yearMonth : PlainYearMonthObject) (args : CallArgs) : N PlainYearMonthObject :=
  (* Step 3. *)
  temporalYearMonthLike <- lift (RequireObjectArg (get args 0)) ;;
  _ <- ThrowIfTemporalLikeObject temporalYearMonthLike ;;
  (* Steps 4-5. *)
  overflow <- lift (overflowOption args) ;;
  (* Step 6. *)
  let calendar := CALENDAR_SLOT yearMonth in
  (* Step 7. *)
  fields <- lift (PrepareCalendarFieldsAndFieldNames calendar yearMonth
                    [CF_Month; CF_MonthCode; CF_Year]) ;;
  (* Step 8. *)
  partialYearMonth <- PreparePartialTemporalFields temporalYearMonthLike
                        (keys fields) ;;
  (* Step 9. *)
  let mergedFields := CalendarMergeFields calendar fields partialYearMonth in
  (* Step 10. *)
  fields' <- PrepareTemporalFields_fields mergedFields (keys fields) ;;
  (* Step 10. *)
  result <- lift (CalendarYearMonthFromFields calendar fields' overflow) ;;
  lift (CreateTemporalYearMonth_handle result).

(** Temporal.PlainYearMonth.prototype.toString ( [ options ] );
    lines 1232-1259. *)
Definition PlainYearMonth_toString
  (yearMonth : PlainYearMonthObject) (args : CallArgs) : N string :=
  showCalendar <-
    (if hasDefined args 0 then
       (* Step 3. *)
       options <- lift (RequireObjectArg (get args 0)) ;;
       (* Step 4. *)
       GetTemporalShowCalendarNameOption options ShowCalendar.Auto
     else retN ShowCalendar.Auto) ;;
  (* Step 5. *)
  TemporalYearMonthToString yearMonth showCalendar.

(** Temporal.PlainYearMonth.prototype.toLocaleString ( [ locales [ ,
    options ] ] ); lines 1275-1287. *)
Definition PlainYearMonth_toLocaleString
  (yearMonth : PlainYearMonthObject) (args : CallArgs) : N string :=
  (* Step 3. *)
  TemporalYearMonthToString yearMonth ShowCalendar.Auto.

(** Temporal.PlainYearMonth.prototype.toJSON ( ); lines 1304-1316. *)
Definition PlainYearMonth_toJSON
  (yearMonth : PlainYearMonthObject) (args : CallArgs) : N string :=
  (* Step 3. *)
  TemporalYearMonthToString yearMonth ShowCalendar.Auto.

(** Temporal.PlainYearMonth.prototype.valueOf ( ); lines 1331-1335.  The
    receiver is not looked at. *)
Definition PlainYearMonth_valueOf (thisv : Value) (args : CallArgs) : N Value :=
  throwN (ReportedMore (JSMSG_CANT_CONVERT_TO "PlainYearMonth" "primitive type")).

(** Temporal.PlainYearMonth.prototype.toPlainDate ( item );
    lines 1340-1402. *)
Definition PlainYearMonth_toPlainDate
  (yearMonth : PlainYearMonthObject) (args : CallArgs) : N PlainDateObject :=
  (* Step 3. *)
  item <- lift (RequireObjectArg (get args 0)) ;;
  (* Step 4. *)
  let calendar := CALENDAR_SLOT yearMonth in
  (* Step 5. *)
  receiverFields <- lift (PrepareCalendarFieldsAndFieldNames calendar yearMonth
                            [CF_MonthCode; CF_Year]) ;;
  (* Step 6. *)
  inputFields <- PrepareCalendarFieldsAndFieldNames_object calendar item
                   [CF_Day] ;;
  (* Step 7. *)
  let mergedFields := CalendarMergeFields calendar receiverFields inputFields in
  (* Step 8. *)
  let concatenatedFieldNames :=
    unionKeys (keys receiverFields) (keys inputFields) in
  (* Step 9. *)
  mergedFields <- PrepareTemporalFields_fields mergedFields
                    concatenatedFieldNames ;;
  (* Step 10. *)
  result <- lift (CalendarDateFromFields calendar mergedFields Constrain) ;;
  CreateTemporalDate_handle result.

End MoreNatives.

(** *** The ISO 8601 implementation of the further collaborators

    Modelled from the spec: sections 4.6 to 4.8, for the calendars of the
    implementation above. *)
Module ISOMore.

Local Open Scope string_scope.
Local Open Scope Z_scope.

(** Modelled from the spec: ThrowIfTemporalLikeObject, a type error for a
    Temporal object and for a record that carries a calendar or a time
    zone. *)
Definition ThrowIfTemporalLikeObject (o : JSObject) : Result ErrorType unit :=
  match o with
  | OrdinaryObj props =>
      if isUndefined (ISO.getProp props "calendar")
         && isUndefined (ISO.getProp props "timeZone")
      then Ok tt else Err TypeError
  | _ => Err TypeError
  end.

(** Modelled from the spec: PreparePartialTemporalFields, "only fields
    present in the argument", and a type error when none is. *)
Definition PreparePartialTemporalFields
  (o : JSObject) (names : list TemporalField) : Result ErrorType TemporalFields :=
  ISO.andThen (ISO.PrepareTemporalFields o names) (fun f =>
  match keys f with
  | [] => Err TypeError
  | _ => Ok f
  end).

Definition orElse {A} (a b : option A) : option A :=
  match a with Some _ => a | None => b end.

(** Modelled from the spec: CalendarMergeFields, later values shadow
    earlier ones, and "supplying month clears monthCode and vice versa". *)
Definition CalendarMergeFields
  (c : CalendarValue) (fields additional : TemporalFields) : TemporalFields :=
  let replacesMonth := isSome (f_month additional)
                       || isSome (f_monthCode additional) in
  mkFields (orElse (f_year additional) (f_year fields))
           (if replacesMonth then f_month additional else f_month fields)
           (if replacesMonth then f_monthCode additional else f_monthCode fields)
           (orElse (f_day additional) (f_day fields)).

(** Modelled from the spec: PrepareTemporalFields on fields, restricted to
    the given names. *)
Definition PrepareTemporalFields_fields
  (f : TemporalFields) (names : list TemporalField)
  : Result ErrorType TemporalFields :=
  Ok (ISO.restrict names f).

(** Modelled from the spec: PrepareCalendarFieldsAndFieldNames on an
    object. *)
Definition PrepareCalendarFieldsAndFieldNames_object
  (c : CalendarValue) (o : JSObject) (names : list CalendarField)
  : Result ErrorType TemporalFields :=
  ISO.PrepareTemporalFields o (map ISO.fieldOf names).

(** Modelled from the spec: CreateTemporalDate, the PlainDate object of a
    date within the limits. *)
Definition CreateTemporalDate_handle (d : PlainDateWithCalendar)
  : Result ErrorType PlainDateObject :=
  ISO.andThen (ISO.CreateTemporalDate (pd_date d) (pd_calendar d)) (fun r =>
  Ok (mkPlainDateObject (pd_date r) (pd_calendar r))).

(** Modelled from the spec: the calendarName option, auto, always, never
    or critical. *)
Definition GetTemporalShowCalendarNameOption
  (options : JSObject) (showCalendar : ShowCalendar.t)
  : Result ErrorType ShowCalendar.t :=
  match ISO.getProp (ISO.propsOf options) "calendarName" with
  | UndefinedValue => Ok showCalendar
  | StringValue s =>
      if String.eqb s "auto" then Ok ShowCalendar.Auto
      else if String.eqb s "always" then Ok ShowCalendar.Always
      else if String.eqb s "never" then Ok ShowCalendar.Never
      else if String.eqb s "critical" then Ok ShowCalendar.Critical
      else Err RangeError
  | _ => Err RangeError
  end.

(** The last [k] decimal digits of [n], most significant first. *)
Fixpoint padded (k : nat) (n : Z) : string :=
  match k with
  | O => EmptyString
  | S k' =>
      String.append (padded k' (n / 10))
        (String (ascii_of_nat (48 + Z.to_nat (n mod 10))) EmptyString)
  end.

(** Modelled from the spec: the canonical string of section 4.8: YYYY-MM
    for years in 0..9999 and a sign with six digits otherwise, the
    reference day for a calendar that is not ISO, and the calendar
    annotation as the mode asks. *)
Definition TemporalYearMonthToString
  (yearMonth : PlainYearMonthObject) (showCalendar : ShowCalendar.t)
  : Result ErrorType string :=
  let y := ISO_YEAR_SLOT yearMonth in
  let c := CALENDAR_SLOT yearMonth in
  let iso := match c with ISO8601 => true | _ => false end in
  let yearPart :=
    if (0 <=? y) && (y <=? 9999) then padded 4 y
    else String.append (if y <? 0 then "-" else "+") (padded 6 (Z.abs y)) in
  let dayPart :=
    if iso then "" else String.append "-" (padded 2 (ISO_DAY_SLOT yearMonth)) in
  let annotation flag :=
    String.append (String.append (String.append "[" flag) "u-ca=")
      (String.append (ToTemporalCalendarIdentifier c) "]") in
  let calendarPart :=
    match showCalendar with
    | ShowCalendar.Auto => if iso then "" else annotation ""
    | ShowCalendar.Always => annotation ""
    | ShowCalendar.Never => ""
    | ShowCalendar.Critical => annotation "!"
    end in
  Ok (String.append yearPart
        (String.append "-"
           (String.append (padded 2 (ISO_MONTH_SLOT yearMonth))
              (String.append dayPart calendarPart)))).

End ISOMore.

#[export] Instance isoMoreCollaborators : MoreCollaborators := {
  ThrowIfTemporalLikeObject_impl := ISOMore.ThrowIfTemporalLikeObject;
  PreparePartialTemporalFields_impl := ISOMore.PreparePartialTemporalFields;
  CalendarMergeFields := ISOMore.CalendarMergeFields;
  PrepareTemporalFields_fields_impl := ISOMore.PrepareTemporalFields_fields;
  PrepareCalendarFieldsAndFieldNames_object_impl :=
    ISOMore.PrepareCalendarFieldsAndFieldNames_object;
  CreateTemporalDate_handle_impl := ISOMore.CreateTemporalDate_handle;
  GetTemporalShowCalendarNameOption_impl :=
    ISOMore.GetTemporalShowCalendarNameOption;
  TemporalYearMonthToString_impl := ISOMore.TemporalYearMonthToString }.

(** Whether an extended call is a call of the functions above that
    satisfies [P]; the further calls satisfy it by default. *)
Definition onCore (P : Call -> Prop) (c : MoreCall) : Prop :=
  match c with core c' => P c' | _ => True end.

(** ** Properties stated in the words of the specification *)

(** Lexicographic order on (year, month) pairs. *)
Definition pairLe (a b : Z * Z) : Prop :=
  fst a < fst b \/ (fst a = fst b /\ snd a <= snd b).

(** "The pair (isoYear, isoMonth) lies in the closed range
    [(-271821, 4), (275760, 9)] inclusive." *)
Definition YearMonthInClosedRange (y m : Z) : Prop :=
  pairLe (-271821, 4) (y, m) /\ pairLe (y, m) (275760, 9).

(** The two invariants of a constructed year-month. *)
Definition Invariants (o : PlainYearMonthObject) : Prop :=
  IsValidISODate (ISO_YEAR_SLOT o) (ISO_MONTH_SLOT o) (ISO_DAY_SLOT o) = true
  /\ YearMonthInClosedRange (ISO_YEAR_SLOT o) (ISO_MONTH_SLOT o).

(** The sign of a three-way comparison, as -1, 0, +1. *)
Definition ternary (c : comparison) : Z :=
  match c with Lt => -1 | Eq => 0 | Gt => 1 end.

(** "Ternary -1 | 0 | +1 over ISO (year, month, day) lexicographically." *)
Definition lexicographic (a b : PlainDate) : Z :=
  ternary match year a ?= year b with
          | Eq => match month a ?= month b with
                  | Eq => day a ?= day b
                  | c => c
                  end
          | c => c
          end.

(** Strictly earlier, on ISO triples. *)
Definition earlier (a b : PlainDate) : Prop :=
  year a < year b
  \/ (year a = year b
      /\ (month a < month b \/ (month a = month b /\ day a < day b))).

Definition mapResult {E A B} (f : A -> B) (r : Result E A) : Result E B :=
  match r with Ok a => Ok (f a) | Err e => Err e end.

(** No error of the computation satisfies [P]. *)
Definition never {A} (P : Error -> Prop) (m : M A) : Prop :=
  forall e, outcome m = Err e -> ~ P e.

(** The error is the calendar-incompatible report of this file. *)
Definition isCalendarIncompatible (e : Error) : Prop :=
  match e with
  | Reported (JSMSG_TEMPORAL_CALENDAR_INCOMPATIBLE _ _) => True
  | _ => False
  end.

(** Calls that do calendar arithmetic or read calendar fields, as opposed
    to the conversion of arguments and the reading of options. *)
Definition isCalendarArithmetic (c : Call) : bool :=
  match c with
  | call_PrepareCalendarFieldsAndFieldNames _ _ _
  | call_PrepareTemporalFields _ _
  | call_CalendarDateFromFields _ _ _
  | call_CalendarDateUntil _ _ _ _
  | call_RoundRelativeDuration _ _ _ _ _ _
  | call_CalendarDateAdd _ _ _ _
  | call_CalendarDay _ _
  | call_AddDate _ _ _ _ => true
  | _ => false
  end.

(** Weeks, days and every time component are zero. *)
Definition onlyYearsAndMonths (d : Duration.t) : Prop :=
  Duration.weeks d = 0 /\ Duration.days d = 0
  /\ Duration.hours d = 0 /\ Duration.minutes d = 0 /\ Duration.seconds d = 0
  /\ Duration.milliseconds d = 0 /\ Duration.microseconds d = 0
  /\ Duration.nanoseconds d = 0.

(** Two resolved settings lead the difference operation through the same
    steps: the same units and increment, and the same rounding mode unless
    no rounding step is taken. *)
Definition sameDifference (s1 s2 : DifferenceSettings) : Prop :=
  largestUnit s1 = largestUnit s2
  /\ smallestUnit s1 = smallestUnit s2
  /\ roundingIncrement s1 = roundingIncrement s2
  /\ (roundingMode s1 = roundingMode s2
      \/ (smallestUnit s1 = Month /\ roundingIncrement s1 = 1)).

(** The duration as the operation hands it out: negated for since. *)
Definition signed (operation : TemporalDifference) (d : Duration.t) : Duration.t :=
  match operation with
  | Since => Duration.negate d
  | Until => d
  end.

(** Whether steps 15-16 round: not when the smallest unit is a month and
    the increment is one. *)
Definition rounds (s : DifferenceSettings) : bool :=
  negb (TemporalUnit_eqb (smallestUnit s) Month)
  || negb (roundingIncrement s =? 1).

(** The outcome of one call, with a failure attributed to it. *)
Definition answer {A} (c : Call) (r : Result ErrorType A) : Result Error A :=
  match r with Ok a => Ok a | Err t => Err (Raised c t) end.

(** Step 2 of add and subtract: the duration negated for subtract. *)
Definition directed (operation : PlainYearMonthDuration) (d : Duration.t)
  : Duration.t :=
  match operation with
  | Subtract => Duration.negate d
  | Add => d
  end.

(** The calls that anchor a year-month to a date pass constrain. *)
Definition anchorsWithConstrain (c : Call) : Prop :=
  match c with
  | call_CalendarDateFromFields _ _ overflow => overflow = Constrain
  | call_CalendarDateAdd _ _ _ overflow => overflow = Constrain
  | _ => True
  end.

(** The call neither reads difference settings nor rounds, and asks
    CalendarDateUntil for years and months. *)
Definition usesDefaultSettings (c : Call) : Prop :=
  match c with
  | call_GetDifferenceSettings _ _ _ _ _ _ => False
  | call_RoundRelativeDuration _ _ _ _ _ _ => False
  | call_CalendarDateUntil _ _ _ largest => largest = Year
  | _ => True
  end.

(** The calendar argument of the constructor, resolved to [c]. *)
Definition calendarArgument {collaborators : Collaborators}
  (args : CallArgs) (c : CalendarValue) : Prop :=
  (hasDefined args 2 = false /\ c = ISO8601)
  \/ (exists id, get args 2 = StringValue id /\ ToBuiltinCalendar_impl id = Ok c).

(** The reference-day argument of the constructor, resolved to [d]. *)
Definition dayArgument {collaborators : Collaborators}
  (args : CallArgs) (d : Z) : Prop :=
  (hasDefined args 3 = false /\ d = 1)
  \/ (hasDefined args 3 = true
      /\ ToIntegerWithTruncation_impl (get args 3) "day" = Ok d).

(** * Theorems *)

(** ** The monad *)

Lemma bind_Ok {A B} (m : M A) (k : A -> M B) t a :
  m = (t, Ok a) -> bind m k = (t ++ trace (k a), outcome (k a)).
Proof. intros ->. unfold bind, trace, outcome. destruct (k a); reflexivity. Qed.

Lemma bind_Err {A B} (m : M A) (k : A -> M B) t e :
  m = (t, Err e) -> bind m k = (t, Err e).
Proof. intros ->. reflexivity. Qed.

Lemma outcome_bind_Ok {A B} (m : M A) (k : A -> M B) b :
  outcome (bind m k) = Ok b ->
  exists a, outcome m = Ok a /\ outcome (k a) = Ok b.
Proof.
  destruct m as [t [a|e]]; unfold bind, outcome; simpl.
  - destruct (k a) as [t' r] eqn:K. simpl. intros ->. exists a. rewrite K. auto.
  - discriminate.
Qed.

Lemma call_Ok {A} c (r : Result ErrorType A) a :
  r = Ok a -> call c r = ([c], Ok a).
Proof. intros ->. reflexivity. Qed.

Lemma call_Err {A} c (r : Result ErrorType A) t :
  r = Err t -> call c r = ([c], @Err Error A (Raised c t)).
Proof. intros ->. reflexivity. Qed.

(** ** Integers *)

Lemma int32_t_fits x : - 2 ^ 31 <= x < 2 ^ 31 -> int32_t x = x.
Proof.
  intros H. unfold int32_t.
  rewrite Z.mod_small; lia.
Qed.

Lemma ISODaysInMonth_le_31 y m : ISODaysInMonth y m <= 31.
Proof.
  unfold ISODaysInMonth.
  destruct (m =? 2); [destruct (IsISOLeapYear y); lia|].
  destruct ((m =? 4) || (m =? 6) || (m =? 9) || (m =? 11)); lia.
Qed.

Lemma IsValidISODate_bounds y m d :
  IsValidISODate y m d = true -> 1 <= m <= 12 /\ 1 <= d <= 31.
Proof.
  unfold IsValidISODate. intros H.
  apply andb_prop in H as [H Hd]. apply andb_prop in H as [H Hd1].
  apply andb_prop in H as [Hm1 Hm12].
  pose proof (ISODaysInMonth_le_31 y m). lia.
Qed.

Lemma ISOYearMonthWithinLimits_range y m :
  ISOYearMonthWithinLimits y m = true <-> YearMonthInClosedRange y m.
Proof.
  unfold ISOYearMonthWithinLimits, YearMonthInClosedRange, pairLe. simpl.
  destruct (y <? -271821) eqn:E1; [apply Z.ltb_lt in E1|apply Z.ltb_ge in E1];
    simpl; [split; [discriminate|lia]|].
  destruct (y >? 275760) eqn:E2; rewrite Z.gtb_ltb in E2;
    [apply Z.ltb_lt in E2|apply Z.ltb_ge in E2]; simpl; [split; [discriminate|lia]|].
  destruct (y =? -271821) eqn:E3; [apply Z.eqb_eq in E3|apply Z.eqb_neq in E3];
    simpl.
  - destruct (m <? 4) eqn:E4; [apply Z.ltb_lt in E4|apply Z.ltb_ge in E4].
    + split; [discriminate|lia].
    + destruct (y =? 275760) eqn:E5; [apply Z.eqb_eq in E5; lia|]. simpl.
      split; [lia|reflexivity].
  - destruct (y =? 275760) eqn:E5; [apply Z.eqb_eq in E5|apply Z.eqb_neq in E5];
      simpl.
    + destruct (m >? 9) eqn:E6; rewrite Z.gtb_ltb in E6;
        [apply Z.ltb_lt in E6|apply Z.ltb_ge in E6].
      * split; [discriminate|lia].
      * split; [lia|reflexivity].
    + split; [lia|reflexivity].
Qed.

Lemma ISOYearMonthWithinLimits_year y m :
  ISOYearMonthWithinLimits y m = true -> -271821 <= y <= 275760.
Proof.
  intros H. apply ISOYearMonthWithinLimits_range in H.
  unfold YearMonthInClosedRange, pairLe in H. simpl in H. lia.
Qed.

(** ** Construction *)

Section Construction.

Context {collaborators : Collaborators}.

(** What the PlainDate overload does, in one equation. *)
Lemma CreateTemporalYearMonth_date_run y m d calendar :
  CreateTemporalYearMonth_date (mkPlainDate y m d) calendar =
  ([call_ThrowIfInvalidISODate y m d],
   if IsValidISODate y m d then
     if ISOYearMonthWithinLimits y m
     then Ok (mkPlainYearMonthObject y m calendar d)
     else Err (Reported JSMSG_TEMPORAL_PLAIN_YEAR_MONTH_INVALID)
   else Err (Raised (call_ThrowIfInvalidISODate y m d) RangeError)).
Proof.
  unfold CreateTemporalYearMonth_date, ThrowIfInvalidISODate, call, bind, throw, ret.
  destruct (IsValidISODate y m d); [|reflexivity].
  destruct (ISOYearMonthWithinLimits y m); reflexivity.
Qed.

Lemma CreateTemporalYearMonth_result_run y m d calendar :
  CreateTemporalYearMonth_result (mkPlainDate y m d) calendar =
  ([call_ThrowIfInvalidISODate y m d],
   if IsValidISODate y m d then
     if ISOYearMonthWithinLimits y m
     then Ok (mkYearMonth (mkPlainDate y m d) calendar)
     else Err (Reported JSMSG_TEMPORAL_PLAIN_YEAR_MONTH_INVALID)
   else Err (Raised (call_ThrowIfInvalidISODate y m d) RangeError)).
Proof.
  unfold CreateTemporalYearMonth_result, ThrowIfInvalidISODate, call, bind, throw, ret.
  destruct (IsValidISODate y m d); [|reflexivity].
  destruct (ISOYearMonthWithinLimits y m); reflexivity.
Qed.

(** The constructor overload: the casts lose nothing on the path that
    reaches them. *)
Lemma CreateTemporalYearMonth_args_run args y m d calendar :
  outcome (CreateTemporalYearMonth_args args y m d calendar) =
  if IsValidISODate y m d then
    if ISOYearMonthWithinLimits y m then
      match GetPrototypeFromBuiltinConstructor_impl args with
      | Ok _ => Ok (mkPlainYearMonthObject y m calendar d)
      | Err t => Err (Raised call_GetPrototypeFromBuiltinConstructor t)
      end
    else Err (Reported JSMSG_TEMPORAL_PLAIN_YEAR_MONTH_INVALID)
  else Err (Raised (call_ThrowIfInvalidISODate y m d) RangeError).
Proof.
  unfold CreateTemporalYearMonth_args, ThrowIfInvalidISODate,
    GetPrototypeFromBuiltinConstructor, call, bind, throw, ret, outcome.
  destruct (IsValidISODate y m d) eqn:V; [|reflexivity].
  destruct (IsValidISODate_bounds _ _ _ V) as [Hm Hd].
  rewrite (int32_t_fits m) by lia.
  destruct (ISOYearMonthWithinLimits y m) eqn:L; [|reflexivity].
  pose proof (ISOYearMonthWithinLimits_year _ _ L).
  rewrite (int32_t_fits y), (int32_t_fits d) by lia.
  simpl. destruct (GetPrototypeFromBuiltinConstructor_impl args) as [[]|]; reflexivity.
Qed.

Lemma Invariants_intro y m d calendar :
  IsValidISODate y m d = true -> ISOYearMonthWithinLimits y m = true ->
  Invariants (mkPlainYearMonthObject y m calendar d).
Proof.
  intros V L. split; simpl; [exact V|].
  apply ISOYearMonthWithinLimits_range, L.
Qed.

Lemma CreateTemporalYearMonth_args_Ok args y m d calendar o :
  outcome (CreateTemporalYearMonth_args args y m d calendar) = Ok o ->
  IsValidISODate y m d = true /\ ISOYearMonthWithinLimits y m = true
  /\ o = mkPlainYearMonthObject y m calendar d.
Proof.
  rewrite CreateTemporalYearMonth_args_run.
  destruct (IsValidISODate y m d); [|discriminate].
  destruct (ISOYearMonthWithinLimits y m); [|discriminate].
  destruct (GetPrototypeFromBuiltinConstructor_impl args); [|discriminate].
  intros [= <-]. auto.
Qed.

Lemma CreateTemporalYearMonth_date_Ok date calendar o :
  outcome (CreateTemporalYearMonth_date date calendar) = Ok o ->
  IsValidISODate (year date) (month date) (day date) = true
  /\ ISOYearMonthWithinLimits (year date) (month date) = true
  /\ o = mkPlainYearMonthObject (year date) (month date) calendar (day date).
Proof.
  destruct date as [y m d]. rewrite CreateTemporalYearMonth_date_run.
  unfold outcome; simpl.
  destruct (IsValidISODate y m d); [|discriminate].
  destruct (ISOYearMonthWithinLimits y m); [|discriminate].
  intros [= <-]. auto.
Qed.

(** C4, as the code has it.  Construction of a year-month succeeds only
    when (isoYear, isoMonth, referenceIsoDay) is a valid proleptic
    Gregorian date and (isoYear, isoMonth) lies in the closed range
    [(-271821, 4), (275760, 9)]; a pair outside the range never succeeds
    and fails with a range error, which on a valid date is the report
    plain-year-month-invalid (on an invalid date the date check, which
    comes first, raises its own range error); and every year-month that
    the constructor or an overload of CreateTemporalYearMonth hands out
    satisfies both invariants, its slots being the arguments unchanged. *)
Theorem construction_validates :
  forall args isoYear isoMonth isoDay calendar,
    let r := outcome (CreateTemporalYearMonth_args args isoYear isoMonth
                        isoDay calendar) in
    (forall o, r = Ok o ->
       IsValidISODate isoYear isoMonth isoDay = true
       /\ YearMonthInClosedRange isoYear isoMonth
       /\ o = mkPlainYearMonthObject isoYear isoMonth calendar isoDay
       /\ Invariants o)
    /\ (~ YearMonthInClosedRange isoYear isoMonth ->
        (exists e, r = Err e /\ errorType e = RangeError)
        /\ (IsValidISODate isoYear isoMonth isoDay = true ->
            r = Err (Reported JSMSG_TEMPORAL_PLAIN_YEAR_MONTH_INVALID)))
    /\ (forall a o, outcome (PlainYearMonthConstructor a) = Ok o -> Invariants o)
    /\ (forall date c o,
          outcome (CreateTemporalYearMonth_date date c) = Ok o -> Invariants o)
    /\ (forall yearMonth o,
          outcome (CreateTemporalYearMonth_handle yearMonth) = Ok o ->
          Invariants o)
    /\ (forall date c res,
          outcome (CreateTemporalYearMonth_result date c) = Ok res ->
          IsValidISODate (year (ym_date res)) (month (ym_date res))
            (day (ym_date res)) = true
          /\ YearMonthInClosedRange (year (ym_date res)) (month (ym_date res))).
Proof.
  intros args y m d calendar r. subst r.
  split; [|split; [|split; [|split; [|split]]]].
  - intros o H. apply CreateTemporalYearMonth_args_Ok in H as (V & L & ->).
    repeat split; auto; try (apply ISOYearMonthWithinLimits_range, L).
  - intros Out. rewrite CreateTemporalYearMonth_args_run.
    destruct (ISOYearMonthWithinLimits y m) eqn:L.
    + exfalso. apply Out, ISOYearMonthWithinLimits_range, L.
    + destruct (IsValidISODate y m d); split; eauto; discriminate.
  - intros a o H. unfold PlainYearMonthConstructor in H.
    do 5 (apply outcome_bind_Ok in H as (? & _ & H)).
    apply CreateTemporalYearMonth_args_Ok in H as (V & L & ->).
    apply Invariants_intro; assumption.
  - intros date c o H. apply CreateTemporalYearMonth_date_Ok in H as (V & L & ->).
    apply Invariants_intro; assumption.
  - intros yearMonth o H. unfold CreateTemporalYearMonth_handle in H.
    apply CreateTemporalYearMonth_date_Ok in H as (V & L & ->).
    apply Invariants_intro; assumption.
  - intros [y' m' d'] c res. rewrite CreateTemporalYearMonth_result_run.
    unfold outcome; simpl.
    destruct (IsValidISODate y' m' d') eqn:V; [|discriminate].
    destruct (ISOYearMonthWithinLimits y' m') eqn:L; [|discriminate].
    intros [= <-]. simpl. split; [exact V|apply ISOYearMonthWithinLimits_range, L].
Qed.

End Construction.

(** The constructor on the scenarios of the specification: September
    275760 is the last year-month, October 275760 is refused. *)
Lemma construction_validates_witness :
  outcome (PlainYearMonthConstructor (mkArgs true [num 275760; num 9]))
    = Ok (ym 275760 9)
  /\ Invariants (ym 275760 9)
  /\ outcome (PlainYearMonthConstructor (mkArgs true [num 275760; num 10]))
      = Err (Reported JSMSG_TEMPORAL_PLAIN_YEAR_MONTH_INVALID).
Proof.
  split; [reflexivity|]. split; [|reflexivity].
  exact (proj1 (proj2 (proj2 (construction_validates
           (mkArgs true [num 275760; num 9]) 275760 9 1 ISO8601)))
         (mkArgs true [num 275760; num 9]) (ym 275760 9) eq_refl).
Defined.

(** ** Comparison and equality *)

Lemma PlainDate_eqb_eq a b : PlainDate_eqb a b = true <-> a = b.
Proof.
  destruct a as [y m d], b as [y' m' d']. unfold PlainDate_eqb. simpl.
  rewrite !andb_true_iff, !Z.eqb_eq.
  split; [intros [[-> ->] ->]; reflexivity|intros [= -> -> ->]; auto].
Qed.

Lemma CalendarEquals_identifier a b :
  CalendarEquals a b = true
  <-> ToTemporalCalendarIdentifier a = ToTemporalCalendarIdentifier b.
Proof. unfold CalendarEquals. apply String.eqb_eq. Qed.

Lemma ToTemporalCalendarIdentifier_inj a b :
  ToTemporalCalendarIdentifier a = ToTemporalCalendarIdentifier b -> a = b.
Proof. destruct a, b; simpl; intros H; try reflexivity; discriminate H. Qed.

Lemma CalendarEquals_refl c : CalendarEquals c c = true.
Proof. apply CalendarEquals_identifier. reflexivity. Qed.

Lemma CompareISODate_cases a b :
  (CompareISODate a b = -1 /\ earlier a b)
  \/ (CompareISODate a b = 0 /\ a = b)
  \/ (CompareISODate a b = 1 /\ earlier b a).
Proof.
  destruct a as [y m d], b as [y' m' d']. unfold CompareISODate, earlier. simpl.
  destruct (Z.eqb_spec y y') as [->|Hy]; simpl.
  - destruct (Z.eqb_spec m m') as [->|Hm]; simpl.
    + destruct (Z.eqb_spec d d') as [->|Hd]; simpl.
      * right; left; auto.
      * destruct (Z.ltb_spec d d'); [left|right; right]; split; auto; lia.
    + destruct (Z.ltb_spec m m'); [left|right; right]; split; auto; lia.
  - destruct (Z.ltb_spec y y'); [left|right; right]; split; auto; lia.
Qed.

Lemma CompareISODate_lexicographic a b :
  CompareISODate a b = lexicographic a b.
Proof.
  destruct a as [y m d], b as [y' m' d']. unfold CompareISODate, lexicographic.
  simpl.
  destruct (Z.compare_spec y y') as [->|H|H].
  - rewrite Z.eqb_refl. simpl.
    destruct (Z.compare_spec m m') as [->|H|H].
    + rewrite Z.eqb_refl. simpl.
      destruct (Z.compare_spec d d') as [->|H|H].
      * rewrite Z.eqb_refl. reflexivity.
      * destruct (Z.eqb_spec d d'); [lia|]. simpl.
        destruct (Z.ltb_spec d d'); [reflexivity|lia].
      * destruct (Z.eqb_spec d d'); [lia|]. simpl.
        destruct (Z.ltb_spec d d'); [lia|reflexivity].
    + destruct (Z.eqb_spec m m'); [lia|]. simpl.
      destruct (Z.ltb_spec m m'); [reflexivity|lia].
    + destruct (Z.eqb_spec m m'); [lia|]. simpl.
      destruct (Z.ltb_spec m m'); [lia|reflexivity].
  - destruct (Z.eqb_spec y y'); [lia|]. simpl.
    destruct (Z.ltb_spec y y'); [reflexivity|lia].
  - destruct (Z.eqb_spec y y'); [lia|]. simpl.
    destruct (Z.ltb_spec y y'); [lia|reflexivity].
Qed.

Lemma earlier_irrefl a : ~ earlier a a.
Proof. unfold earlier. lia. Qed.

Lemma earlier_trans a b c : earlier a b -> earlier b c -> earlier a c.
Proof. unfold earlier. lia. Qed.

Lemma earlier_asym a b : earlier a b -> earlier b a -> False.
Proof. unfold earlier. lia. Qed.

Lemma CompareISODate_refl a : CompareISODate a a = 0.
Proof.
  destruct (CompareISODate_cases a a) as [[_ H]|[[H _]|[_ H]]];
    [destruct (earlier_irrefl _ H)|exact H|destruct (earlier_irrefl _ H)].
Qed.

Lemma CompareISODate_antisym a b : CompareISODate b a = - CompareISODate a b.
Proof.
  destruct (CompareISODate_cases a b) as [[E H]|[[E H]|[E H]]];
  destruct (CompareISODate_cases b a) as [[E' H']|[[E' H']|[E' H']]];
    rewrite E, E'; try reflexivity; subst;
    solve [ destruct (earlier_irrefl _ H)
          | destruct (earlier_irrefl _ H')
          | destruct (earlier_asym _ _ H H') ].
Qed.

Lemma CompareISODate_trans a b c :
  CompareISODate a b <= 0 -> CompareISODate b c <= 0 ->
  CompareISODate a c <= 0
  /\ (CompareISODate a b < 0 \/ CompareISODate b c < 0 -> CompareISODate a c < 0)
  /\ (CompareISODate a b = 0 -> CompareISODate b c = 0 -> CompareISODate a c = 0).
Proof.
  destruct (CompareISODate_cases a b) as [[E H]|[[E H]|[E H]]];
  destruct (CompareISODate_cases b c) as [[E' H']|[[E' H']|[E' H']]];
    rewrite E, E'; intros L L'; try lia; subst.
  - pose proof (earlier_trans _ _ _ H H') as T.
    destruct (CompareISODate_cases a c) as [[F G]|[[F G]|[F G]]]; rewrite F;
      [lia|subst; destruct (earlier_asym _ _ H H')
      |destruct (earlier_asym _ _ T G)].
  - rewrite E. lia.
  - rewrite E'. lia.
  - rewrite CompareISODate_refl. lia.
Qed.

Section Comparison.

Context {collaborators : Collaborators}.

(** A PlainYearMonth argument is taken as it is, without any call. *)
Lemma ToTemporalYearMonth_default_object o :
  ToTemporalYearMonth_default (ObjectValue (PlainYearMonthObj o)) =
  ([], Ok (mkYearMonth (ToPlainDate o) (CALENDAR_SLOT o))).
Proof. reflexivity. Qed.

Lemma PlainYearMonth_compare_run a b A B :
  outcome (ToTemporalYearMonth_default a) = Ok A ->
  outcome (ToTemporalYearMonth_default b) = Ok B ->
  outcome (PlainYearMonth_compare (arg2 a b))
  = Ok (CompareISODate (ym_date A) (ym_date B)).
Proof.
  unfold PlainYearMonth_compare, arg2, get, outcome; simpl.
  destruct (ToTemporalYearMonth_default a) as [ta [A'|]]; simpl; [|discriminate].
  intros [= ->].
  destruct (ToTemporalYearMonth_default b) as [tb [B'|]]; simpl; [|discriminate].
  intros [= ->]. reflexivity.
Qed.

Lemma PlainYearMonth_equals_run yearMonth other O :
  outcome (ToTemporalYearMonth_default other) = Ok O ->
  outcome (PlainYearMonth_equals yearMonth (arg1 other))
  = Ok (PlainDate_eqb (ToPlainDate yearMonth) (ym_date O)
        && CalendarEquals (CALENDAR_SLOT yearMonth) (ym_calendar O)).
Proof.
  unfold PlainYearMonth_equals, arg1, get, outcome; simpl.
  destruct (ToTemporalYearMonth_default other) as [t [O'|]]; simpl; [|discriminate].
  intros [= ->]. reflexivity.
Qed.

(** C8. compare(a, b) returns exactly -1, 0 or +1, the lexicographic
    comparison of the ISO triples (year, month, day) of the two converted
    year-months, whatever their calendars; for all a, b, c that convert it
    is antisymmetric (compare(b, a) = -compare(a, b), and 0 only on equal
    triples), transitive, and compare(a, a) = 0. *)
Theorem compare_total_order :
  forall (a b c : Value) (A B C : PlainYearMonthWithCalendar),
    outcome (ToTemporalYearMonth_default a) = Ok A ->
    outcome (ToTemporalYearMonth_default b) = Ok B ->
    outcome (ToTemporalYearMonth_default c) = Ok C ->
    let compare x y := outcome (PlainYearMonth_compare (arg2 x y)) in
    compare a b = Ok (lexicographic (ym_date A) (ym_date B))
    /\ (exists r, compare a b = Ok r /\ (r = -1 \/ r = 0 \/ r = 1)
                  /\ (r = 0 <-> ym_date A = ym_date B))
    /\ (forall o1 o2 c1 c2,
          compare (ofYM o1) (ofYM o2)
          = compare
              (ofYM (mkPlainYearMonthObject (ISO_YEAR_SLOT o1) (ISO_MONTH_SLOT o1)
                       c1 (ISO_DAY_SLOT o1)))
              (ofYM (mkPlainYearMonthObject (ISO_YEAR_SLOT o2) (ISO_MONTH_SLOT o2)
                       c2 (ISO_DAY_SLOT o2))))
    /\ compare b a = mapResult Z.opp (compare a b)
    /\ compare a a = Ok 0
    /\ (forall x y, compare a b = Ok x -> compare b c = Ok y ->
          x <= 0 -> y <= 0 ->
          exists z, compare a c = Ok z /\ z <= 0
                    /\ (x < 0 \/ y < 0 -> z < 0)
                    /\ (x = 0 -> y = 0 -> z = 0)).
Proof.
  intros a b c A B C HA HB HC compare. subst compare. cbv beta.
  rewrite (PlainYearMonth_compare_run a b A B HA HB).
  rewrite (PlainYearMonth_compare_run b a B A HB HA).
  rewrite (PlainYearMonth_compare_run a a A A HA HA).
  rewrite (PlainYearMonth_compare_run b c B C HB HC).
  rewrite (PlainYearMonth_compare_run a c A C HA HC).
  split; [rewrite CompareISODate_lexicographic; reflexivity|].
  split.
  { eexists. split; [reflexivity|].
    destruct (CompareISODate_cases (ym_date A) (ym_date B))
      as [[E H]|[[E H]|[E H]]]; rewrite E; (split; [lia|]).
    - split; [lia|]. intros EQ. rewrite EQ in H. destruct (earlier_irrefl _ H).
    - split; [intros _; exact H|reflexivity].
    - split; [lia|]. intros EQ. rewrite EQ in H. destruct (earlier_irrefl _ H). }
  split; [intros; reflexivity|].
  split; [simpl; rewrite CompareISODate_antisym; reflexivity|].
  split; [rewrite CompareISODate_refl; reflexivity|].
  intros x y [= <-] [= <-] Lx Ly.
  eexists. split; [reflexivity|].
  exact (CompareISODate_trans _ _ _ Lx Ly).
Qed.

(** C9. equals(a, b) is true exactly when the ISO triples of the receiver
    and of the converted argument are identical and the two calendars have
    the same canonical identifier; so equals(a, b) = true gives
    compare(a, b) = 0, and the converse fails for two year-months with one
    ISO anchor and different calendars. *)
Theorem equals_iff_same_anchor_and_calendar :
  forall (yearMonth : PlainYearMonthObject) (other : Value)
         (O : PlainYearMonthWithCalendar),
    outcome (ToTemporalYearMonth_default other) = Ok O ->
    (exists r, outcome (PlainYearMonth_equals yearMonth (arg1 other)) = Ok r
       /\ (r = true <->
           ToPlainDate yearMonth = ym_date O
           /\ ToTemporalCalendarIdentifier (CALENDAR_SLOT yearMonth)
              = ToTemporalCalendarIdentifier (ym_calendar O)))
    /\ (outcome (PlainYearMonth_equals yearMonth (arg1 other)) = Ok true ->
        outcome (PlainYearMonth_compare (arg2 (ofYM yearMonth) other)) = Ok 0)
    /\ (exists x y,
          outcome (PlainYearMonth_compare (arg2 (ofYM x) (ofYM y))) = Ok 0
          /\ outcome (PlainYearMonth_equals x (arg1 (ofYM y))) = Ok false).
Proof.
  intros yearMonth other O HO.
  rewrite (PlainYearMonth_equals_run yearMonth other O HO).
  rewrite (PlainYearMonth_compare_run (ofYM yearMonth) other _ O
             (f_equal snd (ToTemporalYearMonth_default_object yearMonth)) HO).
  split; [|split].
  - eexists. split; [reflexivity|].
    rewrite andb_true_iff, PlainDate_eqb_eq, CalendarEquals_identifier.
    reflexivity.
  - intros [= H]. apply andb_true_iff in H as [H _].
    apply PlainDate_eqb_eq in H. simpl. rewrite H. rewrite CompareISODate_refl.
    reflexivity.
  - exists (ymIn ISO8601 2020 1), (ymIn Gregorian 2020 1). split; reflexivity.
Qed.

End Comparison.

(** compare on three inputs of three shapes: an object, a string and a
    property bag. *)
Lemma compare_total_order_witness :
  outcome (PlainYearMonth_compare
             (arg2 (ofYM (ym 2019 12)) (StringValue "2020-01"))) = Ok (-1)
  /\ outcome (PlainYearMonth_compare
                (arg2 (StringValue "2020-01") (ofYM (ym 2019 12)))) = Ok 1
  /\ outcome (PlainYearMonth_compare
                (arg2 (ofYM (ym 2019 12)) (ofYM (ym 2019 12)))) = Ok 0.
Proof.
  pose proof (compare_total_order
    (ofYM (ym 2019 12)) (StringValue "2020-01")
    (obj [("year"%string, num 2020); ("month"%string, num 2)])
    (mkYearMonth (mkPlainDate 2019 12 1) ISO8601)
    (mkYearMonth (mkPlainDate 2020 1 1) ISO8601)
    (mkYearMonth (mkPlainDate 2020 2 1) ISO8601)
    eq_refl eq_refl eq_refl) as (H1 & _ & _ & H2 & H3 & _).
  cbv beta in H1, H2, H3.
  split; [exact H1|]. split; [|exact H3].
  rewrite H2, H1. reflexivity.
Defined.

(** equals and compare on one year-month, given as an object and as a
    string. *)
Lemma equals_iff_same_anchor_and_calendar_witness :
  outcome (PlainYearMonth_equals (ym 2020 1) (arg1 (StringValue "2020-01")))
    = Ok true
  /\ outcome (PlainYearMonth_compare
                (arg2 (ofYM (ym 2020 1)) (StringValue "2020-01"))) = Ok 0.
Proof.
  split; [reflexivity|].
  exact (proj1 (proj2 (equals_iff_same_anchor_and_calendar
           (ym 2020 1) (StringValue "2020-01")
           (mkYearMonth (mkPlainDate 2020 1 1) ISO8601) eq_refl)) eq_refl).
Defined.

(** ** The difference operation *)

Lemma never_call {A} P c (r : Result ErrorType A) :
  (forall t, ~ P (Raised c t)) -> never P (call c r).
Proof.
  intros H e. unfold call, outcome; simpl. destruct r; [discriminate|].
  intros [= <-]. apply H.
Qed.

Lemma never_ret {A} P (a : A) : never P (ret a).
Proof. intros e. discriminate. Qed.

Lemma never_throw {A} (P : Error -> Prop) e : ~ P e -> never P (@throw A e).
Proof. intros H e'. unfold throw, outcome; simpl. intros [= <-]. exact H. Qed.

Lemma never_bind {A B} P (m : M A) (k : A -> M B) :
  never P m -> (forall a, never P (k a)) -> never P (bind m k).
Proof.
  intros Hm Hk e. destruct m as [t [a|e']]; unfold bind, outcome; simpl.
  - specialize (Hk a e). destruct (k a) as [t' r]. exact Hk.
  - intros [= <-]. apply Hm. reflexivity.
Qed.

Lemma outcome_bind_Err {A B} (m : M A) (k : A -> M B) e :
  outcome (bind m k) = Err e ->
  outcome m = Err e \/ exists a, outcome m = Ok a /\ outcome (k a) = Err e.
Proof.
  destruct m as [t [a|e']]; unfold bind, outcome; simpl.
  - destruct (k a) as [t' r] eqn:K. simpl. intros ->. right. exists a.
    rewrite K. auto.
  - intros [= <-]. left. reflexivity.
Qed.

Lemma outcome_call_Ok {A} c (r : Result ErrorType A) a :
  outcome (call c r) = Ok a -> r = Ok a.
Proof. unfold call, outcome; simpl. destruct r; [intros [= ->]; reflexivity|discriminate]. Qed.

Section Difference.

Context {collaborators : Collaborators}.

Ltac never_tac :=
  repeat first
    [ apply never_ret
    | apply never_call; intros ? []
    | apply never_throw; intros []
    | apply never_bind; [|intros ?]
    | progress cbv beta
    | match goal with
      | |- never _ (if ?b then _ else _) => destruct b
      | |- never _ (match ?x with _ => _ end) => destruct x
      end ].

Lemma CreateTemporalYearMonth_date_never date c :
  never isCalendarIncompatible (CreateTemporalYearMonth_date date c).
Proof. unfold CreateTemporalYearMonth_date, ThrowIfInvalidISODate. never_tac. Qed.

Lemma ToTemporalYearMonth_never item overflow :
  never isCalendarIncompatible (ToTemporalYearMonth item overflow).
Proof.
  unfold ToTemporalYearMonth, ToTemporalYearMonth_object,
    GetTemporalCalendarWithISODefault, PrepareCalendarFields,
    CalendarYearMonthFromFields, CalendarYearMonthFromFields_object,
    ParseTemporalYearMonthString, ToBuiltinCalendar.
  destruct item; never_tac; apply CreateTemporalYearMonth_date_never.
Qed.

Lemma otherYearMonthObject_never arg other :
  never isCalendarIncompatible (otherYearMonthObject arg other).
Proof.
  unfold otherYearMonthObject, CreateTemporalYearMonth_handle.
  never_tac; apply CreateTemporalYearMonth_date_never.
Qed.

Lemma resolveDifferenceSettings_never operation args :
  never isCalendarIncompatible (resolveDifferenceSettings operation args).
Proof.
  unfold resolveDifferenceSettings, RequireObjectArg, GetDifferenceSettings.
  never_tac.
Qed.

Lemma differenceOfAnchors_never operation yearMonth calendar o settings :
  never isCalendarIncompatible
    (differenceOfAnchors operation yearMonth calendar o settings).
Proof.
  unfold differenceOfAnchors, roundDateDuration,
    PrepareCalendarFieldsAndFieldNames, CalendarDateFromFields,
    PrepareTemporalFields, CalendarDateUntil, RoundRelativeDuration,
    CreateTemporalDuration.
  never_tac.
Qed.

(** The four ways through the function, each with its trace. *)

Lemma Difference_conversion_fails operation yearMonth args t e :
  ToTemporalYearMonth_default (get args 0) = (t, Err e) ->
  DifferenceTemporalPlainYearMonth operation yearMonth args = (t, Err e).
Proof. intros H. unfold DifferenceTemporalPlainYearMonth. rewrite H. reflexivity. Qed.

Lemma Difference_object_fails operation yearMonth args t1 other t2 e :
  ToTemporalYearMonth_default (get args 0) = (t1, Ok other) ->
  otherYearMonthObject (get args 0) other = (t2, Err e) ->
  DifferenceTemporalPlainYearMonth operation yearMonth args = (t1 ++ t2, Err e).
Proof.
  intros H1 H2. unfold DifferenceTemporalPlainYearMonth.
  rewrite H1. unfold bind at 1. rewrite H2. reflexivity.
Qed.

Lemma Difference_incompatible operation yearMonth args t1 other t2 o :
  ToTemporalYearMonth_default (get args 0) = (t1, Ok other) ->
  otherYearMonthObject (get args 0) other = (t2, Ok o) ->
  CalendarEquals (CALENDAR_SLOT yearMonth) (ym_calendar other) = false ->
  DifferenceTemporalPlainYearMonth operation yearMonth args =
  (t1 ++ t2,
   Err (Reported (JSMSG_TEMPORAL_CALENDAR_INCOMPATIBLE
                    (ToTemporalCalendarIdentifier (CALENDAR_SLOT yearMonth))
                    (ToTemporalCalendarIdentifier (ym_calendar other))))).
Proof.
  intros H1 H2 H3. unfold DifferenceTemporalPlainYearMonth.
  rewrite H1. unfold bind at 1. rewrite H2. unfold bind at 1. rewrite H3.
  simpl. rewrite app_nil_r. reflexivity.
Qed.

Lemma Difference_settings_fail operation yearMonth args t1 other t2 o t3 e :
  ToTemporalYearMonth_default (get args 0) = (t1, Ok other) ->
  otherYearMonthObject (get args 0) other = (t2, Ok o) ->
  CalendarEquals (CALENDAR_SLOT yearMonth) (ym_calendar other) = true ->
  resolveDifferenceSettings operation args = (t3, Err e) ->
  DifferenceTemporalPlainYearMonth operation yearMonth args =
  (t1 ++ t2 ++ t3, Err e).
Proof.
  intros H1 H2 H3 H4. unfold DifferenceTemporalPlainYearMonth.
  rewrite H1. unfold bind at 1. rewrite H2. unfold bind at 1. rewrite H3.
  simpl negb. cbv iota. rewrite H4. reflexivity.
Qed.

Lemma Difference_equal_anchors operation yearMonth args t1 other t2 o t3 s :
  ToTemporalYearMonth_default (get args 0) = (t1, Ok other) ->
  otherYearMonthObject (get args 0) other = (t2, Ok o) ->
  CalendarEquals (CALENDAR_SLOT yearMonth) (ym_calendar other) = true ->
  resolveDifferenceSettings operation args = (t3, Ok s) ->
  PlainDate_eqb (ToPlainDate yearMonth) (ym_date other) = true ->
  DifferenceTemporalPlainYearMonth operation yearMonth args =
  (t1 ++ t2 ++ t3, Ok Duration.zero).
Proof.
  intros H1 H2 H3 H4 H5. unfold DifferenceTemporalPlainYearMonth.
  rewrite H1. unfold bind at 1. rewrite H2. unfold bind at 1. rewrite H3.
  simpl negb. cbv iota. rewrite H4. unfold bind at 1. rewrite H5.
  simpl. rewrite app_nil_r. reflexivity.
Qed.

Lemma Difference_distinct_anchors operation yearMonth args t1 other t2 o t3 s :
  ToTemporalYearMonth_default (get args 0) = (t1, Ok other) ->
  otherYearMonthObject (get args 0) other = (t2, Ok o) ->
  CalendarEquals (CALENDAR_SLOT yearMonth) (ym_calendar other) = true ->
  resolveDifferenceSettings operation args = (t3, Ok s) ->
  PlainDate_eqb (ToPlainDate yearMonth) (ym_date other) = false ->
  DifferenceTemporalPlainYearMonth operation yearMonth args =
  (t1 ++ t2 ++ t3
     ++ trace (differenceOfAnchors operation yearMonth (CALENDAR_SLOT yearMonth)
                 o s),
   outcome (differenceOfAnchors operation yearMonth (CALENDAR_SLOT yearMonth)
              o s)).
Proof.
  intros H1 H2 H3 H4 H5. unfold DifferenceTemporalPlainYearMonth.
  rewrite H1. unfold bind at 1. rewrite H2. unfold bind at 1. rewrite H3.
  simpl negb. cbv iota. rewrite H4. unfold bind at 1. rewrite H5.
  unfold trace, outcome.
  destruct (differenceOfAnchors _ _ _ _ _). reflexivity.
Qed.

(** C7. The difference operation fails with the range error
    calendar-incompatible whenever the other argument converts and its
    calendar is not identifier-equal to the receiver's, whatever the
    options and the anchors; and when it fails with that report, the
    argument did convert and the two identifiers differ. *)
Theorem calendar_incompatible_iff :
  forall operation yearMonth args,
    (forall t1 other t2 o,
       ToTemporalYearMonth_default (get args 0) = (t1, Ok other) ->
       otherYearMonthObject (get args 0) other = (t2, Ok o) ->
       ToTemporalCalendarIdentifier (CALENDAR_SLOT yearMonth)
         <> ToTemporalCalendarIdentifier (ym_calendar other) ->
       exists e,
         DifferenceTemporalPlainYearMonth operation yearMonth args
           = (t1 ++ t2, Err e)
         /\ e = Reported (JSMSG_TEMPORAL_CALENDAR_INCOMPATIBLE
                            (ToTemporalCalendarIdentifier (CALENDAR_SLOT yearMonth))
                            (ToTemporalCalendarIdentifier (ym_calendar other)))
         /\ errorType e = RangeError)
    /\ (forall e,
          outcome (DifferenceTemporalPlainYearMonth operation yearMonth args)
            = Err e ->
          isCalendarIncompatible e ->
          exists other,
            outcome (ToTemporalYearMonth_default (get args 0)) = Ok other
            /\ ToTemporalCalendarIdentifier (CALENDAR_SLOT yearMonth)
                 <> ToTemporalCalendarIdentifier (ym_calendar other)
            /\ e = Reported (JSMSG_TEMPORAL_CALENDAR_INCOMPATIBLE
                    (ToTemporalCalendarIdentifier (CALENDAR_SLOT yearMonth))
                    (ToTemporalCalendarIdentifier (ym_calendar other)))).
Proof.
  intros operation yearMonth args. split.
  - intros t1 other t2 o H1 H2 H3. eexists. split; [|split; reflexivity].
    apply Difference_incompatible with (o := o); auto.
    destruct (CalendarEquals _ _) eqn:E; [|reflexivity].
    apply CalendarEquals_identifier in E. contradiction.
  - intros e H Inc.
    destruct (ToTemporalYearMonth_default (get args 0)) as [t1 [other|e1]] eqn:H1.
    2:{ rewrite (Difference_conversion_fails _ _ _ _ _ H1) in H.
        injection H as <-.
        destruct (ToTemporalYearMonth_never (get args 0) Constrain e1); auto.
        unfold ToTemporalYearMonth_default in H1. rewrite H1. reflexivity. }
    exists other. split; [reflexivity|].
    destruct (otherYearMonthObject (get args 0) other) as [t2 [o|e2]] eqn:H2.
    2:{ rewrite (Difference_object_fails _ _ _ _ _ _ _ H1 H2) in H.
        injection H as <-.
        destruct (otherYearMonthObject_never (get args 0) other e2); auto.
        rewrite H2. reflexivity. }
    destruct (CalendarEquals (CALENDAR_SLOT yearMonth) (ym_calendar other)) eqn:H3.
    2:{ rewrite (Difference_incompatible _ _ _ _ _ _ _ H1 H2 H3) in H.
        injection H as <-. split; [|reflexivity].
        intros E. apply CalendarEquals_identifier in E. congruence. }
    exfalso.
    destruct (resolveDifferenceSettings operation args) as [t3 [s|e3]] eqn:H4.
    2:{ rewrite (Difference_settings_fail _ _ _ _ _ _ _ _ _ H1 H2 H3 H4) in H.
        injection H as <-.
        destruct (resolveDifferenceSettings_never operation args e3); auto.
        rewrite H4. reflexivity. }
    destruct (PlainDate_eqb (ToPlainDate yearMonth) (ym_date other)) eqn:H5.
    + rewrite (Difference_equal_anchors _ _ _ _ _ _ _ _ _ H1 H2 H3 H4 H5) in H.
      discriminate H.
    + rewrite (Difference_distinct_anchors _ _ _ _ _ _ _ _ _ H1 H2 H3 H4 H5) in H.
      unfold outcome at 1 in H. simpl in H.
      exact (differenceOfAnchors_never _ _ _ _ _ e H Inc).
Qed.

Lemma resolveDifferenceSettings_trace operation args t r :
  resolveDifferenceSettings operation args = (t, r) ->
  forallb (fun c => negb (isCalendarArithmetic c)) t = true.
Proof.
  unfold resolveDifferenceSettings, RequireObjectArg, GetDifferenceSettings,
    call, bind, ret.
  destruct (hasDefined args 1); [|intros [= <- <-]; reflexivity].
  destruct (get args 1); intros [= <- <-]; reflexivity.
Qed.

(** Steps 8-17 on success: what was asked of the calendar, and what is
    made of the answer. *)
Lemma differenceOfAnchors_Ok operation yearMonth calendar o s d :
  outcome (differenceOfAnchors operation yearMonth calendar o s) = Ok d ->
  exists thisFields thisDate otherFields otherDate until,
    PrepareCalendarFieldsAndFieldNames_impl calendar yearMonth
      [CF_MonthCode; CF_Year] = Ok thisFields
    /\ CalendarDateFromFields_impl calendar (setDay thisFields 1) Constrain
         = Ok thisDate
    /\ PrepareTemporalFields_impl o (keys thisFields) = Ok otherFields
    /\ CalendarDateFromFields_impl calendar (setDay otherFields 1) Constrain
         = Ok otherDate
    /\ CalendarDateUntil_impl calendar thisDate otherDate (largestUnit s)
         = Ok until
    /\ let kept := DateDuration.ofYearsMonths (DateDuration.years until)
                     (DateDuration.months until) in
       if rounds s then
         exists relative,
           RoundRelativeDuration_impl (mkNormalizedDuration kept 0)
             (GetUTCEpochNanoseconds (mkPlainDateTime (pd_date otherDate) midnight))
             (mkPlainDateTime (pd_date thisDate) midnight)
             calendar EmptyTimeZone s = Ok relative
           /\ d = signed operation
                    (Duration.ofYearsMonths
                       (Duration.years (rr_duration relative))
                       (Duration.months (rr_duration relative)))
       else
         d = signed operation
               (Duration.ofYearsMonths (DateDuration.years until)
                  (DateDuration.months until)).
Proof.
  unfold differenceOfAnchors. intros H.
  apply outcome_bind_Ok in H as (thisFields & H1 & H).
  apply outcome_call_Ok in H1.
  apply outcome_bind_Ok in H as (thisDate & H2 & H).
  apply outcome_call_Ok in H2.
  apply outcome_bind_Ok in H as (otherFields & H3 & H).
  apply outcome_call_Ok in H3.
  apply outcome_bind_Ok in H as (otherDate & H4 & H).
  apply outcome_call_Ok in H4.
  apply outcome_bind_Ok in H as (until & H5 & H).
  apply outcome_call_Ok in H5.
  apply outcome_bind_Ok in H as (dd & H6 & H).
  exists thisFields, thisDate, otherFields, otherDate, until.
  repeat (split; [assumption|]).
  cbv zeta. unfold roundDateDuration in H6. fold (rounds s) in H6.
  unfold CreateTemporalDuration, ret, outcome in H. simpl in H.
  injection H as <-.
  destruct (rounds s).
  - apply outcome_bind_Ok in H6 as (relative & H6 & H7).
    unfold RoundRelativeDuration in H6. apply outcome_call_Ok in H6.
    destruct s as [su lu mode inc]. simpl in *.
    exists relative. split; [exact H6|].
    injection H7 as <-. destruct operation; reflexivity.
  - injection H6 as <-. destruct operation; reflexivity.
Qed.

Lemma signed_onlyYearsAndMonths operation y m :
  onlyYearsAndMonths (signed operation (Duration.ofYearsMonths y m)).
Proof. destruct operation; repeat split. Qed.

(** Until and since walk steps 8-17 alike when their settings agree. *)
Lemma differenceOfAnchors_since yearMonth calendar o sU sS :
  sameDifference sU sS ->
  outcome (differenceOfAnchors Since yearMonth calendar o sS)
  = mapResult Duration.negate
      (outcome (differenceOfAnchors Until yearMonth calendar o sU)).
Proof.
  intros (HL & HS & HI & HM).
  assert (R : forall a b dd,
             roundDateDuration calendar sS a b dd
             = roundDateDuration calendar sU a b dd).
  { intros a b dd. unfold roundDateDuration, RoundRelativeDuration.
    rewrite <- HS, <- HI, <- HL.
    destruct HM as [HM|[HM1 HM2]].
    - rewrite HM. reflexivity.
    - rewrite HM1, HM2. reflexivity. }
  unfold differenceOfAnchors. rewrite <- HL.
  unfold PrepareCalendarFieldsAndFieldNames, CalendarDateFromFields,
    PrepareTemporalFields, CalendarDateUntil, CreateTemporalDuration,
    call, bind, ret, outcome.
  destruct (PrepareCalendarFieldsAndFieldNames_impl _ _ _) as [thisFields|];
    [|reflexivity].
  destruct (CalendarDateFromFields_impl _ (setDay thisFields 1) _)
    as [thisDate|]; [|reflexivity].
  destruct (PrepareTemporalFields_impl _ _) as [otherFields|]; [|reflexivity].
  destruct (CalendarDateFromFields_impl _ (setDay otherFields 1) _)
    as [otherDate|]; [|reflexivity].
  destruct (CalendarDateUntil_impl _ _ _ _) as [until|]; [|reflexivity].
  rewrite R.
  destruct (roundDateDuration calendar sU thisDate otherDate _) as [t [dd|e]];
    reflexivity.
Qed.

(** C6. In the difference operation the conversion of the other argument,
    the calendar check and the resolution of the options all come before
    the test for equal anchors: a failure of any of them is the outcome
    whether or not the anchors are equal, with nothing called after it,
    and when the function answers from equal anchors the three have
    succeeded.  Hence Y.until(Y, options) and Y.since(Y, options) with
    options whose settings are refused raise that range error instead of
    returning a zero duration. *)
Theorem options_resolved_before_equal_anchor_path :
  forall operation yearMonth args,
    (forall t e,
       ToTemporalYearMonth_default (get args 0) = (t, Err e) ->
       DifferenceTemporalPlainYearMonth operation yearMonth args = (t, Err e))
    /\ (forall t1 other t2 o,
          ToTemporalYearMonth_default (get args 0) = (t1, Ok other) ->
          otherYearMonthObject (get args 0) other = (t2, Ok o) ->
          CalendarEquals (CALENDAR_SLOT yearMonth) (ym_calendar other) = false ->
          exists e,
            DifferenceTemporalPlainYearMonth operation yearMonth args
              = (t1 ++ t2, Err e))
    /\ (forall t1 other t2 o t3 e,
          ToTemporalYearMonth_default (get args 0) = (t1, Ok other) ->
          otherYearMonthObject (get args 0) other = (t2, Ok o) ->
          CalendarEquals (CALENDAR_SLOT yearMonth) (ym_calendar other) = true ->
          resolveDifferenceSettings operation args = (t3, Err e) ->
          DifferenceTemporalPlainYearMonth operation yearMonth args
            = (t1 ++ t2 ++ t3, Err e))
    /\ (forall other d,
          outcome (ToTemporalYearMonth_default (get args 0)) = Ok other ->
          ToPlainDate yearMonth = ym_date other ->
          outcome (DifferenceTemporalPlainYearMonth operation yearMonth args)
            = Ok d ->
          CalendarEquals (CALENDAR_SLOT yearMonth) (ym_calendar other) = true
          /\ exists s,
               outcome (resolveDifferenceSettings operation args) = Ok s)
    /\ (forall options,
          GetDifferenceSettings_impl operation options DateGroup Month Month Year
            = Err RangeError ->
          exists e,
            DifferenceTemporalPlainYearMonth operation yearMonth
              (arg2 (ofYM yearMonth) (ObjectValue options))
            = ([call_RequireObjectArg (ObjectValue options);
                call_GetDifferenceSettings operation options DateGroup
                  Month Month Year], Err e)
            /\ errorType e = RangeError).
Proof.
  intros operation yearMonth args.
  split; [|split; [|split; [|split]]].
  - intros t e H. apply Difference_conversion_fails, H.
  - intros t1 other t2 o H1 H2 H3. eexists.
    apply Difference_incompatible with (o := o); eassumption.
  - intros t1 other t2 o t3 e H1 H2 H3 H4.
    apply Difference_settings_fail with (other := other) (o := o); assumption.
  - intros other d H1 HE H.
    destruct (ToTemporalYearMonth_default (get args 0)) as [t1 [other'|]] eqn:C1;
      [|discriminate H1].
    injection H1 as ->.
    destruct (otherYearMonthObject (get args 0) other) as [t2 [o|e2]] eqn:C2.
    2:{ rewrite (Difference_object_fails _ _ _ _ _ _ _ C1 C2) in H.
        discriminate H. }
    destruct (CalendarEquals (CALENDAR_SLOT yearMonth) (ym_calendar other)) eqn:C3.
    2:{ rewrite (Difference_incompatible _ _ _ _ _ _ _ C1 C2 C3) in H.
        discriminate H. }
    split; [reflexivity|].
    destruct (resolveDifferenceSettings operation args) as [t3 [s|e3]] eqn:C4.
    2:{ rewrite (Difference_settings_fail _ _ _ _ _ _ _ _ _ C1 C2 C3 C4) in H.
        discriminate H. }
    exists s. reflexivity.
  - intros options H. eexists. split.
    + apply (Difference_settings_fail operation yearMonth
               (arg2 (ofYM yearMonth) (ObjectValue options))
               [] (mkYearMonth (ToPlainDate yearMonth) (CALENDAR_SLOT yearMonth))
               [] (PlainYearMonthObj yearMonth)); try reflexivity.
      * apply CalendarEquals_refl.
      * unfold resolveDifferenceSettings, arg2, hasDefined, get; simpl.
        unfold GetDifferenceSettings, RequireObjectArg, call, bind; simpl.
        rewrite H. reflexivity.
    + reflexivity.
Qed.

(** C2, as the code has it.  Whenever the options are absent or their
    settings resolve: for every year-month Y and either operation,
    Y.until(Y, options) is a zero duration and the only calls made are
    those that read the options; and for every receiver and every
    argument, of any shape, once the argument has converted, the
    calendars are equal and the ISO anchors are equal, the operation
    returns a zero duration with no call after the options are read, so
    without calendar arithmetic. *)
Theorem until_self_is_zero_when_options_resolve :
  forall operation args t s,
    resolveDifferenceSettings operation args = (t, Ok s) ->
    (forall Y : PlainYearMonthObject,
       get args 0 = ofYM Y ->
       DifferenceTemporalPlainYearMonth operation Y args
       = (t, Ok Duration.zero))
    /\ forallb (fun c => negb (isCalendarArithmetic c)) t = true
    /\ (forall yearMonth t1 other t2 o,
          ToTemporalYearMonth_default (get args 0) = (t1, Ok other) ->
          otherYearMonthObject (get args 0) other = (t2, Ok o) ->
          CalendarEquals (CALENDAR_SLOT yearMonth) (ym_calendar other) = true ->
          ToPlainDate yearMonth = ym_date other ->
          DifferenceTemporalPlainYearMonth operation yearMonth args
            = (t1 ++ t2 ++ t, Ok Duration.zero)).
Proof.
  intros operation args t s HS. split; [|split].
  - intros Y HA.
    apply (Difference_equal_anchors operation Y args
             [] (mkYearMonth (ToPlainDate Y) (CALENDAR_SLOT Y))
             [] (PlainYearMonthObj Y) t s); try assumption.
    + rewrite HA. reflexivity.
    + rewrite HA. reflexivity.
    + apply CalendarEquals_refl.
    + apply PlainDate_eqb_eq. reflexivity.
  - apply (resolveDifferenceSettings_trace _ _ _ _ HS).
  - intros yearMonth t1 other t2 o H1 H2 H3 H4.
    apply Difference_equal_anchors with (other := other) (o := o) (s := s);
      try assumption.
    apply PlainDate_eqb_eq, H4.
Qed.

(** C3, as the code has it.  For the same receiver and the same arguments,
    since is until with every duration field negated (and fails with the
    same error when until fails), for every options value whose settings
    resolve alike for the two operations. *)
Theorem since_is_until_negated :
  forall (Y1 : PlainYearMonthObject) args tU sU tS sS,
    resolveDifferenceSettings Until args = (tU, Ok sU) ->
    resolveDifferenceSettings Since args = (tS, Ok sS) ->
    sameDifference sU sS ->
    outcome (PlainYearMonth_since Y1 args)
    = mapResult Duration.negate (outcome (PlainYearMonth_until Y1 args)).
Proof.
  intros Y1 args tU sU tS sS HU HS Same.
  unfold PlainYearMonth_since, PlainYearMonth_until.
  destruct (ToTemporalYearMonth_default (get args 0)) as [t1 [other|e1]] eqn:C1.
  2:{ rewrite !(Difference_conversion_fails _ _ _ _ _ C1). reflexivity. }
  destruct (otherYearMonthObject (get args 0) other) as [t2 [o|e2]] eqn:C2.
  2:{ rewrite !(Difference_object_fails _ _ _ _ _ _ _ C1 C2). reflexivity. }
  destruct (CalendarEquals (CALENDAR_SLOT Y1) (ym_calendar other)) eqn:C3.
  2:{ rewrite !(Difference_incompatible _ _ _ _ _ _ _ C1 C2 C3). reflexivity. }
  destruct (PlainDate_eqb (ToPlainDate Y1) (ym_date other)) eqn:C5.
  - rewrite (Difference_equal_anchors _ _ _ _ _ _ _ _ _ C1 C2 C3 HU C5).
    rewrite (Difference_equal_anchors _ _ _ _ _ _ _ _ _ C1 C2 C3 HS C5).
    reflexivity.
  - rewrite (Difference_distinct_anchors _ _ _ _ _ _ _ _ _ C1 C2 C3 HU C5).
    rewrite (Difference_distinct_anchors _ _ _ _ _ _ _ _ _ C1 C2 C3 HS C5).
    unfold outcome at 1 3. simpl.
    apply differenceOfAnchors_since, Same.
Qed.

(** C10. The Duration returned by until or since has weeks, days and all
    time components zero, for every receiver, argument and options.  It is
    the zero duration exactly on equal ISO anchors; on unequal anchors it
    is made of the years and months of the DateDuration that
    CalendarDateUntil answered for the two day-1 dates the function built
    (negated for since), its weeks and days being dropped: those years and
    months alone are handed to the rounding step when there is one, and
    the result then takes the years and months of its answer. *)
Theorem difference_keeps_years_and_months :
  forall operation yearMonth args d,
    outcome (DifferenceTemporalPlainYearMonth operation yearMonth args) = Ok d ->
    onlyYearsAndMonths d
    /\ exists other,
         outcome (ToTemporalYearMonth_default (get args 0)) = Ok other
         /\ if PlainDate_eqb (ToPlainDate yearMonth) (ym_date other)
            then d = Duration.zero
            else
              exists o s thisFields thisDate otherFields otherDate until,
                outcome (otherYearMonthObject (get args 0) other) = Ok o
                /\ outcome (resolveDifferenceSettings operation args) = Ok s
                /\ PrepareCalendarFieldsAndFieldNames_impl
                     (CALENDAR_SLOT yearMonth) yearMonth
                     [CF_MonthCode; CF_Year] = Ok thisFields
                /\ CalendarDateFromFields_impl (CALENDAR_SLOT yearMonth)
                     (setDay thisFields 1) Constrain = Ok thisDate
                /\ PrepareTemporalFields_impl o (keys thisFields)
                     = Ok otherFields
                /\ CalendarDateFromFields_impl (CALENDAR_SLOT yearMonth)
                     (setDay otherFields 1) Constrain = Ok otherDate
                /\ CalendarDateUntil_impl (CALENDAR_SLOT yearMonth) thisDate
                     otherDate (largestUnit s) = Ok until
                /\ let kept := DateDuration.ofYearsMonths
                                 (DateDuration.years until)
                                 (DateDuration.months until) in
                   if rounds s then
                     exists relative,
                       RoundRelativeDuration_impl
                         (mkNormalizedDuration kept 0)
                         (GetUTCEpochNanoseconds
                            (mkPlainDateTime (pd_date otherDate) midnight))
                         (mkPlainDateTime (pd_date thisDate) midnight)
                         (CALENDAR_SLOT yearMonth) EmptyTimeZone s
                       = Ok relative
                       /\ d = signed operation
                                (Duration.ofYearsMonths
                                   (Duration.years (rr_duration relative))
                                   (Duration.months (rr_duration relative)))
                   else
                     d = signed operation
                           (Duration.ofYearsMonths (DateDuration.years until)
                              (DateDuration.months until)).
Proof.
  intros operation yearMonth args d H.
  destruct (ToTemporalYearMonth_default (get args 0)) as [t1 [other|e1]] eqn:C1.
  2:{ rewrite (Difference_conversion_fails _ _ _ _ _ C1) in H. discriminate H. }
  destruct (otherYearMonthObject (get args 0) other) as [t2 [o|e2]] eqn:C2.
  2:{ rewrite (Difference_object_fails _ _ _ _ _ _ _ C1 C2) in H.
      discriminate H. }
  destruct (CalendarEquals (CALENDAR_SLOT yearMonth) (ym_calendar other)) eqn:C3.
  2:{ rewrite (Difference_incompatible _ _ _ _ _ _ _ C1 C2 C3) in H.
      discriminate H. }
  destruct (resolveDifferenceSettings operation args) as [t3 [s|e3]] eqn:C4.
  2:{ rewrite (Difference_settings_fail _ _ _ _ _ _ _ _ _ C1 C2 C3 C4) in H.
      discriminate H. }
  destruct (PlainDate_eqb (ToPlainDate yearMonth) (ym_date other)) eqn:C5.
  - rewrite (Difference_equal_anchors _ _ _ _ _ _ _ _ _ C1 C2 C3 C4 C5) in H.
    injection H as <-. split; [repeat split|].
    exists other. split; [reflexivity|]. rewrite C5. reflexivity.
  - rewrite (Difference_distinct_anchors _ _ _ _ _ _ _ _ _ C1 C2 C3 C4 C5) in H.
    unfold outcome at 1 in H. simpl in H.
    destruct (differenceOfAnchors_Ok _ _ _ _ _ _ H)
      as (thisFields & thisDate & otherFields & otherDate & until
          & H1 & H2 & H3 & H4 & HU & HK).
    split.
    + cbv zeta in HK. destruct (rounds s).
      * destruct HK as (relative & _ & ->). apply signed_onlyYearsAndMonths.
      * rewrite HK. apply signed_onlyYearsAndMonths.
    + exists other. split; [reflexivity|]. rewrite C5.
      exists o, s, thisFields, thisDate, otherFields, otherDate, until.
      rewrite C2.
      repeat (split; [first [assumption|reflexivity]|]). exact HK.
Qed.

End Difference.

(** ** Conversion of strings *)

Section Conversion.

Context {collaborators : Collaborators}.

(** C5. Converting a string parses it as a year-month literal, takes the
    calendar from the u-ca annotation (ISO8601 when there is none), and
    then runs CalendarYearMonthFromFields on the parsed year-month with
    overflow constrain; this holds for every string, and the overflow the
    caller supplied plays no part. *)
Theorem string_conversion_constrains :
  forall (s : string) (overflow : TemporalOverflow),
    ToTemporalYearMonth (StringValue s) overflow
    = ToTemporalYearMonth (StringValue s) Constrain
    /\ (forall date annotation calendar,
          ParseTemporalYearMonthString_impl s = Ok (date, annotation) ->
          match annotation with
          | Some id => ToBuiltinCalendar_impl id = Ok calendar
          | None => calendar = ISO8601
          end ->
          IsValidISODate (year date) (month date) (day date) = true ->
          ISOYearMonthWithinLimits (year date) (month date) = true ->
          let parsed := mkPlainYearMonthObject (year date) (month date)
                          calendar (day date) in
          let normalize :=
            call_CalendarYearMonthFromFields_object calendar parsed Constrain in
          ToTemporalYearMonth (StringValue s) overflow
          = (call_ParseTemporalYearMonthString s
               :: match annotation with
                  | Some id => [call_ToBuiltinCalendar id]
                  | None => []
                  end
               ++ [call_ThrowIfInvalidISODate (year date) (month date) (day date);
                   normalize],
             answer normalize
               (CalendarYearMonthFromFields_object_impl calendar parsed
                  Constrain))).
Proof.
  intros s overflow. split; [reflexivity|].
  intros [y m d] annotation calendar HP HC HV HL parsed normalize.
  simpl in HV, HL.
  unfold ToTemporalYearMonth, ParseTemporalYearMonthString.
  rewrite (call_Ok _ _ _ HP). unfold bind at 1.
  assert (R : match annotation with
              | Some id => ToBuiltinCalendar id
              | None => ret ISO8601
              end
              = (match annotation with
                 | Some id => [call_ToBuiltinCalendar id]
                 | None => []
                 end, Ok calendar)).
  { destruct annotation as [id|].
    - unfold ToBuiltinCalendar. rewrite (call_Ok _ _ _ HC). reflexivity.
    - rewrite HC. reflexivity. }
  rewrite R. unfold bind at 1.
  rewrite CreateTemporalYearMonth_date_run, HV, HL. unfold bind at 1.
  unfold CalendarYearMonthFromFields_object, call, answer.
  subst parsed normalize. simpl.
  destruct annotation; reflexivity.
Qed.

End Conversion.

(** ** Addition and subtraction *)

Lemma trace_bind_Ok {A B} (m : M A) (k : A -> M B) t a :
  m = (t, Ok a) -> trace (bind m k) = t ++ trace (k a).
Proof. intros H. rewrite (bind_Ok _ _ _ _ H). reflexivity. Qed.

Lemma trace_bind_call {A B} c (r : Result ErrorType A) (k : A -> M B) :
  exists rest, trace (bind (call c r) k) = c :: rest.
Proof.
  destruct r as [a|t].
  - exists (trace (k a)). rewrite (trace_bind_Ok _ _ [c] a); reflexivity.
  - exists []. reflexivity.
Qed.

Section Arithmetic.

Context {collaborators : Collaborators}.

(** C1. In add and subtract, once the duration is negated (for subtract)
    and its time balanced into days, a negative sign of the combined date
    duration has the anchor re-derived as the last day of the receiver's
    month: one month is added to the day-1 date by the calendar, one ISO
    day is taken off with the ISO triple balanced, that ISO date is made a
    calendar date, its day of month is read by the calendar, that day is
    set in the copied fields, and CalendarDateFromFields is called on them
    with constrain; a zero or positive sign leaves the day-1 date as the
    anchor, with no call.  The duration is then added to that anchor. *)
Theorem anchor_is_end_of_month_for_negative_sign :
  forall operation yearMonth args duration t overflow fields intermediateDate,
    ToTemporalDurationRecord_impl (get args 0) = Ok duration ->
    overflowOption args = (t, Ok overflow) ->
    PrepareCalendarFieldsAndFieldNames_impl (CALENDAR_SLOT yearMonth) yearMonth
      [CF_MonthCode; CF_Year] = Ok fields ->
    CalendarDateFromFields_impl (CALENDAR_SLOT yearMonth) (setDay fields 1)
      Constrain = Ok intermediateDate ->
    let calendar := CALENDAR_SLOT yearMonth in
    let durationToAdd := durationToAddOf (directed operation duration) in
    let sign := DurationSign durationToAdd in
    (sign < 0 ->
     forall nextMonth endOfMonth lastDay,
       CalendarDateAdd_impl calendar intermediateDate
         (DateDuration.ofYearsMonths 0 1) Constrain = Ok nextMonth ->
       CreateTemporalDate_impl
         (BalanceISODate (year nextMonth) (month nextMonth) (day nextMonth - 1))
         calendar = Ok endOfMonth ->
       CalendarDay_impl calendar (pd_date endOfMonth) = Ok lastDay ->
       let last :=
         call_CalendarDateFromFields calendar (setDay fields lastDay) Constrain in
       anchorDate sign calendar intermediateDate fields
       = ([call_CalendarDateAdd calendar intermediateDate
             (DateDuration.ofYearsMonths 0 1) Constrain;
           call_CreateTemporalDate
             (BalanceISODate (year nextMonth) (month nextMonth)
                (day nextMonth - 1)) calendar;
           call_CalendarDay calendar (pd_date endOfMonth);
           last],
          answer last
            (CalendarDateFromFields_impl calendar (setDay fields lastDay)
               Constrain)))
    /\ (0 <= sign ->
        anchorDate sign calendar intermediateDate fields
        = ([], Ok intermediateDate))
    /\ (forall ta date,
          anchorDate sign calendar intermediateDate fields = (ta, Ok date) ->
          exists rest,
            trace (AddDurationToOrSubtractDurationFromPlainYearMonth
                     operation yearMonth args)
            = call_ToTemporalDurationRecord (get args 0) :: t
              ++ [call_PrepareCalendarFieldsAndFieldNames calendar yearMonth
                    [CF_MonthCode; CF_Year];
                  call_CalendarDateFromFields calendar (setDay fields 1)
                    Constrain]
              ++ ta
              ++ call_AddDate calendar date durationToAdd overflow :: rest).
Proof.
  intros operation yearMonth args duration t overflow fields intermediateDate
    HD HO HF HI calendar durationToAdd sign.
  split; [|split].
  - intros Neg nextMonth endOfMonth lastDay HN HE HL last.
    unfold anchorDate. apply Z.ltb_lt in Neg. rewrite Neg.
    unfold CalendarDateAdd. rewrite (call_Ok _ _ _ HN). unfold bind at 1.
    unfold CreateTemporalDate. rewrite (call_Ok _ _ _ HE). unfold bind at 1.
    unfold CalendarDay. rewrite (call_Ok _ _ _ HL). unfold bind at 1.
    unfold CalendarDateFromFields, call, answer. reflexivity.
  - intros Pos. unfold anchorDate. apply Z.ltb_ge in Pos. rewrite Pos.
    reflexivity.
  - intros ta date HA.
    unfold AddDurationToOrSubtractDurationFromPlainYearMonth.
    unfold ToTemporalDurationRecord.
    rewrite (trace_bind_Ok _ _ _ _ (call_Ok _ _ _ HD)).
    rewrite (trace_bind_Ok _ _ _ _ HO).
    unfold PrepareCalendarFieldsAndFieldNames.
    rewrite (trace_bind_Ok _ _ _ _ (call_Ok _ _ _ HF)).
    unfold CalendarDateFromFields at 1.
    rewrite (trace_bind_Ok _ _ _ _ (call_Ok _ _ _ HI)).
    fold calendar. fold (directed operation duration).
    fold durationToAdd. fold sign.
    rewrite (trace_bind_Ok _ _ _ _ HA).
    unfold AddDate.
    match goal with
    | |- context [trace (bind (call ?c ?r) ?k)] =>
        destruct (trace_bind_call c r k) as [rest ->]
    end.
    exists rest. simpl. reflexivity.
Qed.

End Arithmetic.

(** ** The theorems on concrete year-months (ISO 8601) *)

Section Scenarios.

Local Open Scope string_scope.

(** C2 fails as stated: 2020-01 until itself, with options whose
    smallest unit is coarser than the largest, is a range error and not a
    zero duration. *)
Lemma until_self_with_refused_options :
  outcome (PlainYearMonth_until (ym 2020 1)
             (arg2 (ofYM (ym 2020 1)) (ObjectValue refusedOptions)))
  = Err (Raised (call_GetDifferenceSettings Until refusedOptions DateGroup
                   Month Month Year) RangeError)
  /\ outcome (PlainYearMonth_until (ym 2020 1)
                (arg2 (ofYM (ym 2020 1)) (ObjectValue refusedOptions)))
     <> Ok Duration.zero.
Proof. split; [reflexivity|discriminate]. Qed.

(** C3 fails as stated: from 2020-01 until 2021-03 is one year and two
    months, and so is 2021-03 since 2020-01; the negation of the latter is
    minus one year and two months. *)
Lemma until_is_not_negated_swapped_since :
  outcome (PlainYearMonth_until (ym 2020 1)
             (arg2 (ofYM (ym 2021 3)) largestYear))
    = Ok (Duration.ofYearsMonths 1 2)
  /\ outcome (PlainYearMonth_since (ym 2021 3)
                (arg2 (ofYM (ym 2020 1)) largestYear))
     = Ok (Duration.ofYearsMonths 1 2)
  /\ outcome (PlainYearMonth_until (ym 2020 1)
                (arg2 (ofYM (ym 2021 3)) largestYear))
     <> mapResult Duration.negate
          (outcome (PlainYearMonth_since (ym 2021 3)
                      (arg2 (ofYM (ym 2020 1)) largestYear))).
Proof. split; [reflexivity|]. split; [reflexivity|discriminate]. Qed.

(** C4 fails as stated: (300000, 2) lies outside the range, and with
    reference day 30 the construction fails in ThrowIfInvalidISODate, the
    first step, with the range error of that check and not with the
    report plain-year-month-invalid. *)
Lemma out_of_range_pair_on_invalid_date :
  ~ YearMonthInClosedRange 300000 2
  /\ outcome (PlainYearMonthConstructor
                (mkArgs true [num 300000; num 2; UndefinedValue; num 30]))
     = Err (Raised (call_ThrowIfInvalidISODate 300000 2 30) RangeError)
  /\ outcome (CreateTemporalYearMonth_args (mkArgs true []) 300000 2 30 ISO8601)
     = Err (Raised (call_ThrowIfInvalidISODate 300000 2 30) RangeError)
  /\ outcome (CreateTemporalYearMonth_args (mkArgs true []) 300000 2 30 ISO8601)
     <> Err (Reported JSMSG_TEMPORAL_PLAIN_YEAR_MONTH_INVALID).
Proof.
  split; [|split; [reflexivity|split; [reflexivity|discriminate]]].
  unfold YearMonthInClosedRange, pairLe. simpl. lia.
Qed.

Lemma until_self_is_zero_when_options_resolve_witness :
  DifferenceTemporalPlainYearMonth Until (ym 2020 1)
    (arg2 (ofYM (ym 2020 1)) largestYear)
  = ([call_RequireObjectArg largestYear;
      call_GetDifferenceSettings Until
        (OrdinaryObj [("largestUnit", StringValue "year")])
        DateGroup Month Month Year],
     Ok Duration.zero)
  /\ DifferenceTemporalPlainYearMonth Until (ym 2020 1)
       (arg2 (StringValue "2020-01") largestYear)
     = ([call_ParseTemporalYearMonthString "2020-01";
         call_ThrowIfInvalidISODate 2020 1 1;
         call_CalendarYearMonthFromFields_object ISO8601 (ym 2020 1) Constrain;
         call_ThrowIfInvalidISODate 2020 1 1;
         call_RequireObjectArg largestYear;
         call_GetDifferenceSettings Until
           (OrdinaryObj [("largestUnit", StringValue "year")])
           DateGroup Month Month Year],
        Ok Duration.zero).
Proof.
  split.
  - exact (proj1 (until_self_is_zero_when_options_resolve Until
                    (arg2 (ofYM (ym 2020 1)) largestYear)
                    _ (mkSettings Month Year Trunc 1) eq_refl)
             (ym 2020 1) eq_refl).
  - exact (proj2 (proj2 (until_self_is_zero_when_options_resolve Until
                    (arg2 (StringValue "2020-01") largestYear)
                    _ (mkSettings Month Year Trunc 1) eq_refl))
             (ym 2020 1) _ (mkYearMonth (mkPlainDate 2020 1 1) ISO8601)
             _ (PlainYearMonthObj (ym 2020 1))
             eq_refl eq_refl eq_refl eq_refl).
Defined.

Lemma since_is_until_negated_witness :
  outcome (PlainYearMonth_since (ym 2020 1)
             (arg2 (ofYM (ym 2021 3)) largestYear))
  = Ok (Duration.ofYearsMonths (-1) (-2)).
Proof.
  exact (since_is_until_negated (ym 2020 1)
           (arg2 (ofYM (ym 2021 3)) largestYear)
           _ (mkSettings Month Year Trunc 1) _ (mkSettings Month Year Trunc 1)
           eq_refl eq_refl
           (conj eq_refl (conj eq_refl (conj eq_refl (or_introl eq_refl))))).
Defined.

Lemma options_resolved_before_equal_anchor_path_witness :
  exists e,
    DifferenceTemporalPlainYearMonth Until (ym 2020 1)
      (arg2 (ofYM (ym 2020 1)) (ObjectValue refusedOptions))
    = ([call_RequireObjectArg (ObjectValue refusedOptions);
        call_GetDifferenceSettings Until refusedOptions DateGroup
          Month Month Year], Err e)
    /\ errorType e = RangeError.
Proof.
  exact (proj2 (proj2 (proj2 (proj2
           (options_resolved_before_equal_anchor_path Until (ym 2020 1)
              (arg1 (ofYM (ym 2020 1))))))) refusedOptions eq_refl).
Defined.

Lemma calendar_incompatible_iff_witness :
  exists e,
    DifferenceTemporalPlainYearMonth Until (ym 2020 1)
      (arg1 (StringValue "2021-03[u-ca=gregory]"))
    = ([call_ParseTemporalYearMonthString "2021-03[u-ca=gregory]";
        call_ToBuiltinCalendar "gregory";
        call_ThrowIfInvalidISODate 2021 3 1;
        call_CalendarYearMonthFromFields_object Gregorian
          (ymIn Gregorian 2021 3) Constrain;
        call_ThrowIfInvalidISODate 2021 3 1], Err e)
    /\ e = Reported (JSMSG_TEMPORAL_CALENDAR_INCOMPATIBLE "iso8601" "gregory")
    /\ errorType e = RangeError.
Proof.
  refine (proj1 (calendar_incompatible_iff Until (ym 2020 1)
                   (arg1 (StringValue "2021-03[u-ca=gregory]")))
            _ (mkYearMonth (mkPlainDate 2021 3 1) Gregorian)
            _ (PlainYearMonthObj (ymIn Gregorian 2021 3))
            eq_refl eq_refl _).
  discriminate.
Defined.

Lemma difference_keeps_years_and_months_witness :
  onlyYearsAndMonths (Duration.ofYearsMonths 1 2)
  /\ exists other,
       outcome (ToTemporalYearMonth_default (ofYM (ym 2021 3))) = Ok other
       /\ PlainDate_eqb (ToPlainDate (ym 2020 1)) (ym_date other) = false.
Proof.
  assert (R : outcome (DifferenceTemporalPlainYearMonth Until (ym 2020 1)
                         (arg2 (ofYM (ym 2021 3)) largestYear))
              = Ok (Duration.ofYearsMonths 1 2)) by reflexivity.
  destruct (difference_keeps_years_and_months Until (ym 2020 1)
              (arg2 (ofYM (ym 2021 3)) largestYear)
              (Duration.ofYearsMonths 1 2) R) as [H (other & HC & _)].
  split; [exact H|]. exists other. split; [exact HC|].
  injection HC as <-. reflexivity.
Defined.

Lemma string_conversion_constrains_witness :
  ToTemporalYearMonth (StringValue "2024-06[u-ca=gregory]") Reject
  = ([call_ParseTemporalYearMonthString "2024-06[u-ca=gregory]";
      call_ToBuiltinCalendar "gregory";
      call_ThrowIfInvalidISODate 2024 6 1;
      call_CalendarYearMonthFromFields_object Gregorian
        (ymIn Gregorian 2024 6) Constrain],
     Ok (mkYearMonth (mkPlainDate 2024 6 1) Gregorian)).
Proof.
  exact (proj2 (string_conversion_constrains "2024-06[u-ca=gregory]" Reject)
           (mkPlainDate 2024 6 1) (Some "gregory") Gregorian
           eq_refl eq_refl eq_refl eq_refl).
Defined.

(** One month subtracted from January 2020: the anchor is 31 January. *)
Lemma anchor_is_end_of_month_for_negative_sign_witness :
  let fields := mkFields (Some 2020) None (Some "M01") None in
  let first := mkDate (mkPlainDate 2020 1 1) ISO8601 in
  anchorDate (-1) ISO8601 first fields
  = ([call_CalendarDateAdd ISO8601 first (DateDuration.ofYearsMonths 0 1)
        Constrain;
      call_CreateTemporalDate (mkPlainDate 2020 1 31) ISO8601;
      call_CalendarDay ISO8601 (mkPlainDate 2020 1 31);
      call_CalendarDateFromFields ISO8601 (setDay fields 31) Constrain],
     Ok (mkDate (mkPlainDate 2020 1 31) ISO8601)).
Proof.
  exact (proj1 (anchor_is_end_of_month_for_negative_sign Subtract (ym 2020 1)
                  (arg1 (obj [("months", num 1)]))
                  (Duration.mk 0 1 0 0 0 0 0 0 0 0) [] Constrain
                  (mkFields (Some 2020) None (Some "M01") None)
                  (mkDate (mkPlainDate 2020 1 1) ISO8601)
                  eq_refl eq_refl eq_refl eq_refl)
           eq_refl (mkPlainDate 2020 2 1)
           (mkDate (mkPlainDate 2020 1 31) ISO8601) 31
           eq_refl eq_refl eq_refl).
Defined.

(** The scenarios of the specification, section 8. *)

Example scenario_add_one_month :
  outcome (PlainYearMonth_add (ym 2020 2) (arg1 (obj [("months", num 1)])))
  = Ok (ym 2020 3).
Proof. reflexivity. Qed.

Example scenario_subtract_one_month :
  outcome (PlainYearMonth_subtract (ym 2020 1) (arg1 (obj [("months", num 1)])))
  = Ok (ym 2019 12).
Proof. reflexivity. Qed.

Example scenario_subtract_one_day_stays_in_month :
  outcome (PlainYearMonth_subtract (ymIn Gregorian 1582 10)
             (arg1 (obj [("months", num 0); ("days", num 1)])))
  = Ok (ymIn Gregorian 1582 10).
Proof. reflexivity. Qed.

Example scenario_compare_at_the_limit :
  outcome (PlainYearMonth_compare
             (arg2 (ofYM (ym 275760 9)) (ofYM (ym 275760 9)))) = Ok 0.
Proof. reflexivity. Qed.

Example scenario_from_string_with_calendar :
  outcome (PlainYearMonth_from (arg1 (StringValue "2024-06[u-ca=gregory]")))
  = Ok (ymIn Gregorian 2024 6).
Proof. reflexivity. Qed.

Example scenario_rounding_to_years :
  outcome (PlainYearMonth_until (ym 2020 1)
             (arg2 (ofYM (ym 2021 9))
                (obj [("smallestUnit", StringValue "year");
                      ("roundingMode", StringValue "halfExpand")])))
  = Ok (Duration.ofYearsMonths 2 0).
Proof. reflexivity. Qed.

Example scenario_subtract_duration_string :
  outcome (PlainYearMonth_subtract (ym 2020 1) (arg1 (StringValue "P1Y2M")))
  = Ok (ym 2018 11).
Proof. reflexivity. Qed.

Example scenario_add_time_balanced_into_days :
  outcome (PlainYearMonth_add (ym 2020 1) (arg1 (StringValue "P30DT24H")))
  = Ok (ym 2020 2).
Proof. reflexivity. Qed.

End Scenarios.

(** * Further properties of the file *)

(** ** Traces *)

Lemma Forall_trace_ret {A} (P : Call -> Prop) (a : A) : Forall P (trace (ret a)).
Proof. constructor. Qed.

Lemma Forall_trace_throw {A} (P : Call -> Prop) e : Forall P (trace (@throw A e)).
Proof. constructor. Qed.

Lemma Forall_trace_call {A} (P : Call -> Prop) c (r : Result ErrorType A) :
  P c -> Forall P (trace (call c r)).
Proof. intros H. repeat constructor. exact H. Qed.

Lemma Forall_trace_bind {A B} (P : Call -> Prop) (m : M A) (k : A -> M B) :
  Forall P (trace m) -> (forall a, Forall P (trace (k a))) ->
  Forall P (trace (bind m k)).
Proof.
  intros Hm Hk. destruct m as [t [a|e]]; unfold bind, trace in *; simpl in *.
  - specialize (Hk a). destruct (k a) as [t' r]. simpl in *.
    apply Forall_app. split; assumption.
  - exact Hm.
Qed.

Ltac trace_tac :=
  repeat first
    [ apply Forall_trace_ret
    | apply Forall_trace_throw
    | apply Forall_trace_call; simpl; solve [auto]
    | apply Forall_trace_bind; [|intros ?]
    | progress cbv beta zeta
    | match goal with
      | |- Forall _ (trace (if ?b then _ else _)) => destruct b
      | |- Forall _ (trace (match ?x with _ => _ end)) => destruct x
      end ].

Lemma outcome_bind_call_Ok {A B} c (r : Result ErrorType A) (k : A -> M B) a :
  r = Ok a -> outcome (bind (call c r) k) = outcome (k a).
Proof.
  intros ->. unfold bind, call, outcome. destruct (k a). reflexivity.
Qed.

(** ** The constructor *)

Section Constructor.

Context {collaborators : Collaborators}.

(** X1. Called with new, the constructor builds the year-month it is given:
    when year and month (and the reference day, 1 if absent) truncate to
    integers, the calendar (ISO8601 if absent) is a known identifier, the
    date is valid and within the limits and the prototype is found, the
    result holds exactly those four values in its slots. *)
Theorem constructor_round_trip :
  forall args y m c d,
    isConstructing args = true ->
    ToIntegerWithTruncation_impl (get args 0) "year" = Ok y ->
    ToIntegerWithTruncation_impl (get args 1) "month" = Ok m ->
    calendarArgument args c ->
    dayArgument args d ->
    IsValidISODate y m d = true ->
    ISOYearMonthWithinLimits y m = true ->
    GetPrototypeFromBuiltinConstructor_impl args = Ok tt ->
    outcome (PlainYearMonthConstructor args)
    = Ok (mkPlainYearMonthObject y m c d).
Proof.
  intros args y m c d HN HY HM HC HD HV HL HP.
  unfold PlainYearMonthConstructor, ThrowIfNotConstructing. rewrite HN.
  rewrite (outcome_bind_call_Ok _ _ _ tt eq_refl).
  unfold ToIntegerWithTruncation at 1 2.
  rewrite (outcome_bind_call_Ok _ _ _ y HY).
  rewrite (outcome_bind_call_Ok _ _ _ m HM).
  assert (Cal : (if hasDefined args 2
                 then match get args 2 with
                      | StringValue calendarString =>
                          ToBuiltinCalendar calendarString
                      | v => throw (Reported (JSMSG_UNEXPECTED_TYPE v "not a string"))
                      end
                 else ret ISO8601)
                = (if hasDefined args 2
                   then match get args 2 with
                        | StringValue id => [call_ToBuiltinCalendar id]
                        | _ => []
                        end
                   else [], Ok c)).
  { destruct HC as [[H ->]|(id & H & HB)].
    - rewrite H. reflexivity.
    - unfold hasDefined. rewrite H. simpl. unfold ToBuiltinCalendar.
      rewrite (call_Ok _ _ _ HB). reflexivity. }
  rewrite (bind_Ok _ _ _ _ Cal). unfold outcome at 1. simpl snd.
  assert (Day : (if hasDefined args 3
                 then ToIntegerWithTruncation (get args 3) "day"
                 else ret 1)
                = (if hasDefined args 3
                   then [call_ToIntegerWithTruncation (get args 3) "day"]
                   else [], Ok d)).
  { destruct HD as [[H ->]|[H HI]]; rewrite H; [reflexivity|].
    unfold ToIntegerWithTruncation. rewrite (call_Ok _ _ _ HI). reflexivity. }
  rewrite (bind_Ok _ _ _ _ Day). unfold outcome at 1. simpl snd.
  rewrite CreateTemporalYearMonth_args_run, HV, HL, HP. reflexivity.
Qed.

(** X2. A calendar argument that is present and is not a string (null
    included) is a type error, unexpected type, reported once year and
    month have been converted and before the reference day is looked
    at. *)
Theorem constructor_refuses_non_string_calendar :
  forall args y m,
    isConstructing args = true ->
    ToIntegerWithTruncation_impl (get args 0) "year" = Ok y ->
    ToIntegerWithTruncation_impl (get args 1) "month" = Ok m ->
    hasDefined args 2 = true ->
    isString (get args 2) = false ->
    PlainYearMonthConstructor args
    = ([call_ThrowIfNotConstructing;
        call_ToIntegerWithTruncation (get args 0) "year";
        call_ToIntegerWithTruncation (get args 1) "month"],
       Err (Reported (JSMSG_UNEXPECTED_TYPE (get args 2) "not a string")))
    /\ errorType (Reported (JSMSG_UNEXPECTED_TYPE (get args 2) "not a string"))
       = TypeError.
Proof.
  intros args y m HN HY HM HD HS. split; [|reflexivity].
  unfold PlainYearMonthConstructor, ThrowIfNotConstructing. rewrite HN.
  unfold ToIntegerWithTruncation at 1 2.
  rewrite HY, HM, HD.
  destruct (get args 2); try discriminate HS; reflexivity.
Qed.

End Constructor.

(** ** Conversion and from *)

Section ConversionMore.

Context {collaborators : Collaborators}.

(** X3. from on a PlainYearMonth that satisfies the invariants returns a
    year-month with the same four slots, whatever overflow the options
    carry; the only call after the options are read is the validity check
    of CreateTemporalYearMonth. *)
Theorem from_year_month_is_identity :
  forall args (Y : PlainYearMonthObject) t overflow,
    get args 0 = ofYM Y ->
    overflowOption args = (t, Ok overflow) ->
    Invariants Y ->
    PlainYearMonth_from args
    = (t ++ [call_ThrowIfInvalidISODate (ISO_YEAR_SLOT Y) (ISO_MONTH_SLOT Y)
               (ISO_DAY_SLOT Y)],
       Ok Y).
Proof.
  intros args [y m c d] t overflow HA HO [HV HR]. simpl in HV, HR.
  apply ISOYearMonthWithinLimits_range in HR.
  unfold PlainYearMonth_from. rewrite (bind_Ok _ _ _ _ HO).
  rewrite HA. unfold ofYM, ToTemporalYearMonth, ToTemporalYearMonth_object.
  unfold bind, ret, CreateTemporalYearMonth_handle, ToPlainDate.
  simpl ym_date. simpl ym_calendar. simpl ISO_YEAR_SLOT.
  simpl ISO_MONTH_SLOT. simpl ISO_DAY_SLOT.
  rewrite CreateTemporalYearMonth_date_run, HV, HR.
  reflexivity.
Qed.

(** X4. from reads its options before it looks at the item: options that
    fail are the outcome, and the item is never converted.  For a property
    bag the overflow read from the options is the one handed to
    CalendarYearMonthFromFields, on the fields month, monthCode and year
    of the bag. *)
Theorem from_reads_options_first :
  forall args,
    (forall t e,
       overflowOption args = (t, Err e) ->
       PlainYearMonth_from args = (t, Err e))
    /\ (forall props t overflow c fields,
          get args 0 = ObjectValue (OrdinaryObj props) ->
          overflowOption args = (t, Ok overflow) ->
          GetTemporalCalendarWithISODefault_impl (OrdinaryObj props) = Ok c ->
          PrepareCalendarFields_impl c (OrdinaryObj props)
            [CF_Month; CF_MonthCode; CF_Year] = Ok fields ->
          exists rest,
            trace (PlainYearMonth_from args)
            = t ++ [call_GetTemporalCalendarWithISODefault (OrdinaryObj props);
                    call_PrepareCalendarFields c (OrdinaryObj props)
                      [CF_Month; CF_MonthCode; CF_Year];
                    call_CalendarYearMonthFromFields c fields overflow]
                ++ rest).
Proof.
  intros args. split.
  - intros t e H. unfold PlainYearMonth_from. rewrite H. reflexivity.
  - intros props t overflow c fields HA HO HC HF.
    unfold PlainYearMonth_from. rewrite (trace_bind_Ok _ _ _ _ HO).
    rewrite HA. unfold ToTemporalYearMonth, ToTemporalYearMonth_object.
    assert (E : (calendar <- GetTemporalCalendarWithISODefault (OrdinaryObj props);;
                 fields0 <- PrepareCalendarFields calendar (OrdinaryObj props)
                              [CF_Month; CF_MonthCode; CF_Year];;
                 CalendarYearMonthFromFields calendar fields0 overflow)
                = ([call_GetTemporalCalendarWithISODefault (OrdinaryObj props);
                    call_PrepareCalendarFields c (OrdinaryObj props)
                      [CF_Month; CF_MonthCode; CF_Year];
                    call_CalendarYearMonthFromFields c fields overflow],
                   answer (call_CalendarYearMonthFromFields c fields overflow)
                     (CalendarYearMonthFromFields_impl c fields overflow))).
    { unfold GetTemporalCalendarWithISODefault. rewrite (call_Ok _ _ _ HC).
      unfold bind at 1. unfold PrepareCalendarFields.
      rewrite (call_Ok _ _ _ HF). unfold bind at 1.
      unfold CalendarYearMonthFromFields, call, answer. reflexivity. }
    rewrite E.
    destruct (CalendarYearMonthFromFields_impl c fields overflow) as [r|e].
    + simpl answer.
      rewrite (trace_bind_Ok _ _ _ r eq_refl). eexists. reflexivity.
    + exists []. reflexivity.
Qed.

(** X5. An argument that is neither an object nor a string (undefined for
    a missing argument, null, a boolean, a number) is a type error,
    unexpected type, with no call made: in the conversion itself and hence
    in compare, equals, until and since. *)
Theorem primitive_argument_is_type_error :
  forall (v : Value) overflow,
    isObject v = false -> isString v = false ->
    let e := Reported (JSMSG_UNEXPECTED_TYPE v "not a string") in
    ToTemporalYearMonth v overflow = ([], Err e)
    /\ errorType e = TypeError
    /\ (forall args, get args 0 = v ->
          PlainYearMonth_compare args = ([], Err e)
          /\ forall Y operation,
               PlainYearMonth_equals Y args = ([], Err e)
               /\ DifferenceTemporalPlainYearMonth operation Y args
                  = ([], Err e)).
Proof.
  intros v overflow HO HS e.
  assert (C : forall o, ToTemporalYearMonth v o = ([], Err e)).
  { intros o. destruct v; try discriminate HO; try discriminate HS; reflexivity. }
  split; [apply C|]. split; [reflexivity|].
  intros args HA. split; [|intros Y operation; split].
  - unfold PlainYearMonth_compare, ToTemporalYearMonth_default.
    rewrite HA, C. reflexivity.
  - unfold PlainYearMonth_equals, ToTemporalYearMonth_default.
    rewrite HA, C. reflexivity.
  - apply Difference_conversion_fails.
    unfold ToTemporalYearMonth_default. rewrite HA. apply C.
Qed.

(** X6. A string is refused before the calendar is asked to normalize it:
    an annotation that names no known calendar is the error of
    ToBuiltinCalendar, and a valid date whose year and month lie outside
    the limits is the range error plain-year-month-invalid; in both cases
    CalendarYearMonthFromFields is not called. *)
Theorem string_refused_before_normalization :
  forall (s : string) overflow date annotation,
    ParseTemporalYearMonthString_impl s = Ok (date, annotation) ->
    (forall id t,
       annotation = Some id -> ToBuiltinCalendar_impl id = Err t ->
       ToTemporalYearMonth (StringValue s) overflow
       = ([call_ParseTemporalYearMonthString s; call_ToBuiltinCalendar id],
          Err (Raised (call_ToBuiltinCalendar id) t)))
    /\ (forall c,
          match annotation with
          | Some id => ToBuiltinCalendar_impl id = Ok c
          | None => c = ISO8601
          end ->
          IsValidISODate (year date) (month date) (day date) = true ->
          ISOYearMonthWithinLimits (year date) (month date) = false ->
          ToTemporalYearMonth (StringValue s) overflow
          = (call_ParseTemporalYearMonthString s
               :: match annotation with
                  | Some id => [call_ToBuiltinCalendar id]
                  | None => []
                  end
               ++ [call_ThrowIfInvalidISODate (year date) (month date)
                     (day date)],
             Err (Reported JSMSG_TEMPORAL_PLAIN_YEAR_MONTH_INVALID))).
Proof.
  intros s overflow [y m d] annotation HP. split.
  - intros id t -> HB.
    unfold ToTemporalYearMonth, ParseTemporalYearMonthString.
    rewrite (call_Ok _ _ _ HP). unfold bind at 1.
    unfold ToBuiltinCalendar. rewrite (call_Err _ _ _ HB). reflexivity.
  - intros c HC HV HL. simpl in HV, HL.
    unfold ToTemporalYearMonth, ParseTemporalYearMonthString.
    rewrite (call_Ok _ _ _ HP). unfold bind at 1.
    assert (R : match annotation with
                | Some id => ToBuiltinCalendar id
                | None => ret ISO8601
                end
                = (match annotation with
                   | Some id => [call_ToBuiltinCalendar id]
                   | None => []
                   end, Ok c)).
    { destruct annotation as [id|].
      - unfold ToBuiltinCalendar. rewrite (call_Ok _ _ _ HC). reflexivity.
      - rewrite HC. reflexivity. }
    rewrite R. unfold bind at 1.
    rewrite CreateTemporalYearMonth_date_run, HV, HL.
    simpl. destruct annotation; reflexivity.
Qed.

End ConversionMore.

(** ** compare and equals *)

Section ComparisonMore.

Context {collaborators : Collaborators}.

(** X7. compare converts its first argument, then its second: when the
    first fails that failure is the outcome and the second is never
    looked at; when the second fails the outcome is its failure after the
    calls of both; otherwise the result is the comparison of the two ISO
    dates after the calls of both. *)
Theorem compare_converts_in_order :
  forall args,
    (forall t e,
       ToTemporalYearMonth_default (get args 0) = (t, Err e) ->
       PlainYearMonth_compare args = (t, Err e))
    /\ (forall t1 one t2 e,
          ToTemporalYearMonth_default (get args 0) = (t1, Ok one) ->
          ToTemporalYearMonth_default (get args 1) = (t2, Err e) ->
          PlainYearMonth_compare args = (t1 ++ t2, Err e))
    /\ (forall t1 one t2 two,
          ToTemporalYearMonth_default (get args 0) = (t1, Ok one) ->
          ToTemporalYearMonth_default (get args 1) = (t2, Ok two) ->
          PlainYearMonth_compare args
          = (t1 ++ t2, Ok (CompareISODate (ym_date one) (ym_date two)))).
Proof.
  intros args. unfold PlainYearMonth_compare. split; [|split].
  - intros t e H. rewrite H. reflexivity.
  - intros t1 one t2 e H1 H2. rewrite H1. unfold bind at 1. rewrite H2.
    reflexivity.
  - intros t1 one t2 two H1 H2. rewrite H1. unfold bind at 1. rewrite H2.
    simpl. rewrite app_nil_r. reflexivity.
Qed.

(** X8. On two PlainYearMonth objects equals makes no call, never fails,
    and is true exactly when the two objects hold the same four slots; it
    is therefore reflexive, symmetric and transitive. *)
Theorem equals_is_slot_equality :
  forall a b c : PlainYearMonthObject,
    let equals x y := PlainYearMonth_equals x (arg1 (ofYM y)) in
    (exists r, equals a b = ([], Ok r) /\ (r = true <-> a = b))
    /\ equals a a = ([], Ok true)
    /\ equals a b = equals b a
    /\ (equals a b = ([], Ok true) -> equals b c = ([], Ok true) ->
        equals a c = ([], Ok true)).
Proof.
  intros a b c equals.
  assert (R : forall x y,
             equals x y
             = ([], Ok (PlainDate_eqb (ToPlainDate x) (ToPlainDate y)
                        && CalendarEquals (CALENDAR_SLOT x) (CALENDAR_SLOT y)))).
  { intros x y. reflexivity. }
  assert (I : forall x y,
             PlainDate_eqb (ToPlainDate x) (ToPlainDate y)
             && CalendarEquals (CALENDAR_SLOT x) (CALENDAR_SLOT y) = true
             <-> x = y).
  { intros [y1 m1 c1 d1] [y2 m2 c2 d2].
    rewrite andb_true_iff, PlainDate_eqb_eq, CalendarEquals_identifier.
    unfold ToPlainDate; simpl. split.
    - intros [[= -> -> ->] H]. apply ToTemporalCalendarIdentifier_inj in H.
      rewrite H. reflexivity.
    - intros [= -> -> -> ->]. auto. }
  rewrite !R. split; [|split; [|split]].
  - eexists. split; [reflexivity|apply I].
  - f_equal. f_equal. apply I. reflexivity.
  - f_equal. f_equal.
    destruct (PlainDate_eqb (ToPlainDate a) (ToPlainDate b)
              && CalendarEquals (CALENDAR_SLOT a) (CALENDAR_SLOT b)) eqn:E.
    + apply I in E. subst b. symmetry. apply I. reflexivity.
    + destruct (PlainDate_eqb (ToPlainDate b) (ToPlainDate a)
                && CalendarEquals (CALENDAR_SLOT b) (CALENDAR_SLOT a)) eqn:E';
        [|reflexivity].
      apply I in E'. subst b.
      rewrite (proj2 (I a a) eq_refl) in E. discriminate E.
  - intros [= H1] [= H2]. apply I in H1. apply I in H2. subst.
    f_equal. f_equal. apply I. reflexivity.
Qed.

End ComparisonMore.

(** ** ISOYearMonthWithinLimits *)

(** X9. On the months the function is called with, 1 to 12 (its
    assertion at line 72), the year-months within the limits form an
    interval of the lexicographic order: a pair that lies between two
    pairs within the limits is within the limits. *)
Theorem within_limits_is_an_interval :
  forall y1 m1 y m y2 m2,
    1 <= m1 <= 12 -> 1 <= m <= 12 -> 1 <= m2 <= 12 ->
    ISOYearMonthWithinLimits y1 m1 = true ->
    ISOYearMonthWithinLimits y2 m2 = true ->
    pairLe (y1, m1) (y, m) -> pairLe (y, m) (y2, m2) ->
    ISOYearMonthWithinLimits y m = true.
Proof.
  intros y1 m1 y m y2 m2 _ _ _ H1 H2 L1 L2.
  apply ISOYearMonthWithinLimits_range in H1, H2.
  apply ISOYearMonthWithinLimits_range.
  unfold YearMonthInClosedRange, pairLe in *. simpl in *. lia.
Qed.

Lemma within_limits_is_an_interval_witness :
  ISOYearMonthWithinLimits 2020 6 = true.
Proof.
  apply (within_limits_is_an_interval (-271821) 4 2020 6 275760 9);
    [lia|lia|lia|reflexivity|reflexivity| |]; unfold pairLe; simpl; lia.
Defined.

(** ** add, subtract, until and since *)

Section ArithmeticMore.

Context {collaborators : Collaborators}.

Lemma CreateTemporalYearMonth_handle_Invariants yearMonth o :
  outcome (CreateTemporalYearMonth_handle yearMonth) = Ok o ->
  Invariants o /\ CALENDAR_SLOT o = ym_calendar yearMonth
  /\ ToPlainDate o = ym_date yearMonth.
Proof.
  unfold CreateTemporalYearMonth_handle. intros H.
  apply CreateTemporalYearMonth_date_Ok in H as (V & L & ->).
  split; [apply Invariants_intro; assumption|].
  split; [reflexivity|]. destruct (ym_date yearMonth); reflexivity.
Qed.

(** X10. Every year-month that from, add or subtract returns satisfies the
    two invariants of the type (a valid ISO date, year and month within
    the limits), whatever the calendar collaborators answered; for add and
    subtract its ISO date and calendar are those that
    CalendarYearMonthFromFields answered. *)
Theorem natives_return_valid_year_months :
  forall args o,
    (outcome (PlainYearMonth_from args) = Ok o -> Invariants o)
    /\ (forall operation Y,
          outcome (AddDurationToOrSubtractDurationFromPlainYearMonth
                     operation Y args) = Ok o ->
          Invariants o
          /\ exists fields overflow result,
               CalendarYearMonthFromFields_impl (CALENDAR_SLOT Y) fields
                 overflow = Ok result
               /\ ToPlainDate o = ym_date result
               /\ CALENDAR_SLOT o = ym_calendar result).
Proof.
  intros args o. split.
  - unfold PlainYearMonth_from. intros H.
    do 2 (apply outcome_bind_Ok in H as (? & _ & H)).
    apply CreateTemporalYearMonth_handle_Invariants in H. apply H.
  - intros operation Y H.
    unfold AddDurationToOrSubtractDurationFromPlainYearMonth in H.
    apply outcome_bind_Ok in H as (duration & _ & H).
    apply outcome_bind_Ok in H as (overflow & _ & H).
    apply outcome_bind_Ok in H as (fields & _ & H).
    apply outcome_bind_Ok in H as (intermediateDate & _ & H).
    apply outcome_bind_Ok in H as (date & _ & H).
    apply outcome_bind_Ok in H as (addedDate & _ & H).
    apply outcome_bind_Ok in H as (addedDateObj & _ & H).
    apply outcome_bind_Ok in H as (addedDateFields & _ & H).
    apply outcome_bind_Ok in H as (result & HR & H).
    apply outcome_call_Ok in HR.
    apply CreateTemporalYearMonth_handle_Invariants in H as (HI & HC & HD).
    split; [exact HI|]. exists addedDateFields, overflow, result. auto.
Qed.

(** X11. subtract is add of the negated duration: when the argument of
    subtract converts to D and the argument of add converts to D negated,
    and the two calls carry the same options, the two outcomes are the
    same, errors included. *)
Theorem subtract_is_add_of_negation :
  forall Y args args' D,
    ToTemporalDurationRecord_impl (get args 0) = Ok D ->
    ToTemporalDurationRecord_impl (get args' 0) = Ok (Duration.negate D) ->
    get args 1 = get args' 1 ->
    outcome (PlainYearMonth_subtract Y args)
    = outcome (PlainYearMonth_add Y args').
Proof.
  intros Y args args' D H H' HO.
  unfold PlainYearMonth_subtract, PlainYearMonth_add,
    AddDurationToOrSubtractDurationFromPlainYearMonth, ToTemporalDurationRecord.
  rewrite (outcome_bind_call_Ok _ _ _ _ H).
  rewrite (outcome_bind_call_Ok _ _ _ _ H').
  unfold overflowOption, hasDefined. rewrite HO. reflexivity.
Qed.

(** X12. The dates that anchor a year-month are always asked for with
    constrain: in add and subtract, whatever overflow the options carry,
    and in until and since, every CalendarDateFromFields and
    CalendarDateAdd call passes constrain. *)
Theorem anchoring_always_constrains :
  forall Y args,
    (forall operation,
       Forall anchorsWithConstrain
         (trace (AddDurationToOrSubtractDurationFromPlainYearMonth
                   operation Y args)))
    /\ (forall operation,
          Forall anchorsWithConstrain
            (trace (DifferenceTemporalPlainYearMonth operation Y args))).
Proof.
  intros Y args. split; intros operation.
  - unfold AddDurationToOrSubtractDurationFromPlainYearMonth,
      ToTemporalDurationRecord, overflowOption, RequireObjectArg,
      GetTemporalOverflowOption, PrepareCalendarFieldsAndFieldNames,
      CalendarDateFromFields, anchorDate, CalendarDateAdd, CreateTemporalDate,
      CalendarDay, AddDate, PrepareTemporalFields, CalendarYearMonthFromFields,
      CreateTemporalYearMonth_handle, CreateTemporalYearMonth_date,
      ThrowIfInvalidISODate.
    trace_tac.
  - unfold DifferenceTemporalPlainYearMonth, ToTemporalYearMonth_default,
      ToTemporalYearMonth, ToTemporalYearMonth_object, otherYearMonthObject,
      resolveDifferenceSettings, differenceOfAnchors, roundDateDuration,
      GetTemporalCalendarWithISODefault, PrepareCalendarFields,
      CalendarYearMonthFromFields, CalendarYearMonthFromFields_object,
      ParseTemporalYearMonthString, ToBuiltinCalendar, RequireObjectArg,
      GetDifferenceSettings, PrepareCalendarFieldsAndFieldNames,
      CalendarDateFromFields, PrepareTemporalFields, CalendarDateUntil,
      RoundRelativeDuration, CreateTemporalDuration,
      CreateTemporalYearMonth_handle, CreateTemporalYearMonth_date,
      ThrowIfInvalidISODate.
    trace_tac.
Qed.

(** X13. add and subtract look at their arguments before the calendar: a
    duration that does not convert is the outcome after that one call,
    and options that fail are the outcome right after the duration has
    converted; in neither case is a field of the receiver read. *)
Theorem add_checks_arguments_first :
  forall operation Y args,
    (forall t,
       ToTemporalDurationRecord_impl (get args 0) = Err t ->
       AddDurationToOrSubtractDurationFromPlainYearMonth operation Y args
       = ([call_ToTemporalDurationRecord (get args 0)],
          Err (Raised (call_ToTemporalDurationRecord (get args 0)) t)))
    /\ (forall D t e,
          ToTemporalDurationRecord_impl (get args 0) = Ok D ->
          overflowOption args = (t, Err e) ->
          AddDurationToOrSubtractDurationFromPlainYearMonth operation Y args
          = (call_ToTemporalDurationRecord (get args 0) :: t, Err e))
    /\ (hasDefined args 1 = true -> isObject (get args 1) = false ->
        overflowOption args
        = ([call_RequireObjectArg (get args 1)],
           Err (Raised (call_RequireObjectArg (get args 1)) TypeError))).
Proof.
  intros operation Y args. split; [|split].
  - intros t H.
    unfold AddDurationToOrSubtractDurationFromPlainYearMonth,
      ToTemporalDurationRecord.
    rewrite (call_Err _ _ _ H). reflexivity.
  - intros D t e H HO.
    unfold AddDurationToOrSubtractDurationFromPlainYearMonth,
      ToTemporalDurationRecord.
    rewrite (call_Ok _ _ _ H). unfold bind at 1. rewrite HO. reflexivity.
  - intros HD HN. unfold overflowOption, RequireObjectArg. rewrite HD.
    destruct (get args 1); try discriminate HN; reflexivity.
Qed.

Lemma ToTemporalYearMonth_default_usesDefaultSettings v :
  Forall usesDefaultSettings (trace (ToTemporalYearMonth_default v)).
Proof.
  unfold ToTemporalYearMonth_default, ToTemporalYearMonth,
    ToTemporalYearMonth_object, GetTemporalCalendarWithISODefault,
    PrepareCalendarFields, CalendarYearMonthFromFields,
    CalendarYearMonthFromFields_object, ParseTemporalYearMonthString,
    ToBuiltinCalendar, CreateTemporalYearMonth_date, ThrowIfInvalidISODate.
  trace_tac.
Qed.

Lemma otherYearMonthObject_usesDefaultSettings v other :
  Forall usesDefaultSettings (trace (otherYearMonthObject v other)).
Proof.
  unfold otherYearMonthObject, CreateTemporalYearMonth_handle,
    CreateTemporalYearMonth_date, ThrowIfInvalidISODate.
  trace_tac.
Qed.

Lemma differenceOfAnchors_usesDefaultSettings operation Y calendar o :
  Forall usesDefaultSettings
    (trace (differenceOfAnchors operation Y calendar o
              (mkSettings Month Year Trunc 1))).
Proof.
  assert (R : forall a b dd,
             roundDateDuration calendar (mkSettings Month Year Trunc 1) a b dd
             = ret dd) by reflexivity.
  unfold differenceOfAnchors.
  unfold PrepareCalendarFieldsAndFieldNames, CalendarDateFromFields,
    PrepareTemporalFields, CalendarDateUntil, CreateTemporalDuration.
  simpl largestUnit.
  apply Forall_trace_bind; [apply Forall_trace_call; exact I|intros thisFields].
  apply Forall_trace_bind; [apply Forall_trace_call; exact I|intros thisDate].
  apply Forall_trace_bind; [apply Forall_trace_call; exact I|intros otherFields].
  apply Forall_trace_bind; [apply Forall_trace_call; exact I|intros otherDate].
  apply Forall_trace_bind; [apply Forall_trace_call; reflexivity|intros dateUntil].
  rewrite R.
  apply Forall_trace_bind; [apply Forall_trace_ret|intros dd].
  apply Forall_trace_ret.
Qed.

(** X14. Without an options argument until and since read no settings and
    never round: GetDifferenceSettings and RoundRelativeDuration are not
    called, and CalendarDateUntil, when it is called, is asked for years
    as the largest unit. *)
Theorem difference_without_options_never_rounds :
  forall operation Y args,
    hasDefined args 1 = false ->
    Forall usesDefaultSettings
      (trace (DifferenceTemporalPlainYearMonth operation Y args)).
Proof.
  intros operation Y args HD.
  assert (S : resolveDifferenceSettings operation args
              = ([], Ok (mkSettings Month Year Trunc 1))).
  { unfold resolveDifferenceSettings. rewrite HD. reflexivity. }
  pose proof (ToTemporalYearMonth_default_usesDefaultSettings (get args 0)) as F1.
  destruct (ToTemporalYearMonth_default (get args 0)) as [t1 [other|e1]] eqn:C1.
  2:{ rewrite (Difference_conversion_fails _ _ _ _ _ C1). exact F1. }
  pose proof (otherYearMonthObject_usesDefaultSettings (get args 0) other) as F2.
  destruct (otherYearMonthObject (get args 0) other) as [t2 [o|e2]] eqn:C2.
  2:{ rewrite (Difference_object_fails _ _ _ _ _ _ _ C1 C2).
      apply Forall_app. split; assumption. }
  destruct (CalendarEquals (CALENDAR_SLOT Y) (ym_calendar other)) eqn:C3.
  2:{ rewrite (Difference_incompatible _ _ _ _ _ _ _ C1 C2 C3).
      apply Forall_app. split; assumption. }
  destruct (PlainDate_eqb (ToPlainDate Y) (ym_date other)) eqn:C5.
  - rewrite (Difference_equal_anchors _ _ _ _ _ _ _ _ _ C1 C2 C3 S C5).
    unfold trace in *. simpl in *. rewrite app_nil_r.
    apply Forall_app. split; assumption.
  - rewrite (Difference_distinct_anchors _ _ _ _ _ _ _ _ _ C1 C2 C3 S C5).
    unfold trace at 1. simpl fst.
    apply Forall_app. split; [exact F1|].
    apply Forall_app. split; [exact F2|].
    apply differenceOfAnchors_usesDefaultSettings.
Qed.

End ArithmeticMore.

(** ** with, toPlainDate and the string natives *)

Lemma lift_Ok {A} (m : M A) t a : m = (t, Ok a) -> lift m = (map core t, Ok a).
Proof. intros ->. reflexivity. Qed.

Lemma lift_Err {A} (m : M A) t e :
  m = (t, Err e) -> lift m = (map core t, @Err MoreError A (coreError e)).
Proof. intros ->. reflexivity. Qed.

Lemma outcomeN_lift_Ok {A} (m : M A) a :
  outcomeN (lift m) = Ok a -> outcome m = Ok a.
Proof.
  destruct m as [t [a'|e]]; unfold lift, outcomeN, outcome; simpl.
  - intros [= ->]. reflexivity.
  - discriminate.
Qed.

Lemma outcomeN_bindN_Ok {A B} (m : N A) (k : A -> N B) b :
  outcomeN (bindN m k) = Ok b ->
  exists a, outcomeN m = Ok a /\ outcomeN (k a) = Ok b.
Proof.
  destruct m as [t [a|e]]; unfold bindN, outcomeN; simpl.
  - destruct (k a) as [t' r] eqn:K. simpl. intros ->. exists a. rewrite K. auto.
  - discriminate.
Qed.

Lemma outcomeN_callN_Ok {A} c (r : Result ErrorType A) a :
  outcomeN (callN c r) = Ok a -> r = Ok a.
Proof.
  unfold callN, outcomeN; simpl.
  destruct r; [intros [= ->]; reflexivity|discriminate].
Qed.

Lemma Forall_traceN_bindN {A B} (P : MoreCall -> Prop) (m : N A) (k : A -> N B) :
  Forall P (traceN m) -> (forall a, Forall P (traceN (k a))) ->
  Forall P (traceN (bindN m k)).
Proof.
  intros Hm Hk. destruct m as [t [a|e]]; unfold bindN, traceN in *; simpl in *.
  - specialize (Hk a). destruct (k a) as [t' r]. simpl in *.
    apply Forall_app. split; assumption.
  - exact Hm.
Qed.

Lemma Forall_traceN_lift {A} (P : Call -> Prop) (m : M A) :
  Forall P (trace m) -> Forall (onCore P) (traceN (lift m)).
Proof.
  unfold lift, traceN, trace. simpl. intros H.
  apply Forall_map. exact H.
Qed.

Lemma Forall_traceN_callN {A} (P : MoreCall -> Prop) c (r : Result ErrorType A) :
  P c -> Forall P (traceN (callN c r)).
Proof. intros H. repeat constructor. exact H. Qed.

Section MoreNativesProperties.

Context {collaborators : Collaborators} {more : MoreCollaborators}.

Lemma RequireObjectArg_object o :
  RequireObjectArg (ObjectValue o) = ([call_RequireObjectArg (ObjectValue o)], Ok o).
Proof. reflexivity. Qed.

Lemma RequireObjectArg_other v :
  isObject v = false ->
  RequireObjectArg v
  = ([call_RequireObjectArg v], Err (Raised (call_RequireObjectArg v) TypeError)).
Proof. destruct v; try discriminate; reflexivity. Qed.

(** X15. with looks at its argument before anything else: an argument that
    is not an object is a type error after that one check; an object that
    ThrowIfTemporalLikeObject refuses is refused before the options are
    read; and options that fail are the outcome before a field of the
    receiver is read. *)
Theorem with_checks_argument_first :
  forall Y args,
    (isObject (get args 0) = false ->
     PlainYearMonth_with Y args
     = ([core (call_RequireObjectArg (get args 0))],
        Err (coreError (Raised (call_RequireObjectArg (get args 0)) TypeError))))
    /\ (forall o t,
          get args 0 = ObjectValue o ->
          ThrowIfTemporalLikeObject_impl o = Err t ->
          PlainYearMonth_with Y args
          = ([core (call_RequireObjectArg (ObjectValue o));
              call_ThrowIfTemporalLikeObject o],
             Err (RaisedMore (call_ThrowIfTemporalLikeObject o) t)))
    /\ (forall o tO e,
          get args 0 = ObjectValue o ->
          ThrowIfTemporalLikeObject_impl o = Ok tt ->
          overflowOption args = (tO, Err e) ->
          PlainYearMonth_with Y args
          = (core (call_RequireObjectArg (ObjectValue o))
               :: call_ThrowIfTemporalLikeObject o :: map core tO,
             Err (coreError e))).
Proof.
  intros Y args. unfold PlainYearMonth_with. split; [|split].
  - intros H. rewrite (lift_Err _ _ _ (RequireObjectArg_other _ H)). reflexivity.
  - intros o t HA HT. rewrite HA.
    rewrite (lift_Ok _ _ _ (RequireObjectArg_object o)). unfold bindN at 1.
    unfold ThrowIfTemporalLikeObject. rewrite HT. reflexivity.
  - intros o tO e HA HT HO. rewrite HA.
    rewrite (lift_Ok _ _ _ (RequireObjectArg_object o)). unfold bindN at 1.
    unfold ThrowIfTemporalLikeObject. rewrite HT. unfold callN, bindN at 1.
    rewrite (lift_Err _ _ _ HO). reflexivity.
Qed.

(** X16. A year-month that with returns satisfies the two invariants of
    the type.  It is the answer of CalendarYearMonthFromFields, with the
    overflow of the options, on fields obtained as follows: the fields
    month, monthCode and year of the receiver; the partial fields of the
    argument under the receiver's field names; the two merged by the
    calendar; the merge restricted to the receiver's field names. *)
Theorem with_returns_valid_year_month :
  forall Y args r,
    outcomeN (PlainYearMonth_with Y args) = Ok r ->
    Invariants r
    /\ exists o overflow fields partialYearMonth merged result,
         get args 0 = ObjectValue o
         /\ outcome (overflowOption args) = Ok overflow
         /\ PrepareCalendarFieldsAndFieldNames_impl (CALENDAR_SLOT Y) Y
              [CF_Month; CF_MonthCode; CF_Year] = Ok fields
         /\ PreparePartialTemporalFields_impl o (keys fields)
              = Ok partialYearMonth
         /\ PrepareTemporalFields_fields_impl
              (CalendarMergeFields (CALENDAR_SLOT Y) fields partialYearMonth)
              (keys fields) = Ok merged
         /\ CalendarYearMonthFromFields_impl (CALENDAR_SLOT Y) merged overflow
              = Ok result
         /\ ToPlainDate r = ym_date result
         /\ CALENDAR_SLOT r = ym_calendar result.
Proof.
  intros Y args r H. unfold PlainYearMonth_with in H.
  apply outcomeN_bindN_Ok in H as (o & H0 & H).
  apply outcomeN_lift_Ok in H0.
  assert (HA : get args 0 = ObjectValue o).
  { destruct (get args 0); try discriminate H0.
    unfold RequireObjectArg, call, outcome in H0. simpl in H0.
    injection H0 as ->. reflexivity. }
  apply outcomeN_bindN_Ok in H as (u & _ & H).
  apply outcomeN_bindN_Ok in H as (overflow & HO & H).
  apply outcomeN_lift_Ok in HO.
  apply outcomeN_bindN_Ok in H as (fields & HF & H).
  apply outcomeN_lift_Ok, outcome_call_Ok in HF.
  apply outcomeN_bindN_Ok in H as (partialYearMonth & HP & H).
  apply outcomeN_callN_Ok in HP.
  apply outcomeN_bindN_Ok in H as (merged & HM & H).
  apply outcomeN_callN_Ok in HM.
  apply outcomeN_bindN_Ok in H as (result & HR & H).
  apply outcomeN_lift_Ok, outcome_call_Ok in HR.
  apply outcomeN_lift_Ok in H.
  apply CreateTemporalYearMonth_handle_Invariants in H as (HI & HC & HD).
  split; [exact HI|].
  exists o, overflow, fields, partialYearMonth, merged, result.
  repeat (split; [assumption|]). assumption.
Qed.

(** X17. toPlainDate reads its first argument only and knows no overflow
    option: two calls that agree on the first argument give the same
    result, whatever else they carry, the date is always asked of
    CalendarDateFromFields with constrain, and an argument that is not an
    object is a type error after that one check. *)
Theorem toPlainDate_always_constrains :
  forall Y args,
    (forall args',
       get args' 0 = get args 0 ->
       PlainYearMonth_toPlainDate Y args' = PlainYearMonth_toPlainDate Y args)
    /\ Forall (onCore anchorsWithConstrain)
         (traceN (PlainYearMonth_toPlainDate Y args))
    /\ (isObject (get args 0) = false ->
        PlainYearMonth_toPlainDate Y args
        = ([core (call_RequireObjectArg (get args 0))],
           Err (coreError
                  (Raised (call_RequireObjectArg (get args 0)) TypeError)))).
Proof.
  intros Y args. split; [|split].
  - intros args' H. unfold PlainYearMonth_toPlainDate. rewrite H. reflexivity.
  - unfold PlainYearMonth_toPlainDate.
    apply Forall_traceN_bindN;
      [apply Forall_traceN_lift; unfold RequireObjectArg;
       apply Forall_trace_call; exact I|intros item].
    apply Forall_traceN_bindN;
      [apply Forall_traceN_lift; unfold PrepareCalendarFieldsAndFieldNames;
       apply Forall_trace_call; exact I|intros receiverFields].
    apply Forall_traceN_bindN;
      [apply Forall_traceN_callN; exact I|intros inputFields].
    apply Forall_traceN_bindN;
      [apply Forall_traceN_callN; exact I|intros mergedFields].
    apply Forall_traceN_bindN;
      [apply Forall_traceN_lift; unfold CalendarDateFromFields;
       apply Forall_trace_call; reflexivity|intros result].
    apply Forall_traceN_callN. exact I.
  - intros H. unfold PlainYearMonth_toPlainDate.
    rewrite (lift_Err _ _ _ (RequireObjectArg_other _ H)). reflexivity.
Qed.

(** X18. toJSON and toLocaleString give what toString gives when it is
    called without options, for every receiver and whatever arguments
    they are handed: the string of the year-month with the calendar shown
    automatically. *)
Theorem toJSON_is_toString_without_options :
  forall Y args argsJSON argsLocale,
    hasDefined args 0 = false ->
    PlainYearMonth_toJSON Y argsJSON = PlainYearMonth_toString Y args
    /\ PlainYearMonth_toLocaleString Y argsLocale = PlainYearMonth_toString Y args
    /\ PlainYearMonth_toString Y args
       = ([call_TemporalYearMonthToString Y ShowCalendar.Auto],
          match TemporalYearMonthToString_impl Y ShowCalendar.Auto with
          | Ok s => Ok s
          | Err t =>
              Err (RaisedMore
                     (call_TemporalYearMonthToString Y ShowCalendar.Auto) t)
          end).
Proof.
  intros Y args argsJSON argsLocale H.
  unfold PlainYearMonth_toJSON, PlainYearMonth_toLocaleString,
    PlainYearMonth_toString. rewrite H.
  unfold TemporalYearMonthToString, callN, bindN, retN. simpl.
  repeat split.
Qed.

End MoreNativesProperties.

(** ** The overloads of CreateTemporalYearMonth, and the hand-off object *)

Section Overloads.

Context {collaborators : Collaborators}.

(** X19. The overloads of CreateTemporalYearMonth accept and refuse the
    same triples with the same errors: once the prototype is found, the
    constructor overload has the outcome of the PlainDate overload, and
    the overload that fills a result record succeeds exactly when that
    one does, with the same date and calendar. *)
Theorem CreateTemporalYearMonth_overloads_agree :
  forall args y m d c,
    GetPrototypeFromBuiltinConstructor_impl args = Ok tt ->
    outcome (CreateTemporalYearMonth_args args y m d c)
    = outcome (CreateTemporalYearMonth_date (mkPlainDate y m d) c)
    /\ outcome (CreateTemporalYearMonth_result (mkPlainDate y m d) c)
       = mapResult (fun o => mkYearMonth (ToPlainDate o) (CALENDAR_SLOT o))
           (outcome (CreateTemporalYearMonth_date (mkPlainDate y m d) c))
    /\ outcome (CreateTemporalYearMonth_handle (mkYearMonth (mkPlainDate y m d) c))
       = outcome (CreateTemporalYearMonth_date (mkPlainDate y m d) c).
Proof.
  intros args y m d c HP.
  unfold CreateTemporalYearMonth_handle. simpl ym_date. simpl ym_calendar.
  rewrite CreateTemporalYearMonth_args_run, CreateTemporalYearMonth_date_run,
    CreateTemporalYearMonth_result_run, HP.
  unfold outcome; simpl. split; [|split; [|reflexivity]].
  - reflexivity.
  - destruct (IsValidISODate y m d); [|reflexivity].
    destruct (ISOYearMonthWithinLimits y m); reflexivity.
Qed.

(** X20. In until and since the object whose fields are read for the other
    year-month carries the ISO date and the calendar of the converted
    argument, whether it is the argument itself (a PlainYearMonth) or the
    object created from the conversion. *)
Theorem other_object_matches_conversion :
  forall (v : Value) other o,
    outcome (ToTemporalYearMonth_default v) = Ok other ->
    outcome (otherYearMonthObject v other) = Ok o ->
    exists yearMonth,
      o = PlainYearMonthObj yearMonth
      /\ ToPlainDate yearMonth = ym_date other
      /\ CALENDAR_SLOT yearMonth = ym_calendar other.
Proof.
  intros v other o HC HO.
  assert (G : forall w,
             outcome (obj0 <- CreateTemporalYearMonth_handle other;;
                      ret (PlainYearMonthObj obj0)) = Ok w ->
             exists yearMonth,
               w = PlainYearMonthObj yearMonth
               /\ ToPlainDate yearMonth = ym_date other
               /\ CALENDAR_SLOT yearMonth = ym_calendar other).
  { intros w H. apply outcome_bind_Ok in H as (created & H & HR).
    injection HR as <-.
    unfold CreateTemporalYearMonth_handle in H.
    apply CreateTemporalYearMonth_date_Ok in H as (_ & _ & ->).
    eexists. split; [reflexivity|]. split; [|reflexivity].
    destruct (ym_date other); reflexivity. }
  unfold otherYearMonthObject in HO.
  destruct v as [| | | | |[yearMonth| |]]; try (apply G; exact HO).
  injection HO as <-. injection HC as <-.
  exists yearMonth. auto.
Qed.

End Overloads.

(** ** The further properties on concrete year-months (ISO 8601) *)

Section MoreScenarios.

Local Open Scope string_scope.

Lemma constructor_round_trip_witness :
  outcome (PlainYearMonthConstructor
             (mkArgs true [num 2020; num 2; StringValue "gregory"; num 15]))
  = Ok (mkPlainYearMonthObject 2020 2 Gregorian 15).
Proof.
  apply (constructor_round_trip
           (mkArgs true [num 2020; num 2; StringValue "gregory"; num 15])
           2020 2 Gregorian 15); try reflexivity.
  - right. exists "gregory". split; reflexivity.
  - right. split; reflexivity.
Defined.

Lemma constructor_refuses_non_string_calendar_witness :
  outcome (PlainYearMonthConstructor (mkArgs true [num 2020; num 2; NullValue]))
  = Err (Reported (JSMSG_UNEXPECTED_TYPE NullValue "not a string")).
Proof.
  exact (f_equal snd
           (proj1 (constructor_refuses_non_string_calendar
                     (mkArgs true [num 2020; num 2; NullValue]) 2020 2
                     eq_refl eq_refl eq_refl eq_refl eq_refl))).
Defined.

Lemma from_year_month_is_identity_witness :
  outcome (PlainYearMonth_from
             (arg2 (ofYM (ym 2020 1)) (obj [("overflow", StringValue "reject")])))
  = Ok (ym 2020 1).
Proof.
  refine (f_equal snd
            (from_year_month_is_identity
               (arg2 (ofYM (ym 2020 1)) (obj [("overflow", StringValue "reject")]))
               (ym 2020 1) _ Reject eq_refl eq_refl _)).
  split; [reflexivity|].
  apply ISOYearMonthWithinLimits_range. reflexivity.
Defined.

Lemma from_reads_options_first_witness :
  exists rest,
    trace (PlainYearMonth_from
             (arg2 (obj [("year", num 2020); ("month", num 13)])
                   (obj [("overflow", StringValue "reject")])))
    = ([call_RequireObjectArg (obj [("overflow", StringValue "reject")]);
        call_GetTemporalOverflowOption
          (OrdinaryObj [("overflow", StringValue "reject")])]
       ++ [call_GetTemporalCalendarWithISODefault
             (OrdinaryObj [("year", num 2020); ("month", num 13)]);
           call_PrepareCalendarFields ISO8601
             (OrdinaryObj [("year", num 2020); ("month", num 13)])
             [CF_Month; CF_MonthCode; CF_Year];
           call_CalendarYearMonthFromFields ISO8601
             (mkFields (Some 2020) (Some 13) None None) Reject]
       ++ rest)%list.
Proof.
  exact (proj2 (from_reads_options_first
                  (arg2 (obj [("year", num 2020); ("month", num 13)])
                        (obj [("overflow", StringValue "reject")])))
           [("year", num 2020); ("month", num 13)] _ Reject ISO8601
           (mkFields (Some 2020) (Some 13) None None)
           eq_refl eq_refl eq_refl eq_refl).
Defined.

Lemma primitive_argument_is_type_error_witness :
  PlainYearMonth_equals (ym 2020 1) (mkArgs false [])
  = ([], Err (Reported (JSMSG_UNEXPECTED_TYPE UndefinedValue "not a string"))).
Proof.
  exact (proj1 (proj2 (proj2 (proj2
           (primitive_argument_is_type_error UndefinedValue Constrain
              eq_refl eq_refl)) (mkArgs false []) eq_refl) (ym 2020 1) Until)).
Defined.

Lemma string_refused_before_normalization_witness :
  ToTemporalYearMonth (StringValue "+275760-10") Constrain
  = ([call_ParseTemporalYearMonthString "+275760-10";
      call_ThrowIfInvalidISODate 275760 10 1],
     Err (Reported JSMSG_TEMPORAL_PLAIN_YEAR_MONTH_INVALID)).
Proof.
  exact (proj2 (string_refused_before_normalization "+275760-10" Constrain
                  (mkPlainDate 275760 10 1) None eq_refl)
           ISO8601 eq_refl eq_refl eq_refl).
Defined.

Lemma compare_converts_in_order_witness :
  PlainYearMonth_compare (arg2 (StringValue "2020") (StringValue "2020-01"))
  = ([call_ParseTemporalYearMonthString "2020"],
     Err (Raised (call_ParseTemporalYearMonthString "2020") RangeError)).
Proof.
  exact (proj1 (compare_converts_in_order
                  (arg2 (StringValue "2020") (StringValue "2020-01")))
           _ _ eq_refl).
Defined.

Lemma equals_is_slot_equality_witness :
  PlainYearMonth_equals (ym 2020 1) (arg1 (ofYM (ymIn Gregorian 2020 1)))
  = PlainYearMonth_equals (ymIn Gregorian 2020 1) (arg1 (ofYM (ym 2020 1))).
Proof.
  exact (proj1 (proj2 (proj2
           (equals_is_slot_equality (ym 2020 1) (ymIn Gregorian 2020 1)
              (ym 2020 1))))).
Defined.

Lemma natives_return_valid_year_months_witness :
  Invariants (ym 2018 11).
Proof.
  exact (proj1 (proj2 (natives_return_valid_year_months
                         (arg1 (StringValue "P1Y2M")) (ym 2018 11))
                  Subtract (ym 2020 1) eq_refl)).
Defined.

Lemma subtract_is_add_of_negation_witness :
  outcome (PlainYearMonth_subtract (ym 2020 1) (arg1 (obj [("months", num 1)])))
  = outcome (PlainYearMonth_add (ym 2020 1) (arg1 (obj [("months", num (-1))]))).
Proof.
  exact (subtract_is_add_of_negation (ym 2020 1)
           (arg1 (obj [("months", num 1)])) (arg1 (obj [("months", num (-1))]))
           (Duration.mk 0 1 0 0 0 0 0 0 0 0) eq_refl eq_refl eq_refl).
Defined.

Lemma add_checks_arguments_first_witness :
  AddDurationToOrSubtractDurationFromPlainYearMonth Add (ym 2020 1)
    (arg2 (obj [("months", num 1)]) (num 5))
  = ([call_ToTemporalDurationRecord (obj [("months", num 1)]);
      call_RequireObjectArg (num 5)],
     Err (Raised (call_RequireObjectArg (num 5)) TypeError)).
Proof.
  exact (proj1 (proj2 (add_checks_arguments_first Add (ym 2020 1)
                         (arg2 (obj [("months", num 1)]) (num 5))))
           (Duration.mk 0 1 0 0 0 0 0 0 0 0) _ _ eq_refl eq_refl).
Defined.

Lemma difference_without_options_never_rounds_witness :
  Forall usesDefaultSettings
    (trace (DifferenceTemporalPlainYearMonth Until (ym 2020 1)
              (arg1 (StringValue "2021-03")))).
Proof.
  exact (difference_without_options_never_rounds Until (ym 2020 1)
           (arg1 (StringValue "2021-03")) eq_refl).
Defined.

Lemma with_checks_argument_first_witness :
  PlainYearMonth_with (ym 2020 1) (arg1 (ofYM (ym 2021 3)))
  = ([core (call_RequireObjectArg (ofYM (ym 2021 3)));
      call_ThrowIfTemporalLikeObject (PlainYearMonthObj (ym 2021 3))],
     Err (RaisedMore
            (call_ThrowIfTemporalLikeObject (PlainYearMonthObj (ym 2021 3)))
            TypeError)).
Proof.
  exact (proj1 (proj2 (with_checks_argument_first (ym 2020 1)
                         (arg1 (ofYM (ym 2021 3)))))
           (PlainYearMonthObj (ym 2021 3)) TypeError eq_refl eq_refl).
Defined.

Lemma with_returns_valid_year_month_witness :
  Invariants (ym 2023 5).
Proof.
  exact (proj1 (with_returns_valid_year_month (ym 2023 2)
                  (arg1 (obj [("month", num 5)])) (ym 2023 5) eq_refl)).
Defined.

Lemma toPlainDate_always_constrains_witness :
  outcomeN (PlainYearMonth_toPlainDate (ym 2023 2)
              (arg2 (obj [("day", num 31)])
                    (obj [("overflow", StringValue "reject")])))
  = Ok (mkPlainDateObject (mkPlainDate 2023 2 28) ISO8601).
Proof.
  exact (f_equal snd
           (proj1 (toPlainDate_always_constrains (ym 2023 2)
                     (arg1 (obj [("day", num 31)])))
              (arg2 (obj [("day", num 31)])
                    (obj [("overflow", StringValue "reject")])) eq_refl)).
Defined.

Lemma toJSON_is_toString_without_options_witness :
  PlainYearMonth_toJSON (ymIn Gregorian 2020 1) (arg1 (num 7))
  = PlainYearMonth_toString (ymIn Gregorian 2020 1) (arg1 UndefinedValue).
Proof.
  exact (proj1 (toJSON_is_toString_without_options (ymIn Gregorian 2020 1)
                  (arg1 UndefinedValue) (arg1 (num 7)) (arg1 (num 7)) eq_refl)).
Defined.

Lemma CreateTemporalYearMonth_overloads_agree_witness :
  outcome (CreateTemporalYearMonth_args (mkArgs true []) 275760 10 1 ISO8601)
  = outcome (CreateTemporalYearMonth_date (mkPlainDate 275760 10 1) ISO8601).
Proof.
  exact (proj1 (CreateTemporalYearMonth_overloads_agree (mkArgs true [])
                  275760 10 1 ISO8601 eq_refl)).
Defined.

Lemma other_object_matches_conversion_witness :
  exists yearMonth,
    PlainYearMonthObj (ym 2021 3) = PlainYearMonthObj yearMonth
    /\ ToPlainDate yearMonth = mkPlainDate 2021 3 1
    /\ CALENDAR_SLOT yearMonth = ISO8601.
Proof.
  exact (other_object_matches_conversion (StringValue "2021-03")
           (mkYearMonth (mkPlainDate 2021 3 1) ISO8601)
           (PlainYearMonthObj (ym 2021 3)) eq_refl eq_refl).
Defined.

(** Further scenarios of the specification, section 8. *)

Example scenario_toPlainDate_constrains :
  outcomeN (PlainYearMonth_toPlainDate (ym 2023 2) (arg1 (obj [("day", num 31)])))
  = Ok (mkPlainDateObject (mkPlainDate 2023 2 28) ISO8601).
Proof. reflexivity. Qed.

Example scenario_with_month :
  outcomeN (PlainYearMonth_with (ym 2023 2) (arg1 (obj [("month", num 5)])))
  = Ok (ym 2023 5).
Proof. reflexivity. Qed.

Example scenario_toString :
  outcomeN (PlainYearMonth_toString (ym 2020 1) (mkArgs false []))
    = Ok "2020-01"
  /\ outcomeN (PlainYearMonth_toString (ymIn Gregorian (-5) 2)
                 (arg1 (obj [("calendarName", StringValue "critical")])))
     = Ok "-000005-02-01[!u-ca=gregory]".
Proof. split; reflexivity. Qed.

End MoreScenarios.

(** ** equals and the difference operation together *)

Section EqualsAndDifference.

Context {collaborators : Collaborators}.

(** X21. Year-months that equals finds equal are a zero duration apart:
    when equals answers true for a PlainYearMonth argument and the options
    resolve, until and since return the zero duration, and the only calls
    made are those that read the options. *)
Theorem equal_year_months_are_zero_apart :
  forall operation (a b : PlainYearMonthObject) args t s,
    get args 0 = ofYM b ->
    outcome (PlainYearMonth_equals a (arg1 (ofYM b))) = Ok true ->
    resolveDifferenceSettings operation args = (t, Ok s) ->
    DifferenceTemporalPlainYearMonth operation a args = (t, Ok Duration.zero).
Proof.
  intros operation a b args t s HA HE HS.
  unfold PlainYearMonth_equals, arg1, get, outcome in HE. simpl in HE.
  injection HE as HE. apply andb_true_iff in HE as [HD HC].
  apply (Difference_equal_anchors operation a args
           [] (mkYearMonth (ToPlainDate b) (CALENDAR_SLOT b))
           [] (PlainYearMonthObj b) t s); try assumption.
  - rewrite HA. reflexivity.
  - rewrite HA. reflexivity.
Qed.

End EqualsAndDifference.

Lemma equal_year_months_are_zero_apart_witness :
  DifferenceTemporalPlainYearMonth Since (ymIn Gregorian 2020 1)
    (arg1 (ofYM (ymIn Gregorian 2020 1)))
  = ([], Ok Duration.zero).
Proof.
  exact (equal_year_months_are_zero_apart Since (ymIn Gregorian 2020 1)
           (ymIn Gregorian 2020 1) (arg1 (ofYM (ymIn Gregorian 2020 1)))
           [] (mkSettings Month Year Trunc 1) eq_refl eq_refl eq_refl).
Defined.
